(** * OnyxBot for Mattermost: routing cache, commands and reply pipeline

    A shallow embedding of
    - [onyx/onyxbot/mattermost/cache.py]           (MattermostCacheManager),
    - [onyx/onyxbot/mattermost/handle_commands.py] (registration, sync-channels),
    - [onyx/onyxbot/mattermost/handle_message.py]  (citations, reply placement,
      message splitting),
    together with the properties of these functions stated in the design
    document.

    Conventions.  A Python [str] is a [string]; characters are code points
    below 256.  A Python [int] is a [Z].  A [dict] is a [gmap].  Code that
    raises, mutates the cache, talks to the database or to the chat platform
    runs in the monad [M], a state monad over [State] whose results are
    either a value or a raised exception. *)

From Stdlib Require Import ZArith String Ascii List Lia DecimalString.
From stdpp Require Import base option list sorting gmap strings.

(** ** Python string primitives *)

(** [len(s)] *)
Definition len (s : string) : Z := Z.of_nat (String.length s).

(** [bool(s)]: a string is truthy unless it is empty. *)
Definition truthy (s : string) : bool :=
  match s with
  | EmptyString => false
  | String _ _ => true
  end.

(** [bool(o)] for a value of type [str | None]. *)
Definition truthy_opt (o : option string) : bool :=
  match o with
  | Some s => truthy s
  | None => false
  end.

Fixpoint str_take (n : nat) (s : string) : string :=
  match n, s with
  | S n', String c s' => String c (str_take n' s')
  | _, _ => EmptyString
  end.

Fixpoint str_drop (n : nat) (s : string) : string :=
  match n, s with
  | S n', String _ s' => str_drop n' s'
  | _, _ => s
  end.

(** [s[:k]] for an index [0 <= k] (the only slices the sources take). *)
Definition slice_to (s : string) (k : Z) : string := str_take (Z.to_nat k) s.

(** [s[k:]] for an index [0 <= k]. *)
Definition slice_from (s : string) (k : Z) : string := str_drop (Z.to_nat k) s.

(** [s.startswith(prefix)] *)
Fixpoint startswith (s prefix : string) {struct prefix} : bool :=
  match prefix, s with
  | EmptyString, _ => true
  | String p prefix', String c s' => if Ascii.eqb c p then startswith s' prefix' else false
  | String _ _, EmptyString => false
  end.

(** [sub in s] *)
Fixpoint str_in (sub s : string) : bool :=
  startswith s sub ||
  match s with
  | EmptyString => false
  | String _ s' => str_in sub s'
  end.

(** [s.partition(sep)] when [sep] occurs in [s]: the text before the first
    occurrence and the text after it. *)
Fixpoint str_partition (s sep : string) : option (string * string) :=
  if startswith s sep then Some (EmptyString, str_drop (String.length sep) s)
  else
    match s with
    | EmptyString => None
    | String c s' =>
        match str_partition s' sep with
        | Some (before, after) => Some (String c before, after)
        | None => None
        end
    end.

(** [s.split(sep, 1)] for a non-empty separator. *)
Definition split_once (s sep : string) : list string :=
  match str_partition s sep with
  | Some (before, after) => [before; after]
  | None => [s]
  end.

(** [c.isspace()] on the code points below 256. *)
Definition isspace (c : ascii) : bool :=
  let n := nat_of_ascii c in
  ((9 <=? n) && (n <=? 13)) || ((28 <=? n) && (n <=? 32)) || (n =? 133) || (n =? 160).

(** [s.lstrip()] *)
Fixpoint lstrip (s : string) : string :=
  match s with
  | EmptyString => EmptyString
  | String c s' => if isspace c then lstrip s' else s
  end.

(** [s.rstrip()] *)
Fixpoint rstrip (s : string) : string :=
  match s with
  | EmptyString => EmptyString
  | String c s' =>
      match rstrip s' with
      | EmptyString => if isspace c then EmptyString else String c EmptyString
      | r => String c r
      end
  end.

(** [s.strip()] *)
Definition strip (s : string) : string := rstrip (lstrip s).

(** The first whitespace-delimited word of [s] and what follows it. *)
Fixpoint span_word (s : string) : string * string :=
  match s with
  | EmptyString => (EmptyString, EmptyString)
  | String c s' =>
      if isspace c then (EmptyString, s)
      else let '(w, r) := span_word s' in (String c w, r)
  end.

(** [s.split(maxsplit=1)]: split on runs of whitespace, at most once; the
    remainder keeps its trailing whitespace. *)
Definition split_maxsplit1 (s : string) : list string :=
  match lstrip s with
  | EmptyString => []
  | s1 =>
      let '(w, r) := span_word s1 in
      match lstrip r with
      | EmptyString => [w]
      | r' => [w; r']
      end
  end.

(** The scan behind [rfind]: [i] is the index of the head of [s] in the
    original string, [best] the highest index seen so far at which [sep]
    starts. *)
Fixpoint rfind_scan (s sep : string) (i best : Z) : Z :=
  let best' := if startswith s sep then i else best in
  match s with
  | EmptyString => best'
  | String _ s' => rfind_scan s' sep (i + 1) best'
  end.

(** [s.rfind(sep, 0, stop)]: the highest index at which [sep] occurs inside
    [s[0:stop]], or [-1]. *)
Definition rfind (s sep : string) (stop : Z) : Z :=
  rfind_scan (slice_to s stop) sep 0 (-1).

(** [str(n)] for an [int]. *)
Definition str_of_int (n : Z) : string := NilZero.string_of_int (Z.to_int n).

Definition newline : string := String (ascii_of_nat 10) EmptyString.

(** ** constants.py *)

Definition MAX_MESSAGE_LENGTH : Z := 16383.
Definition REGISTER_COMMAND : string := "register".
Definition SYNC_CHANNELS_COMMAND : string := "sync-channels".

(** ** handle_commands.py: parse_mattermost_registration_key *)

Definition parse_mattermost_registration_key (key : string) : option string :=
  if negb (startswith key "mattermost_") then None
  else
    let rest := slice_from key (len "mattermost_") in
    if negb (str_in "." rest) then None
    else
      let tenant_id := nth 0 (split_once rest ".") EmptyString in
      if truthy tenant_id then Some tenant_id else None.

(** ** handle_message.py: _split_message *)

(** The separators tried by [_split_message], in order. *)
Definition split_separators : list string :=
  [newline +:+ newline; newline; ". "; " "].

(** The [for sep in ...] loop of [_split_message]: the first separator whose
    rightmost occurrence before the limit lies strictly beyond half the limit
    decides the split point; otherwise the hard limit is kept. *)
Fixpoint find_split_at (content : string) (seps : list string) : Z :=
  match seps with
  | [] => MAX_MESSAGE_LENGTH
  | sep :: seps' =>
      let idx := rfind content sep MAX_MESSAGE_LENGTH in
      if (idx >? MAX_MESSAGE_LENGTH / 2)%Z then (idx + len sep)%Z
      else find_split_at content seps'
  end.

(** The [while content:] loop.  [fuel] bounds the number of iterations;
    [None] means the bound was reached before the loop exited. *)
Fixpoint split_loop (fuel : nat) (content : string) (chunks : list string)
  : option (list string) :=
  match fuel with
  | O => None
  | S fuel' =>
      if truthy content then
        if (len content <=? MAX_MESSAGE_LENGTH)%Z then Some (chunks ++ [content])
        else
          let split_at := find_split_at content split_separators in
          split_loop fuel' (slice_from content split_at)
                     (chunks ++ [slice_to content split_at])
      else Some chunks
  end.

(** [_split_message(content)].  One iteration per character plus one is
    always enough for the loop to exit (lemma [split_message_run]), so the
    default is never taken. *)
Definition _split_message (content : string) : list string :=
  default [] (split_loop (S (String.length content)) content []).

(** ** handle_message.py: _append_citations *)

(** Modelled from the spec: the answer-service response ([ChatFullResponse],
    declared in [onyx.chat.models]) with the fields the design document lists:
    [{answer, citation_info[{citation_number, document_id}],
    top_documents[{document_id, semantic_identifier, link}]}]. *)
Module CitationInfo.
Record t : Type := mk { citation_number : Z; document_id : string }.
End CitationInfo.

Module SearchDoc.
Record t : Type :=
  mk { document_id : string; semantic_identifier : string; link : option string }.
End SearchDoc.

Module ChatFullResponse.
Record t : Type :=
  mk { answer : string;
       citation_info : list CitationInfo.t;
       top_documents : list SearchDoc.t }.
End ChatFullResponse.

(** An element of [cited_docs]: [(citation_number, name, link)]. *)
Definition cited_doc : Type := Z * string * option string.

Definition cited_number (d : cited_doc) : Z := d.1.1.

(** [next((d for d in top_documents if d.document_id == document_id), None)] *)
Definition find_document (top_documents : list SearchDoc.t) (document_id : string)
  : option SearchDoc.t :=
  List.find (fun d => String.eqb (SearchDoc.document_id d) document_id) top_documents.

(** One iteration of the loop that fills [cited_docs]: the citation is kept
    when a top document carries its document id. *)
Definition cite (top_documents : list SearchDoc.t) (citation : CitationInfo.t)
  : option cited_doc :=
  match find_document top_documents (CitationInfo.document_id citation) with
  | Some doc =>
      Some (CitationInfo.citation_number citation,
            (if truthy (SearchDoc.semantic_identifier doc)
             then SearchDoc.semantic_identifier doc else "Source"),
            SearchDoc.link doc)
  | None => None
  end.

Definition collect_cited_docs (citation_info : list CitationInfo.t)
    (top_documents : list SearchDoc.t) : list cited_doc :=
  omap (cite top_documents) citation_info.

(** [cited_docs.sort(key=lambda x: x[0])]: Python's sort is stable; so is this
    insertion sort (lemma [sort_by_number_stable]). *)
Fixpoint insert_by_number (x : cited_doc) (l : list cited_doc) : list cited_doc :=
  match l with
  | [] => [x]
  | y :: l' =>
      if (cited_number x <=? cited_number y)%Z then x :: y :: l'
      else y :: insert_by_number x l'
  end.

Definition sort_by_number (l : list cited_doc) : list cited_doc :=
  foldr insert_by_number [] l.

(** One line of the sources block. *)
Definition render_citation (d : cited_doc) : string :=
  let '(num, name, link) := d in
  match link with
  | Some (String c l) =>
      str_of_int num +:+ ". [" +:+ name +:+ "](" +:+ String c l +:+ ")" +:+ newline
  | _ => str_of_int num +:+ ". " +:+ name +:+ newline
  end.

Definition sources_header : string :=
  newline +:+ newline +:+ "**Sources:**" +:+ newline.

(** The block for the entries actually listed. *)
Definition render_block (entries : list cited_doc) : string :=
  fold_left (fun citations d => citations +:+ render_citation d) entries sources_header.

Definition _append_citations (answer : string) (response : ChatFullResponse.t) : string :=
  match ChatFullResponse.citation_info response, ChatFullResponse.top_documents response with
  | [], _ | _, [] => answer
  | _ :: _, _ :: _ =>
      let cited_docs :=
        collect_cited_docs (ChatFullResponse.citation_info response)
                           (ChatFullResponse.top_documents response) in
      match cited_docs with
      | [] => answer
      | _ :: _ => answer +:+ render_block (take 5 (sort_by_number cited_docs))
      end
  end.

(** ** exceptions.py *)

(** The exception classes the code raises or catches.  [ExternalError] stands
    for any other [Exception] raised by a collaborator (database session,
    chat-platform driver, tenant listing).  Every constructor is an
    [Exception]. *)
Inductive exn : Type :=
| RegistrationError (msg : string)
| SyncChannelsError (msg : string)
| CacheError (msg : string)
| RuntimeError (msg : string)
| ExternalError (msg : string).

(** [str(e)] *)
Definition exn_str (e : exn) : string :=
  match e with
  | RegistrationError msg | SyncChannelsError msg | CacheError msg
  | RuntimeError msg | ExternalError msg => msg
  end.

(** ** Persisted configuration *)

(** Modelled from the spec: the ORM classes of [onyx.db.models], with the
    fields of the design document's data model (bot config row, TeamConfig,
    service API key record). *)
Module MattermostBotConfig.
Record t : Type :=
  mk { server_url : string; bot_token : string; bot_user_id : option string }.
End MattermostBotConfig.

Module MattermostTeamConfig.
Record t : Type :=
  mk { id : Z;
       registration_key : string;
       team_id : option string;
       team_name : option string;
       enabled : bool;
       default_persona_id : option Z;
       registered_at : option Z }.
End MattermostTeamConfig.

Module ApiKey.
Record t : Type := mk { hashed_api_key : string; api_key_display : string }.
End ApiKey.

(** One tenant's relational store, as far as the bot reads and writes it. *)
Record TenantDb : Type :=
  mkTenantDb {
    bot_config : option MattermostBotConfig.t;
    team_configs : list MattermostTeamConfig.t;
    service_api_key : option ApiKey.t }.

(** Modelled from the spec: key issuance ([onyx.auth.api_key],
    [onyx.db.api_key]) is an external collaborator.  [generate_api_key tenant n]
    is the raw key drawn at entropy state [n]; [insert_api_key n] is the raw
    key carried by the descriptor of a freshly inserted record, if any. *)
Class ApiKeyBackend : Type :=
  { generate_api_key : string -> nat -> string;
    hash_api_key : string -> string;
    build_displayable_api_key : string -> string;
    insert_api_key : nat -> option string }.

(** ** handle_message.py: MattermostMessage *)

Module MattermostMessage.
Record t : Type :=
  mk { post_id : string;
       channel_id : string;
       team_id : string;
       user_id : string;
       username : string;
       message : string;
       root_id : string;
       mentions : list string }.

(** The [is_thread] property: [bool(self.root_id)]. *)
Definition is_thread (m : t) : bool := truthy (root_id m).
End MattermostMessage.

(** ** The chat platform *)

(** The [options] dictionary handed to the platform's [create_post]:
    [root_id] is present only when a non-empty root was given
    ([MattermostDriverImpl.create_post] in client.py). *)
Record Post : Type :=
  mkPost { post_channel_id : string; post_message : string; post_root_id : option string }.

(** The root a created post has on the platform: the empty string when the
    post was made without one. *)
Definition root_of (p : Post) : string := default EmptyString (post_root_id p).

(** ** cache.py: MattermostCacheManager *)

Record MattermostCacheManager : Type :=
  mkCache {
    _team_tenants : gmap string string;
    _api_keys : gmap string string;
    _server_urls : gmap string string;
    _bot_tokens : gmap string string;
    _initialized : bool }.

(** [MattermostCacheManager()] *)
Definition new_cache : MattermostCacheManager :=
  mkCache ∅ ∅ ∅ ∅ false.

Definition get_tenant (c : MattermostCacheManager) (team_id : string) : option string :=
  _team_tenants c !! team_id.

Definition get_api_key (c : MattermostCacheManager) (tenant_id : string) : option string :=
  _api_keys c !! tenant_id.

Definition get_server_url (c : MattermostCacheManager) (tenant_id : string) : option string :=
  _server_urls c !! tenant_id.

Definition get_bot_token (c : MattermostCacheManager) (tenant_id : string) : option string :=
  _bot_tokens c !! tenant_id.

(** ** The world the bot runs in *)

(** Modelled from the spec: the external collaborators the sources call but
    do not contain - the per-tenant relational store behind
    [get_session_with_tenant], the tenant listing and gating lookups, the
    tenant context variable, the clock, the randomness of key generation and
    the chat platform reached through the driver.  A collaborator that can
    fail does so as the world says. *)
Record World : Type :=
  mkWorld {
    dbs : gmap string TenantDb;
      (* tenant id -> committed relational store; a tenant without one makes
         [get_session_with_tenant] raise *)
    session : option (string * TenantDb);
      (* the open database session: its tenant and uncommitted working copy *)
    gated_tenants : option (gset string);
      (* what [get_gated_tenants()] returns; [None]: it raises *)
    all_tenant_ids : option (list string);
      (* what [get_all_tenant_ids()] returns; [None]: it raises *)
    entropy : nat;
    clock : Z;
    current_tenant : option string;
      (* CURRENT_TENANT_ID_CONTEXTVAR *)
    posts : list Post;
      (* posts created on the platform, oldest first *)
    driver_faults : list bool
      (* outcome of the next driver calls: [true] makes the call raise *) }.

Record State : Type :=
  mkState { world : World; cache : MattermostCacheManager }.

Definition set_dbs (v : gmap string TenantDb) (s : State) : State :=
  let w := world s in
  mkState (mkWorld v (session w) (gated_tenants w) (all_tenant_ids w) (entropy w)
             (clock w) (current_tenant w) (posts w) (driver_faults w)) (cache s).

Definition set_session (v : option (string * TenantDb)) (s : State) : State :=
  let w := world s in
  mkState (mkWorld (dbs w) v (gated_tenants w) (all_tenant_ids w) (entropy w)
             (clock w) (current_tenant w) (posts w) (driver_faults w)) (cache s).

Definition set_entropy (v : nat) (s : State) : State :=
  let w := world s in
  mkState (mkWorld (dbs w) (session w) (gated_tenants w) (all_tenant_ids w) v
             (clock w) (current_tenant w) (posts w) (driver_faults w)) (cache s).

Definition set_current_tenant (v : option string) (s : State) : State :=
  let w := world s in
  mkState (mkWorld (dbs w) (session w) (gated_tenants w) (all_tenant_ids w) (entropy w)
             (clock w) v (posts w) (driver_faults w)) (cache s).

Definition set_posts (v : list Post) (s : State) : State :=
  let w := world s in
  mkState (mkWorld (dbs w) (session w) (gated_tenants w) (all_tenant_ids w) (entropy w)
             (clock w) (current_tenant w) v (driver_faults w)) (cache s).

Definition set_driver_faults (v : list bool) (s : State) : State :=
  let w := world s in
  mkState (mkWorld (dbs w) (session w) (gated_tenants w) (all_tenant_ids w) (entropy w)
             (clock w) (current_tenant w) (posts w) v) (cache s).

Definition set_cache (v : MattermostCacheManager) (s : State) : State :=
  mkState (world s) v.

(** ** The monad of effectful code *)

Inductive outcome (A : Type) : Type :=
| Returned (a : A)
| Raised (e : exn).
Arguments Returned {A} a.
Arguments Raised {A} e.

Definition M (A : Type) : Type := State -> outcome A * State.

Definition ret {A : Type} (a : A) : M A := fun s => (Returned a, s).

Definition bind {A B : Type} (m : M A) (k : A -> M B) : M B :=
  fun s =>
    match m s with
    | (Returned a, s') => k a s'
    | (Raised e, s') => (Raised e, s')
    end.

Notation "x <- m ;; k" := (bind m (fun x => k))
  (at level 100, m at next level, right associativity).
Notation "m ;;; k" := (bind m (fun _ => k))
  (at level 100, right associativity).

(** [raise e] *)
Definition raise {A : Type} (e : exn) : M A := fun s => (Raised e, s).

Definition gets {A : Type} (f : State -> A) : M A := fun s => (Returned (f s), s).

Definition modify (f : State -> State) : M unit := fun s => (Returned tt, f s).

(** [try: body / except ...: handler]; the handler re-raises what its
    [except] clauses do not match. *)
Definition try_except {A : Type} (body : M A) (handler : exn -> M A) : M A :=
  fun s =>
    match body s with
    | (Returned a, s') => (Returned a, s')
    | (Raised e, s') => handler e s'
    end.

(** [try: body / finally: cleanup] *)
Definition try_finally {A : Type} (body : M A) (cleanup : M unit) : M A :=
  fun s =>
    let '(r, s') := body s in
    match cleanup s' with
    | (Returned _, s'') => (r, s'')
    | (Raised e, s'') => (Raised e, s'')
    end.

(** [for x in l: body(x)] *)
Fixpoint for_each {A : Type} (l : list A) (body : A -> M unit) : M unit :=
  match l with
  | [] => ret tt
  | x :: l' => body x ;;; for_each l' body
  end.

(** A [for] loop that updates local variables [acc]. *)
Fixpoint for_fold {A B : Type} (l : list A) (acc : B) (body : B -> A -> M B) : M B :=
  match l with
  | [] => ret acc
  | x :: l' => acc' <- body acc x ;; for_fold l' acc' body
  end.

(** ** Collaborators: context variable, database sessions, platform driver *)

(** Modelled from the spec: [CURRENT_TENANT_ID_CONTEXTVAR.set(tenant_id)]
    ([shared_configs.contextvars]); the token is the value to restore. *)
Definition contextvar_set (tenant_id : string) : M (option string) :=
  token <- gets (fun s => current_tenant (world s)) ;;
  modify (set_current_tenant (Some tenant_id)) ;;;
  ret token.

(** Modelled from the spec: [CURRENT_TENANT_ID_CONTEXTVAR.reset(token)]. *)
Definition contextvar_reset (token : option string) : M unit :=
  modify (set_current_tenant token).

(** Modelled from the spec:
    [with get_session_with_tenant(tenant_id=tenant_id) as db: body]
    ([onyx.db.engine.sql_engine]).  The session works on a copy of the
    tenant's store; leaving the block, normally or by an exception, discards
    what was not committed.  A tenant whose store cannot be reached makes the
    call raise. *)
Definition get_session_with_tenant {A : Type} (tenant_id : string) (body : M A) : M A :=
  fun s =>
    match dbs (world s) !! tenant_id with
    | None => (Raised (ExternalError "database session unavailable"), s)
    | Some db =>
        let outer := session (world s) in
        let '(r, s') := body (set_session (Some (tenant_id, db)) s) in
        (r, set_session outer s')
    end.

(** Modelled from the spec: reading and writing the rows of the open
    session (the ORM's queries and attribute assignments). *)
Definition db_read : M TenantDb :=
  fun s =>
    match session (world s) with
    | Some (_, db) => (Returned db, s)
    | None => (Raised (ExternalError "no open database session"), s)
    end.

Definition db_write (db : TenantDb) : M unit :=
  fun s =>
    match session (world s) with
    | Some (tenant_id, _) => (Returned tt, set_session (Some (tenant_id, db)) s)
    | None => (Raised (ExternalError "no open database session"), s)
    end.

(** Modelled from the spec: [db.commit()], which publishes the working
    copy. *)
Definition db_commit : M unit :=
  fun s =>
    match session (world s) with
    | Some (tenant_id, db) => (Returned tt, set_dbs (<[tenant_id := db]> (dbs (world s))) s)
    | None => (Raised (ExternalError "no open database session"), s)
    end.

(** Modelled from the spec: [get_gated_tenants()] (enterprise gating,
    reached through [fetch_ee_implementation_or_noop]) and
    [get_all_tenant_ids()] ([onyx.db.engine.tenant_utils]). *)
Definition get_gated_tenants : M (gset string) :=
  fun s =>
    match gated_tenants (world s) with
    | Some gated => (Returned gated, s)
    | None => (Raised (ExternalError "gated tenant lookup failed"), s)
    end.

Definition get_all_tenant_ids : M (list string) :=
  fun s =>
    match all_tenant_ids (world s) with
    | Some tenant_ids => (Returned tenant_ids, s)
    | None => (Raised (ExternalError "tenant listing failed"), s)
    end.

(** Modelled from the spec: a request to the chat platform through the
    mattermostdriver library; it raises when the next scheduled driver outcome
    is a fault. *)
Definition driver_call (effect : State -> State) : M unit :=
  fun s =>
    match driver_faults (world s) with
    | true :: rest => (Raised (ExternalError "driver request failed"), set_driver_faults rest s)
    | false :: rest => (Returned tt, effect (set_driver_faults rest s))
    | [] => (Returned tt, effect s)
    end.

(** [mm_driver.create_post(channel_id, message, root_id)]
    ([MattermostDriverImpl.create_post]). *)
Definition create_post (channel_id message : string) (root_id : option string) : M unit :=
  let options := mkPost channel_id message (if truthy_opt root_id then root_id else None) in
  driver_call (fun s => set_posts (posts (world s) ++ [options]) s).

(** ** db/mattermost_bot.py *)

Definition get_mattermost_bot_config : M (option MattermostBotConfig.t) :=
  db <- db_read ;; ret (bot_config db).

Definition get_team_configs : M (list MattermostTeamConfig.t) :=
  db <- db_read ;; ret (team_configs db).

(** The row found is returned with its position in the table, which stands
    for the identity of the ORM object. *)
Definition get_team_config_by_registration_key (registration_key : string)
  : M (option (nat * MattermostTeamConfig.t)) :=
  db <- db_read ;;
  ret (list_find
         (fun config => MattermostTeamConfig.registration_key config = registration_key)
         (team_configs db)).

Definition get_team_config_by_mattermost_id (team_id : string)
  : M (option (nat * MattermostTeamConfig.t)) :=
  db <- db_read ;;
  ret (list_find
         (fun config => MattermostTeamConfig.team_id config = Some team_id)
         (team_configs db)).

Definition set_service_api_key (key : option ApiKey.t) (db : TenantDb) : TenantDb :=
  mkTenantDb (bot_config db) (team_configs db) key.

Definition set_team_configs (configs : list MattermostTeamConfig.t) (db : TenantDb) : TenantDb :=
  mkTenantDb (bot_config db) configs (service_api_key db).

Definition get_or_create_mattermost_service_api_key `{ApiKeyBackend} (tenant_id : string)
  : M string :=
  db <- db_read ;;
  n <- gets (fun s => entropy (world s)) ;;
  modify (set_entropy (S n)) ;;;
  match service_api_key db with
  | Some _ =>
      let new_api_key := generate_api_key tenant_id n in
      db_write (set_service_api_key
                  (Some (ApiKey.mk (hash_api_key new_api_key)
                                   (build_displayable_api_key new_api_key))) db) ;;;
      ret new_api_key
  | None =>
      match insert_api_key n with
      | Some (String c k) =>
          let api_key := String c k in
          db_write (set_service_api_key
                      (Some (ApiKey.mk (hash_api_key api_key)
                                       (build_displayable_api_key api_key))) db) ;;;
          ret api_key
      | _ =>
          raise (RuntimeError
                   ("Failed to create Mattermost service API key for tenant " +:+ tenant_id))
      end
  end.

(** ** cache.py: loading and refreshing *)

(** [(active_team_ids, api_key, server_url, bot_token)] *)
Definition tenant_data : Type :=
  list string * option string * option string * option string.

(** The comprehension
    [[c.team_id for c in configs if c.enabled and c.team_id is not None]]. *)
Definition enabled_team_ids (configs : list MattermostTeamConfig.t) : list string :=
  omap (fun config =>
          if MattermostTeamConfig.enabled config
          then MattermostTeamConfig.team_id config else None) configs.

Definition _load_tenant_data `{ApiKeyBackend} (tenant_id : string) : M tenant_data :=
  cached_key <- gets (fun s => _api_keys (cache s) !! tenant_id) ;;
  get_session_with_tenant tenant_id
    (bot_config <- get_mattermost_bot_config ;;
     let server_url := MattermostBotConfig.server_url <$> bot_config in
     let bot_token := MattermostBotConfig.bot_token <$> bot_config in
     configs <- get_team_configs ;;
     let team_ids := enabled_team_ids configs in
     match team_ids with
     | [] => ret ([], None, server_url, bot_token)
     | _ :: _ =>
         if negb (truthy_opt cached_key) then
           new_key <- get_or_create_mattermost_service_api_key tenant_id ;;
           db_commit ;;;
           ret (team_ids, Some new_key, server_url, bot_token)
         else ret (team_ids, cached_key, server_url, bot_token)
     end).

(** [if value: d[key] = value] *)
Definition set_if_truthy (key : string) (value : option string) (d : gmap string string)
  : gmap string string :=
  if truthy_opt value then <[key := default EmptyString value]> d else d.

(** The four maps [refresh_all] builds before publishing them. *)
Record NewMaps : Type :=
  mkNewMaps {
    new_team_tenants : gmap string string;
    new_api_keys : gmap string string;
    new_server_urls : gmap string string;
    new_bot_tokens : gmap string string }.

(** One iteration of [for tenant_id in tenant_ids] in [refresh_all]. *)
Definition refresh_all_tenant `{ApiKeyBackend} (gated : gset string) (new : NewMaps)
    (tenant_id : string) : M NewMaps :=
  if bool_decide (tenant_id ∈ gated) then ret new
  else
    context_token <- contextvar_set tenant_id ;;
    try_finally
      (try_except
         (data <- _load_tenant_data tenant_id ;;
          let '(team_ids, api_key, server_url, bot_token) := data in
          match team_ids with
          | [] => ret new
          | _ :: _ =>
              if negb (truthy_opt api_key) then ret new
              else
                ret (mkNewMaps
                       (foldl (fun d team_id => <[team_id := tenant_id]> d)
                              (new_team_tenants new) team_ids)
                       (<[tenant_id := default EmptyString api_key]> (new_api_keys new))
                       (set_if_truthy tenant_id server_url (new_server_urls new))
                       (set_if_truthy tenant_id bot_token (new_bot_tokens new)))
          end)
         (fun _ => ret new))
      (contextvar_reset context_token).

Definition refresh_all `{ApiKeyBackend} : M unit :=
  try_except
    (gated <- get_gated_tenants ;;
     tenant_ids <- get_all_tenant_ids ;;
     new <- for_fold tenant_ids (mkNewMaps ∅ ∅ ∅ ∅) (refresh_all_tenant gated) ;;
     modify (set_cache (mkCache (new_team_tenants new) (new_api_keys new)
                                (new_server_urls new) (new_bot_tokens new) true)))
    (fun e => raise (CacheError ("Failed to refresh cache: " +:+ exn_str e))).

Definition refresh_team `{ApiKeyBackend} (team_id tenant_id : string) : M unit :=
  data <- _load_tenant_data tenant_id ;;
  let '(team_ids, api_key, server_url, bot_token) := data in
  if bool_decide (team_id ∈ team_ids) then
    modify (fun s =>
              let c := cache s in
              set_cache (mkCache (<[team_id := tenant_id]> (_team_tenants c))
                                 (set_if_truthy tenant_id api_key (_api_keys c))
                                 (set_if_truthy tenant_id server_url (_server_urls c))
                                 (set_if_truthy tenant_id bot_token (_bot_tokens c))
                                 (_initialized c)) s)
  else ret tt.

(** ** handle_commands.py: registration and channel sync *)

Definition usage_message : string :=
  "Invalid registration key format. Usage: `!register <key>`".

Definition already_registered_message : string :=
  "This team is already registered with Onyx." +:+ newline +:+ newline +:+
  "OnyxBot can only connect one Mattermost team to one Onyx workspace.".

Definition invalid_key_message : string :=
  "Invalid registration key format. Please check the key and try again.".

Definition key_not_found_message : string :=
  "Registration key not found." +:+ newline +:+ newline +:+
  "The key may have expired or been deleted. " +:+
  "Please generate a new one from the Onyx admin panel.".

Definition key_already_used_message : string :=
  "This registration key has already been used." +:+ newline +:+ newline +:+
  "Each key can only be used once. " +:+
  "Please generate a new key from the Onyx admin panel.".

Definition registration_success_message : string :=
  ":white_check_mark: **Successfully registered!**" +:+ newline +:+ newline +:+
  "This team is now connected to Onyx. " +:+
  "I'll respond to messages based on your team and channel settings in Onyx.".

Definition registration_failed_prefix : string :=
  ":x: **Registration failed.**" +:+ newline +:+ newline.

Definition unexpected_error_message : string :=
  "An unexpected error occurred. Please try again later.".

(** [message.post_id if message.is_thread else None]: the root the command
    handlers reply under. *)
Definition command_reply_root (message : MattermostMessage.t) : option string :=
  if MattermostMessage.is_thread message
  then Some (MattermostMessage.post_id message) else None.

(** The row [_sync_register] writes back: team id, provisional team name and
    registration time are set. *)
Definition bind_team (config : MattermostTeamConfig.t) (team_id : string) (now : Z)
  : MattermostTeamConfig.t :=
  MattermostTeamConfig.mk
    (MattermostTeamConfig.id config)
    (MattermostTeamConfig.registration_key config)
    (Some team_id)
    (Some ("Team " +:+ slice_to team_id 8))
    (MattermostTeamConfig.enabled config)
    (MattermostTeamConfig.default_persona_id config)
    (Some now).

(** The body of [_sync_register], inside its session.  [channels] is the
    empty list in the source, so no channel configuration is created. *)
Definition _sync_register (team_id registration_key : string) : M Z :=
  found <- get_team_config_by_registration_key registration_key ;;
  match found with
  | None => raise (RegistrationError key_not_found_message)
  | Some (i, config) =>
      match MattermostTeamConfig.team_id config with
      | Some _ => raise (RegistrationError key_already_used_message)
      | None =>
          now <- gets (fun s => clock (world s)) ;;
          db <- db_read ;;
          db_write (set_team_configs (<[i := bind_team config team_id now]> (team_configs db)) db) ;;;
          db_commit ;;;
          ret (MattermostTeamConfig.id config)
      end
  end.

Definition _register_team `{ApiKeyBackend} (message : MattermostMessage.t)
    (registration_key tenant_id : string) : M unit :=
  let team_id := MattermostMessage.team_id message in
  context_token <- contextvar_set tenant_id ;;
  try_finally
    (get_session_with_tenant tenant_id (_sync_register team_id registration_key) ;;;
     refresh_team team_id tenant_id)
    (contextvar_reset context_token).

Definition handle_registration_command `{ApiKeyBackend} (message : MattermostMessage.t)
  : M unit :=
  let content := strip (MattermostMessage.message message) in
  let team_id := MattermostMessage.team_id message in
  try_except
    (match split_maxsplit1 content with
     | _ :: part1 :: _ =>
         let registration_key := strip part1 in
         existing_tenant <- gets (fun s => get_tenant (cache s) team_id) ;;
         match existing_tenant with
         | Some _ => raise (RegistrationError already_registered_message)
         | None =>
             let tenant_id := parse_mattermost_registration_key registration_key in
             if negb (truthy_opt tenant_id) then
               raise (RegistrationError invalid_key_message)
             else
               _register_team message registration_key (default EmptyString tenant_id) ;;;
               create_post (MattermostMessage.channel_id message)
                           registration_success_message
                           (command_reply_root message)
         end
     | _ => raise (RegistrationError usage_message)
     end)
    (fun e =>
       match e with
       | RegistrationError msg =>
           create_post (MattermostMessage.channel_id message)
                       (registration_failed_prefix +:+ msg)
                       (command_reply_root message)
       | _ =>
           create_post (MattermostMessage.channel_id message)
                       (registration_failed_prefix +:+ unexpected_error_message)
                       (command_reply_root message)
       end).

Definition not_registered_message : string :=
  "This team is not registered. Please register it first using " +:+
  "`!register <key>`".

Definition config_not_found_message : string :=
  "Team config not found. This shouldn't happen. " +:+
  "Please contact your administrator.".

Definition sync_info_message : string :=
  ":information_source: **Channel Sync**" +:+ newline +:+ newline +:+
  "To sync channels, please use the Onyx admin panel." +:+ newline +:+ newline +:+
  "Channel configuration allows you to:" +:+ newline +:+
  "- Enable/disable specific channels" +:+ newline +:+
  "- Set channel-specific personas" +:+ newline +:+
  "- Configure mention requirements".

Definition sync_failed_prefix : string :=
  ":x: **Channel sync failed.**" +:+ newline +:+ newline.

Definition handle_sync_channels_command (message : MattermostMessage.t)
    (tenant_id : option string) : M unit :=
  let team_id := MattermostMessage.team_id message in
  try_except
    (if negb (truthy_opt tenant_id) then
       raise (SyncChannelsError not_registered_message)
     else
       team_config_id <-
         get_session_with_tenant (default EmptyString tenant_id)
           (config <- get_team_config_by_mattermost_id team_id ;;
            ret (MattermostTeamConfig.id <$> (snd <$> config))) ;;
       match team_config_id with
       | None | Some 0%Z => raise (SyncChannelsError config_not_found_message)
       | Some _ =>
           create_post (MattermostMessage.channel_id message) sync_info_message
                       (command_reply_root message)
       end)
    (fun e =>
       match e with
       | SyncChannelsError msg =>
           create_post (MattermostMessage.channel_id message)
                       (sync_failed_prefix +:+ msg)
                       (command_reply_root message)
       | _ =>
           create_post (MattermostMessage.channel_id message)
                       (sync_failed_prefix +:+ unexpected_error_message)
                       (command_reply_root message)
       end).

(** [handle_command(message, cache, mm_driver, bot_user_id)]: the cache and
    the driver are part of the state. *)
Definition handle_command `{ApiKeyBackend} (message : MattermostMessage.t)
    (bot_user_id : string) : M bool :=
  let content := strip (MattermostMessage.message message) in
  if negb (startswith content "!") then ret false
  else if startswith content ("!" +:+ REGISTER_COMMAND) then
    handle_registration_command message ;;;
    ret true
  else if startswith content ("!" +:+ SYNC_CHANNELS_COMMAND) then
    tenant_id <- gets (fun s => get_tenant (cache s) (MattermostMessage.team_id message)) ;;
    handle_sync_channels_command message tenant_id ;;;
    ret true
  else ret false.

(** The design document's reading of command recognition: prefix matching
    on the stripped text. *)
Inductive command : Type :=
| CmdRegister
| CmdSyncChannels.

Definition recognized_command (text : string) : option command :=
  let content := strip text in
  if startswith content "!register" then Some CmdRegister
  else if startswith content "!sync-channels" then Some CmdSyncChannels
  else None.

(** ** handle_message.py: send_response *)

Definition send_response (message : MattermostMessage.t) (content : string)
    (thread_only_mode : bool) : M unit :=
  let chunks := _split_message content in
  let root_id :=
    if MattermostMessage.is_thread message then MattermostMessage.root_id message
    else if thread_only_mode then MattermostMessage.post_id message
    else EmptyString in
  for_each chunks
    (fun chunk =>
       create_post (MattermostMessage.channel_id message) chunk
                   (if truthy root_id then Some root_id else None)).

(** * Further code of the cited files *)

(** ** cache.py: the remaining methods of MattermostCacheManager *)

(** [remove_team(team_id)]: [self._team_tenants.pop(team_id, None)]. *)
Definition remove_team (c : MattermostCacheManager) (team_id : string)
  : MattermostCacheManager :=
  mkCache (delete team_id (_team_tenants c)) (_api_keys c) (_server_urls c)
          (_bot_tokens c) (_initialized c).

(** [get_all_team_ids()].  The order in which a [dict] lists its keys is not
    represented: the list is in the order of the map's enumeration. *)
Definition get_all_team_ids (c : MattermostCacheManager) : list string :=
  (map_to_list (_team_tenants c)).*1.

(** [get_all_tenants_with_bots()]: the loop over [self._bot_tokens], in the
    order of the map's enumeration. *)
Definition get_all_tenants_with_bots (c : MattermostCacheManager)
  : list (string * string * string) :=
  omap (fun entry : string * string =>
          let tenant_id := entry.1 in
          let server_url := _server_urls c !! tenant_id in
          let bot_token := _bot_tokens c !! tenant_id in
          if truthy_opt server_url && truthy_opt bot_token
          then Some (tenant_id, default EmptyString server_url, default EmptyString bot_token)
          else None)
       (map_to_list (_bot_tokens c)).

(** The [is_initialized] property. *)
Definition is_initialized (c : MattermostCacheManager) : bool := _initialized c.

(** ** constants.py, continued *)

Definition MAX_CONTEXT_MESSAGES : nat := 10.
Definition THINKING_EMOJI : string := "hourglass_flowing_sand".
Definition RECONNECT_DELAY : Z := 5.
Definition MAX_RECONNECT_ATTEMPTS : Z := 10.

(** ** Channel configuration rows *)

(** Modelled from the spec: [MattermostChannelView] of [onyx.db.utils], with
    the three attributes the code reads. *)
Module MattermostChannelView.
Record t : Type :=
  mk { channel_id : string; channel_name : string; channel_type : string }.
End MattermostChannelView.

(** Modelled from the spec: the ORM class [MattermostChannelConfig] of
    [onyx.db.models], with the columns of the design document's data model
    and the primary key [id]. *)
Module MattermostChannelConfig.
Record t : Type :=
  mk { id : Z;
       team_config_id : Z;
       channel_id : string;
       channel_name : string;
       channel_type : string;
       enabled : bool;
       require_bot_invocation : bool;
       thread_only_mode : bool;
       persona_override_id : option Z }.
End MattermostChannelConfig.

(** ** handle_message.py: whether to respond *)

Module ShouldRespondContext.
Record t : Type :=
  mk { should_respond : bool; persona_id : option Z; thread_only_mode : bool }.
End ShouldRespondContext.

(** [check_implicit_invocation(message, bot_user_id)] *)
Definition check_implicit_invocation (message : MattermostMessage.t) (bot_user_id : string)
  : bool :=
  if MattermostMessage.is_thread message then true else false.

(** [get_channel_config_by_mattermost_ids]: the first channel row, joined
    with its team row, whose team has the given Mattermost id and whose
    channel id is the given one.  [channels] are the tenant's channel rows,
    which [TenantDb] does not carry. *)
Definition get_channel_config_by_mattermost_ids (channels : list MattermostChannelConfig.t)
    (team_id channel_id : string) : M (option MattermostChannelConfig.t) :=
  db <- db_read ;;
  ret (List.find
         (fun c =>
            existsb (fun team =>
                       bool_decide (MattermostTeamConfig.id team
                                    = MattermostChannelConfig.team_config_id c)
                       && bool_decide (MattermostTeamConfig.team_id team = Some team_id))
                    (team_configs db)
            && String.eqb (MattermostChannelConfig.channel_id c) channel_id)
         channels).

(** [x or y] on [int | None]. *)
Definition or_else (x y : option Z) : option Z :=
  match x with
  | Some 0%Z | None => y
  | Some _ => x
  end.

(** [should_respond(message, tenant_id, bot_user_id)]; [channel_rows] gives
    each tenant's channel rows. *)
Definition should_respond (channel_rows : string -> list MattermostChannelConfig.t)
    (message : MattermostMessage.t) (tenant_id bot_user_id : string)
  : M ShouldRespondContext.t :=
  let team_id := MattermostMessage.team_id message in
  let channel_id := MattermostMessage.channel_id message in
  let bot_mentioned := bool_decide (bot_user_id ∈ MattermostMessage.mentions message) in
  configs <-
    get_session_with_tenant tenant_id
      (team_config <- get_team_config_by_mattermost_id team_id ;;
       match team_config with
       | Some (_, team) =>
           if negb (MattermostTeamConfig.enabled team) then ret (None, None)
           else
             channel_config <-
               get_channel_config_by_mattermost_ids (channel_rows tenant_id)
                                                    team_id channel_id ;;
             ret (Some team, channel_config)
       | None => ret (None, None)
       end) ;;
  match configs with
  | (Some team_config, Some channel_config) =>
      if negb (MattermostChannelConfig.enabled channel_config) then
        ret (ShouldRespondContext.mk false None false)
      else
        let persona_id :=
          or_else (MattermostChannelConfig.persona_override_id channel_config)
                  (MattermostTeamConfig.default_persona_id team_config) in
        if MattermostChannelConfig.require_bot_invocation channel_config
           && negb bot_mentioned
           && negb (check_implicit_invocation message bot_user_id)
        then ret (ShouldRespondContext.mk false None false)
        else
          ret (ShouldRespondContext.mk
                 true persona_id (MattermostChannelConfig.thread_only_mode channel_config))
  | _ => ret (ShouldRespondContext.mk false None false)
  end.

(** ** handle_message.py: conversation context *)

(** A post of a thread, as the platform returns it: a dictionary in which
    [user_id] and [message] may be missing. *)
Module ThreadPost.
Record t : Type := mk { user_id : option string; message : option string }.
End ThreadPost.

(** The non-empty dictionary [get_thread] returns: [order] and [posts] may
    be missing. *)
Module ThreadData.
Record t : Type :=
  mk { order : option (list string); posts : option (gmap string ThreadPost.t) }.
End ThreadData.

(** Modelled from the spec: the two services [process_chat_message] talks to
    besides posting.  [platform_thread root_id] is what the platform holds
    for the thread ([None] for an empty result); [send_chat_message message
    api_key persona_id] is the outcome of the answer service
    ([OnyxAPIClient.send_chat_message] of [api_client.py]), whose errors,
    [APIError] included, are exceptions like any other. *)
Class ChatBackend : Type :=
  { platform_thread : string -> option ThreadData.t;
    send_chat_message : string -> string -> option Z -> outcome ChatFullResponse.t }.

(** [mm_driver.add_reaction], [mm_driver.remove_reaction] and
    [mm_driver.get_thread]: requests to the platform, which may fail.  The
    state does not record reactions. *)
Definition add_reaction (post_id emoji_name user_id : string) : M unit :=
  driver_call (fun s => s).

Definition remove_reaction (post_id emoji_name user_id : string) : M unit :=
  driver_call (fun s => s).

Definition get_thread `{ChatBackend} (post_id : string) : M (option ThreadData.t) :=
  driver_call (fun s => s) ;;;
  ret (platform_thread post_id).

(** [sep.join(parts)] *)
Fixpoint str_join (sep : string) (parts : list string) : string :=
  match parts with
  | [] => EmptyString
  | [part] => part
  | part :: rest => part +:+ sep +:+ str_join sep rest
  end.

(** The list [formatted] that the loop of [_build_thread_context] builds. *)
Definition formatted_history (message : MattermostMessage.t) (bot_user_id : string)
    (thread_data : ThreadData.t) : list string :=
  let posts_dict := default ∅ (ThreadData.posts thread_data) in
  let order := default [] (ThreadData.order thread_data) in
  omap (fun post_id =>
          if String.eqb post_id (MattermostMessage.post_id message) then None
          else
            let post := default (ThreadPost.mk None None) (posts_dict !! post_id) in
            let user_id := default EmptyString (ThreadPost.user_id post) in
            let username :=
              if String.eqb user_id bot_user_id then "OnyxBot"
              else "user_" +:+ slice_to user_id 8 in
            Some (username +:+ ": " +:+ default EmptyString (ThreadPost.message post)))
       (drop (length order - MAX_CONTEXT_MESSAGES) order).

Definition context_header : string :=
  "You are a Mattermost bot named OnyxBot." +:+ newline +:+
  "Always assume that [user] is the same as the " +:+ String "034" "Current message" +:+
  String "034" " author." +:+ newline +:+
  "Conversation history:" +:+ newline +:+
  "---" +:+ newline.

Definition _build_thread_context `{ChatBackend} (message : MattermostMessage.t)
    (bot_user_id : string) : M (option string) :=
  if negb (truthy (MattermostMessage.root_id message)) then ret None
  else
    try_except
      (thread_data <- get_thread (MattermostMessage.root_id message) ;;
       match thread_data with
       | None => ret None
       | Some thread_data =>
           match formatted_history message bot_user_id thread_data with
           | [] => ret None
           | formatted =>
               ret (Some (context_header +:+ str_join newline formatted +:+ newline +:+ "---"))
           end
       end)
      (fun _ => ret None).

Definition _build_conversation_context `{ChatBackend} (message : MattermostMessage.t)
    (bot_user_id : string) : M (option string) :=
  if MattermostMessage.is_thread message && truthy (MattermostMessage.root_id message)
  then _build_thread_context message bot_user_id
  else ret None.

(** ** handle_message.py: processing a message *)

Definition error_msg : string :=
  "Sorry, I encountered an error processing your message. " +:+
  "Please try again or contact your administrator.".

Definition send_error_response (message : MattermostMessage.t) (bot_user_id : string)
  : M unit :=
  try_except
    (remove_reaction (MattermostMessage.post_id message) THINKING_EMOJI bot_user_id)
    (fun _ => ret tt) ;;;
  try_except
    (let root_id :=
       if MattermostMessage.is_thread message then MattermostMessage.root_id message
       else MattermostMessage.post_id message in
     create_post (MattermostMessage.channel_id message) error_msg (Some root_id))
    (fun _ => ret tt).

(** The text sent to the answer service. *)
Definition chat_request (message : MattermostMessage.t) (context : option string) : string :=
  let parts :=
    (if truthy_opt context then [default EmptyString context] else [])
    ++ ["Current message from @" +:+ MattermostMessage.username message +:+ ": "
        +:+ MattermostMessage.message message] in
  str_join (newline +:+ newline) parts.

(** [process_chat_message]; its two [except] clauses run the same handler. *)
Definition process_chat_message `{ChatBackend} (message : MattermostMessage.t)
    (api_key : string) (persona_id : option Z) (thread_only_mode : bool)
    (bot_user_id : string) : M unit :=
  try_except
    (add_reaction (MattermostMessage.post_id message) THINKING_EMOJI bot_user_id)
    (fun _ => ret tt) ;;;
  try_except
    (context <- _build_conversation_context message bot_user_id ;;
     response <- (fun s => (send_chat_message (chat_request message context) api_key
                                              persona_id, s)) ;;
     let answer :=
       if truthy (ChatFullResponse.answer response) then ChatFullResponse.answer response
       else "I couldn't generate a response." in
     let answer := _append_citations answer response in
     send_response message answer thread_only_mode ;;;
     try_except
       (remove_reaction (MattermostMessage.post_id message) THINKING_EMOJI bot_user_id)
       (fun _ => ret tt))
    (fun _ => send_error_response message bot_user_id).

(** ** client.py: the reconnecting listener *)

(** How one blocking call of [driver.init_websocket] ends: it returns (the
    server closed the connection) or it raises. *)
Inductive connection_end : Type :=
| Disconnected
| Failed.

(** What [_websocket_listener] has done when it is observed: whether it has
    left its loop, the value of [reconnect_attempts], and the arguments of its
    calls of [asyncio.sleep], in order. *)
Record ListenerRun : Type :=
  mkListenerRun { exited : bool; reconnect_attempts : Z; sleeps : list Z }.

(** The loop of [_websocket_listener].  Each element of [observed] is what one
    iteration meets: the value of [self._running] when the loop condition is
    tested, and how the connection made in that iteration ends.  When
    [observed] is used up the listener is still in its loop. *)
Fixpoint websocket_loop (observed : list (bool * connection_end))
    (reconnect_attempts : Z) (sleeps : list Z) : ListenerRun :=
  match observed with
  | [] =>
      mkListenerRun (negb (reconnect_attempts <? MAX_RECONNECT_ATTEMPTS)%Z)
                    reconnect_attempts sleeps
  | (running, connection) :: observed' =>
      if running && (reconnect_attempts <? MAX_RECONNECT_ATTEMPTS)%Z then
        match connection with
        | Disconnected => websocket_loop observed' 0 sleeps
        | Failed =>
            let reconnect_attempts := (reconnect_attempts + 1)%Z in
            if (reconnect_attempts <? MAX_RECONNECT_ATTEMPTS)%Z
            then websocket_loop observed' reconnect_attempts
                                (sleeps ++ [(RECONNECT_DELAY * reconnect_attempts)%Z])
            else websocket_loop observed' reconnect_attempts sleeps
        end
      else mkListenerRun true reconnect_attempts sleeps
  end.

Definition _websocket_listener (observed : list (bool * connection_end)) : ListenerRun :=
  websocket_loop observed 0 [].

(** The test after the loop: the listener logs that it gives up. *)
Definition gave_up (run : ListenerRun) : bool :=
  exited run && (MAX_RECONNECT_ATTEMPTS <=? reconnect_attempts run)%Z.

(** ** db/mattermost_bot.py: channel configuration *)

(** Modelled from the spec: the column defaults of a new
    [MattermostChannelConfig] row ([onyx.db.models]). *)
Class ChannelDefaults : Type :=
  { default_enabled : bool;
    default_require_bot_invocation : bool;
    default_thread_only_mode : bool;
    default_persona_override_id : option Z }.

(** A tenant's channel-configuration table as a session sees it: the rows
    and the next value of the primary-key sequence.  The uniqueness
    constraint on (team, channel) is not enforced here. *)
Record ChannelTable : Type :=
  mkChannelTable { rows : list MattermostChannelConfig.t; next_id : Z }.

(** [get_channel_configs(db_session, team_config_id)] *)
Definition get_channel_configs (t : ChannelTable) (team_config_id : Z)
  : list MattermostChannelConfig.t :=
  filter (fun c => MattermostChannelConfig.team_config_id c = team_config_id) (rows t).

(** [create_channel_config(db_session, team_config_id, channel_view)] *)
Definition create_channel_config `{ChannelDefaults} (t : ChannelTable) (team_config_id : Z)
    (channel_view : MattermostChannelView.t) : ChannelTable * MattermostChannelConfig.t :=
  let config :=
    MattermostChannelConfig.mk
      (next_id t) team_config_id
      (MattermostChannelView.channel_id channel_view)
      (MattermostChannelView.channel_name channel_view)
      (MattermostChannelView.channel_type channel_view)
      default_enabled default_require_bot_invocation default_thread_only_mode
      default_persona_override_id in
  (mkChannelTable (rows t ++ [config]) (next_id t + 1), config).

(** [db_session.delete(config)]: the row with the object's primary key goes. *)
Definition delete_row (config : MattermostChannelConfig.t) (t : ChannelTable) : ChannelTable :=
  mkChannelTable
    (filter (fun r => MattermostChannelConfig.id r <> MattermostChannelConfig.id config)
            (rows t))
    (next_id t).

(** Assignments to the attributes of the ORM object [config]: the row with
    its primary key becomes [config]. *)
Definition write_row (config : MattermostChannelConfig.t) (t : ChannelTable) : ChannelTable :=
  mkChannelTable
    ((fun r => if bool_decide (MattermostChannelConfig.id r = MattermostChannelConfig.id config)
               then config else r) <$> rows t)
    (next_id t).

Definition set_channel_name (channel_name : string) (c : MattermostChannelConfig.t)
  : MattermostChannelConfig.t :=
  MattermostChannelConfig.mk
    (MattermostChannelConfig.id c) (MattermostChannelConfig.team_config_id c)
    (MattermostChannelConfig.channel_id c) channel_name
    (MattermostChannelConfig.channel_type c) (MattermostChannelConfig.enabled c)
    (MattermostChannelConfig.require_bot_invocation c)
    (MattermostChannelConfig.thread_only_mode c)
    (MattermostChannelConfig.persona_override_id c).

Definition set_channel_type (channel_type : string) (c : MattermostChannelConfig.t)
  : MattermostChannelConfig.t :=
  MattermostChannelConfig.mk
    (MattermostChannelConfig.id c) (MattermostChannelConfig.team_config_id c)
    (MattermostChannelConfig.channel_id c) (MattermostChannelConfig.channel_name c)
    channel_type (MattermostChannelConfig.enabled c)
    (MattermostChannelConfig.require_bot_invocation c)
    (MattermostChannelConfig.thread_only_mode c)
    (MattermostChannelConfig.persona_override_id c).

(** The dictionary comprehension
    [{view.channel_id: view for view in current_channels}]: the last view of
    a channel id wins. *)
Definition channel_map (current_channels : list MattermostChannelView.t)
  : gmap string MattermostChannelView.t :=
  foldl (fun m view => <[MattermostChannelView.channel_id view := view]> m) ∅
        current_channels.

(** The body of the third loop of [sync_channel_configs] for a row whose
    channel is current: the row after the two conditional assignments, and
    [changed]. *)
Definition refresh_names (config : MattermostChannelConfig.t)
    (channel_view : MattermostChannelView.t) : MattermostChannelConfig.t * bool :=
  let '(config, changed) :=
    if negb (String.eqb (MattermostChannelConfig.channel_name config)
                        (MattermostChannelView.channel_name channel_view))
    then (set_channel_name (MattermostChannelView.channel_name channel_view) config, true)
    else (config, false) in
  if negb (String.eqb (MattermostChannelConfig.channel_type config)
                      (MattermostChannelView.channel_type channel_view))
  then (set_channel_type (MattermostChannelView.channel_type channel_view) config, true)
  else (config, changed).

(** [sync_channel_configs(db_session, team_config_id, current_channels)].
    The order in which the set [to_add] is iterated is the order of its
    enumeration here; [current_channel_map[channel_id]] cannot fail, [to_add]
    holding keys of the map only. *)
Definition sync_channel_configs `{ChannelDefaults} (t : ChannelTable) (team_config_id : Z)
    (current_channels : list MattermostChannelView.t) : ChannelTable * (Z * Z * Z) :=
  let current_channel_map := channel_map current_channels in
  let current_channel_ids : gset string := dom current_channel_map in
  let existing_configs := get_channel_configs t team_config_id in
  let existing_channel_ids : gset string :=
    list_to_set (MattermostChannelConfig.channel_id <$> existing_configs) in
  let to_add := current_channel_ids ∖ existing_channel_ids in
  let to_remove := existing_channel_ids ∖ current_channel_ids in
  let '(t, added_count) :=
    foldl (fun '(t, added_count) channel_id =>
             match current_channel_map !! channel_id with
             | Some channel_view =>
                 ((create_channel_config t team_config_id channel_view).1,
                  (added_count + 1)%Z)
             | None => (t, added_count)
             end)
          (t, 0%Z) (elements to_add) in
  let '(t, removed_count) :=
    foldl (fun '(t, removed_count) config =>
             if bool_decide (MattermostChannelConfig.channel_id config ∈ to_remove)
             then (delete_row config t, (removed_count + 1)%Z)
             else (t, removed_count))
          (t, 0%Z) existing_configs in
  let '(t, updated_count) :=
    foldl (fun '(t, updated_count) config =>
             if bool_decide (MattermostChannelConfig.channel_id config ∈ current_channel_ids)
             then
               match current_channel_map !! MattermostChannelConfig.channel_id config with
               | Some channel_view =>
                   let '(config, changed) := refresh_names config channel_view in
                   if changed then (write_row config t, (updated_count + 1)%Z)
                   else (t, updated_count)
               | None => (t, updated_count)
               end
             else (t, updated_count))
          (t, 0%Z) existing_configs in
  (t, (added_count, removed_count, updated_count)).
(** * Vocabulary of the properties *)

(** ["".join(chunks)] *)
Definition join_chunks (chunks : list string) : string :=
  foldr String.append EmptyString chunks.

(** Ascending order of citation number. *)
Definition by_number (a b : cited_doc) : Prop := (cited_number a <= cited_number b)%Z.

(** The entries [_append_citations] lists for a response. *)
Definition listed_citations (response : ChatFullResponse.t) : list cited_doc :=
  take 5 (sort_by_number
            (collect_cited_docs (ChatFullResponse.citation_info response)
                                (ChatFullResponse.top_documents response))).

(** [preserves P m]: running [m] from a state satisfying [P] ends, whether
    by returning or by raising, in a state satisfying [P]. *)
Definition preserves {A : Type} (P : State -> Prop) (m : M A) : Prop :=
  forall s, P s -> P (m s).2.

(** [returns P m]: from a state satisfying [P], [m] returns normally. *)
Definition returns {A : Type} (P : State -> Prop) (m : M A) : Prop :=
  forall s, P s -> exists a, (m s).1 = Returned a.

(** A property of the state that does not read the database, the open
    session, the entropy or the context variable. *)
Class WorldFrame (P : State -> Prop) : Prop :=
  { frame_dbs : forall v s, P s -> P (set_dbs v s);
    frame_session : forall v s, P s -> P (set_session v s);
    frame_entropy : forall v s, P s -> P (set_entropy v s);
    frame_current_tenant : forall v s, P s -> P (set_current_tenant v s) }.

(** A property that, moreover, does not read the cache. *)
Class CacheFrame (P : State -> Prop) : Prop :=
  { frame_cache : forall v s, P s -> P (set_cache v s) }.

(** The cache holds exactly [c]. *)
Definition cache_is (c : MattermostCacheManager) (s : State) : Prop := cache s = c.

(** No fault is scheduled for the driver. *)
Definition driver_healthy (s : State) : Prop :=
  Forall (fun fault => fault = false) (driver_faults (world s)).

(** The root [send_response] passes on, as the platform receives it. *)
Definition response_root (message : MattermostMessage.t) (thread_only_mode : bool)
  : option string :=
  let root_id :=
    if MattermostMessage.is_thread message then MattermostMessage.root_id message
    else if thread_only_mode then MattermostMessage.post_id message
    else EmptyString in
  if truthy root_id then Some root_id else None.

(** ** Sample inputs *)

(** [s * n] *)
Definition repeat_str (n : Z) (s : string) : string :=
  Nat.iter (Z.to_nat n) (String.append s) EmptyString.

(** 3277 four-letter words separated by single spaces: 16384 characters. *)
Definition plain_words_text : string :=
  repeat_str 3276 "word " +:+ "word".

(** A text of 16384 characters whose only separator is one space starting
    exactly at index 8191, half the limit. *)
Definition space_at_half_text : string :=
  repeat_str 8191 "a" +:+ " " +:+ repeat_str 8192 "b".

(** A text of 16384 characters whose only separator is one space starting
    at index 8192, just beyond half the limit. *)
Definition space_past_half_text : string :=
  repeat_str 8192 "a" +:+ " " +:+ repeat_str 8191 "b".

(** A key backend, one tenant with a bound and a free registration key, and
    a second tenant whose database cannot be reached. *)
Definition sample_backend : ApiKeyBackend :=
  {| generate_api_key := fun tenant_id _ => "regenerated_" +:+ tenant_id;
     hash_api_key := fun key => "hash_" +:+ key;
     build_displayable_api_key := fun key => slice_to key 4;
     insert_api_key := fun _ => Some "fresh_key" |}.

Definition bound_row : MattermostTeamConfig.t :=
  MattermostTeamConfig.mk 3 "mattermost_tenant1.old" (Some "teamA") (Some "Team teamA")
                          true None (Some 5%Z).

Definition free_row : MattermostTeamConfig.t :=
  MattermostTeamConfig.mk 7 "mattermost_tenant1.secret" None None true None None.

Definition tenant1_db : TenantDb :=
  mkTenantDb (Some (MattermostBotConfig.mk "https://chat.example" "bot-token" None))
             [bound_row; free_row] None.

Definition sample_state : State :=
  mkState (mkWorld {["tenant1" := tenant1_db]} None (Some ∅) (Some ["tenant1"; "tenant2"])
                   0 100 None [] [])
          new_cache.

(** The same world when the tenant listing fails, with a cache filled by an
    earlier cycle. *)
Definition failing_state : State :=
  mkState (mkWorld {["tenant1" := tenant1_db]} None (Some ∅) None 0 100 None [] [])
          (mkCache {["teamA" := "tenant1"]} {["tenant1" := "fresh_key"]}
                   {["tenant1" := "https://chat.example"]} {["tenant1" := "bot-token"]} true).

Definition sample_message (team_id text : string) : MattermostMessage.t :=
  MattermostMessage.mk "post1" "chan1" team_id "user1" "alice" text EmptyString [].


(** ** Vocabulary of the further properties *)

(** The service key [get_or_create_mattermost_service_api_key] stores for the
    key it hands out. *)
Definition stored_key `{ApiKeyBackend} (api_key : string) : option ApiKey.t :=
  Some (ApiKey.mk (hash_api_key api_key) (build_displayable_api_key api_key)).

(** [s'] has the bot configuration and the team rows of [s], tenant by
    tenant: only service keys may differ. *)
Definition same_tables (s s' : State) : Prop :=
  forall tenant_id,
    (fun db => (bot_config db, team_configs db)) <$> dbs (world s') !! tenant_id
    = (fun db => (bot_config db, team_configs db)) <$> dbs (world s) !! tenant_id.

(** Apart from service keys and the entropy consumed to make them, [s'] is
    [s]: same cache, posts, session, context variable, clock, tenants. *)
Definition same_but_keys (s s' : State) : Prop :=
  same_tables s s' /\
  cache s' = cache s /\
  session (world s') = session (world s) /\
  gated_tenants (world s') = gated_tenants (world s) /\
  all_tenant_ids (world s') = all_tenant_ids (world s) /\
  clock (world s') = clock (world s) /\
  current_tenant (world s') = current_tenant (world s) /\
  posts (world s') = posts (world s) /\
  driver_faults (world s') = driver_faults (world s).

(** What the maps built by [refresh_all] satisfy at every iteration, for the
    state [s0] the call started from. *)
Definition refresh_inv (s0 : State) (gated : gset string) (tenant_ids : list string)
    (new : NewMaps) : Prop :=
  (forall team_id tenant_id,
      new_team_tenants new !! team_id = Some tenant_id ->
      (exists db, dbs (world s0) !! tenant_id = Some db /\
                  team_id ∈ enabled_team_ids (team_configs db)) /\
      is_Some (new_api_keys new !! tenant_id)) /\
  (forall tenant_id key,
      new_api_keys new !! tenant_id = Some key ->
      key <> EmptyString /\ tenant_id ∈ tenant_ids /\ (tenant_id ∉ gated) /\
      (forall cached, _api_keys (cache s0) !! tenant_id = Some cached ->
                      cached <> EmptyString -> key = cached)) /\
  (forall tenant_id server_url,
      new_server_urls new !! tenant_id = Some server_url ->
      server_url <> EmptyString /\ is_Some (new_api_keys new !! tenant_id) /\
      exists db, dbs (world s0) !! tenant_id = Some db /\
                 MattermostBotConfig.server_url <$> bot_config db = Some server_url) /\
  (forall tenant_id bot_token,
      new_bot_tokens new !! tenant_id = Some bot_token ->
      bot_token <> EmptyString /\ is_Some (new_api_keys new !! tenant_id) /\
      exists db, dbs (world s0) !! tenant_id = Some db /\
                 MattermostBotConfig.bot_token <$> bot_config db = Some bot_token).

(** ** Further sample inputs *)

(** A world in which both tenants are listed and the cache was filled by an
    earlier cycle. *)
Definition warm_state : State :=
  mkState (mkWorld {["tenant1" := tenant1_db]} None (Some ∅) (Some ["tenant1"; "tenant2"])
                   0 100 None [] [])
          (cache failing_state).

(** The same world and cache when tenant1 is gated. *)
Definition gated_state : State :=
  mkState (mkWorld {["tenant1" := tenant1_db]} None (Some {["tenant1"]})
                   (Some ["tenant1"; "tenant2"]) 0 100 None [] [])
          (cache failing_state).

(** The posts made so far are [p]. *)
Definition posts_are (p : list Post) (s : State) : Prop := posts (world s) = p.

(** A registration with the free key, and one with the key already bound. *)
Definition register_free_message : MattermostMessage.t :=
  sample_message "teamB" "  !register mattermost_tenant1.secret ".

Definition register_used_message : MattermostMessage.t :=
  sample_message "teamC" "!register mattermost_tenant1.old".

(** The apology [send_error_response] posts, as the platform receives it:
    under the thread's root for a message in a thread, under the message
    itself otherwise. *)
Definition error_reply (message : MattermostMessage.t) : Post :=
  let root_id :=
    if MattermostMessage.is_thread message then MattermostMessage.root_id message
    else MattermostMessage.post_id message in
  mkPost (MattermostMessage.channel_id message) error_msg
         (if truthy root_id then Some root_id else None).

(** The databases are [d] and the cache is [c]. *)
Definition stores_are (d : gmap string TenantDb) (c : MattermostCacheManager) (s : State)
  : Prop :=
  dbs (world s) = d /\ cache s = c.

(** An answer service that always answers, and a platform without threads. *)
Definition sample_chat_backend : ChatBackend :=
  {| platform_thread := fun _ => None;
     send_chat_message := fun _ _ _ =>
       Returned (ChatFullResponse.mk "Forty-two." [] []) |}.

(** ** Vocabulary of channel synchronisation *)

(** Primary keys are unique and below the sequence's next value. *)
Definition table_ok (t : ChannelTable) : Prop :=
  NoDup (MattermostChannelConfig.id <$> rows t) /\
  Forall (fun r => (MattermostChannelConfig.id r < next_id t)%Z) (rows t).

(** The rows created for [views], with consecutive primary keys from
    [start]. *)
Fixpoint fresh_rows `{ChannelDefaults} (team_config_id : Z) (start : Z)
    (views : list MattermostChannelView.t) : list MattermostChannelConfig.t :=
  match views with
  | [] => []
  | view :: views' =>
      MattermostChannelConfig.mk
        start team_config_id
        (MattermostChannelView.channel_id view)
        (MattermostChannelView.channel_name view)
        (MattermostChannelView.channel_type view)
        default_enabled default_require_bot_invocation default_thread_only_mode
        default_persona_override_id
      :: fresh_rows team_config_id (start + 1) views'
  end.

(** What becomes of a row in a synchronisation of team [team_config_id]
    with the channels of [m]: rows of other teams stay, rows of the team are
    renamed after their channel's view or, when the channel is gone,
    deleted. *)
Definition synced_row (m : gmap string MattermostChannelView.t) (team_config_id : Z)
    (r : MattermostChannelConfig.t) : option MattermostChannelConfig.t :=
  if bool_decide (MattermostChannelConfig.team_config_id r = team_config_id) then
    match m !! MattermostChannelConfig.channel_id r with
    | Some view => Some (refresh_names r view).1
    | None => None
    end
  else Some r.

(** One step of the third loop of [sync_channel_configs], seen from a row
    [r] of the table: [r] is replaced when the snapshot row [config] has its
    primary key and was changed. *)
Definition renamed_by (m : gmap string MattermostChannelView.t)
    (config r : MattermostChannelConfig.t) : MattermostChannelConfig.t :=
  match m !! MattermostChannelConfig.channel_id config with
  | Some view =>
      if (refresh_names config view).2
         && bool_decide (MattermostChannelConfig.id r = MattermostChannelConfig.id config)
      then (refresh_names config view).1 else r
  | None => r
  end.

(** The name or the type of the row differs from its channel's view. *)
Definition needs_rename (m : gmap string MattermostChannelView.t)
    (c : MattermostChannelConfig.t) : bool :=
  match m !! MattermostChannelConfig.channel_id c with
  | Some view => (refresh_names c view).2
  | None => false
  end.

(** The view of channel [channel_id] that counts: the last one in the
    list. *)
Definition latest_view (current_channels : list MattermostChannelView.t)
    (channel_id : string) : option MattermostChannelView.t :=
  last (filter (fun view => MattermostChannelView.channel_id view = channel_id)
               current_channels).

(** The name or the type of the row differs from the last view of its
    channel. *)
Definition out_of_date (current_channels : list MattermostChannelView.t)
    (c : MattermostChannelConfig.t) : bool :=
  match latest_view current_channels (MattermostChannelConfig.channel_id c) with
  | Some view =>
      negb (String.eqb (MattermostChannelConfig.channel_name c)
                       (MattermostChannelView.channel_name view)
            && String.eqb (MattermostChannelConfig.channel_type c)
                          (MattermostChannelView.channel_type view))
  | None => false
  end.

(** New channel rows are disabled and require a mention. *)
Definition sample_channel_defaults : ChannelDefaults :=
  {| default_enabled := false;
     default_require_bot_invocation := true;
     default_thread_only_mode := false;
     default_persona_override_id := None |}.

(** Team 3 has a row for a channel that was renamed and one for a channel
    that is gone; team 4 has a row of its own. *)
Definition sample_channel_table : ChannelTable :=
  mkChannelTable
    [MattermostChannelConfig.mk 1 3 "chanA" "general" "O" true false true (Some 7%Z);
     MattermostChannelConfig.mk 2 3 "chanB" "random" "O" true true false None;
     MattermostChannelConfig.mk 3 4 "chanC" "other-team" "P" true true false None]
    4.

Definition sample_channel_views : list MattermostChannelView.t :=
  [MattermostChannelView.mk "chanA" "town-square" "O";
   MattermostChannelView.mk "chanD" "support" "P"].
(** * Properties *)

(** ** Strings *)

Lemma join_chunks_cons (chunk : string) (chunks : list string) :
  join_chunks (chunk :: chunks) = chunk +:+ join_chunks chunks.
Proof. reflexivity. Qed.

Lemma str_app_nil_l (s : string) : EmptyString +:+ s = s.
Proof. reflexivity. Qed.

Lemma str_app_cons (c : ascii) (s t : string) : String c s +:+ t = String c (s +:+ t).
Proof. reflexivity. Qed.

Lemma str_app_nil_r (s : string) : s +:+ EmptyString = s.
Proof.
  induction s as [|c s IH]; [reflexivity|].
  rewrite str_app_cons, IH. reflexivity.
Qed.

Lemma str_app_assoc (s t u : string) : (s +:+ t) +:+ u = s +:+ (t +:+ u).
Proof.
  induction s as [|c s IH]; [reflexivity|].
  rewrite !str_app_cons, IH. reflexivity.
Qed.

Lemma length_str_app (s t : string) :
  String.length (s +:+ t) = String.length s + String.length t.
Proof.
  induction s as [|c s IH]; [reflexivity|].
  rewrite str_app_cons. simpl. rewrite IH. reflexivity.
Qed.

Lemma len_app (s t : string) : len (s +:+ t) = (len s + len t)%Z.
Proof. unfold len. rewrite length_str_app. lia. Qed.

Lemma len_nonneg (s : string) : (0 <= len s)%Z.
Proof. unfold len. lia. Qed.

Lemma truthy_len (s : string) : truthy s = true <-> (0 < len s)%Z.
Proof. destruct s; unfold len; simpl; split; intros; try lia; congruence. Qed.

Lemma str_take_drop (n : nat) (s : string) : str_take n s +:+ str_drop n s = s.
Proof.
  revert s. induction n as [|n IH]; intros [|c s]; simpl; try reflexivity.
  rewrite str_app_cons, IH. reflexivity.
Qed.

Lemma length_str_take (n : nat) (s : string) :
  String.length (str_take n s) = Nat.min n (String.length s).
Proof.
  revert s. induction n as [|n IH]; intros [|c s]; simpl; try reflexivity.
  rewrite IH. reflexivity.
Qed.

Lemma length_str_drop (n : nat) (s : string) :
  String.length (str_drop n s) = String.length s - n.
Proof.
  revert s. induction n as [|n IH]; intros [|c s]; simpl; try reflexivity.
  apply IH.
Qed.

Lemma str_drop_app (p s : string) : str_drop (String.length p) (p +:+ s) = s.
Proof.
  induction p as [|c p IH]; [destruct s; reflexivity|].
  rewrite str_app_cons. simpl. exact IH.
Qed.

Lemma slice_to_from (s : string) (k : Z) : slice_to s k +:+ slice_from s k = s.
Proof. apply str_take_drop. Qed.

Lemma len_slice_to (s : string) (k : Z) :
  (0 <= k)%Z -> len (slice_to s k) = Z.min k (len s).
Proof. intros Hk. unfold len, slice_to. rewrite length_str_take. lia. Qed.

Lemma len_slice_from (s : string) (k : Z) :
  (0 <= k <= len s)%Z -> len (slice_from s k) = (len s - k)%Z.
Proof. intros Hk. unfold len, slice_from in *. rewrite length_str_drop. lia. Qed.

(** [startswith] is the prefix relation. *)
Lemma startswith_app (p r : string) : startswith (p +:+ r) p = true.
Proof.
  induction p as [|c p IH]; [reflexivity|].
  rewrite str_app_cons. simpl. rewrite Ascii.eqb_refl. exact IH.
Qed.

Lemma startswith_inv (s p : string) :
  startswith s p = true -> exists r, s = p +:+ r.
Proof.
  revert s. induction p as [|c p IH]; intros s Hs.
  - exists s. reflexivity.
  - destruct s as [|d s]; [discriminate|]. simpl in Hs.
    destruct (Ascii.eqb_spec d c) as [->|]; [|discriminate].
    destruct (IH _ Hs) as [r ->]. exists r. reflexivity.
Qed.

Lemma startswith_iff (s p : string) :
  startswith s p = true <-> exists r, s = p +:+ r.
Proof.
  split; [apply startswith_inv|]. intros [r ->]. apply startswith_app.
Qed.

Lemma startswith_len (s p : string) : startswith s p = true -> (len p <= len s)%Z.
Proof.
  intros Hs. destruct (startswith_inv _ _ Hs) as [r ->].
  rewrite len_app. pose proof (len_nonneg r). lia.
Qed.

Lemma startswith_trans (s p q : string) :
  startswith s p = true -> startswith p q = true -> startswith s q = true.
Proof.
  intros [r ->]%startswith_inv [r' ->]%startswith_inv.
  rewrite str_app_assoc. apply startswith_app.
Qed.

(** [sub in s] holds exactly when [s] decomposes around [sub]. *)
Lemma str_in_iff (sub s : string) :
  str_in sub s = true <-> exists a b, s = a +:+ sub +:+ b.
Proof.
  split.
  - induction s as [|c s IH]; simpl; intros Hin.
    + rewrite orb_false_r in Hin. apply startswith_inv in Hin as [r Hr].
      exists EmptyString, r. exact Hr.
    + apply orb_true_iff in Hin as [Hin|Hin].
      * apply startswith_inv in Hin as [r Hr]. exists EmptyString, r. exact Hr.
      * destruct (IH Hin) as (a & b & ->). exists (String c a), b. reflexivity.
  - intros (a & b & ->). induction a as [|c a IH].
    + rewrite str_app_nil_l.
      destruct (sub +:+ b) eqn:E; simpl; rewrite <- E, startswith_app; reflexivity.
    + rewrite str_app_cons. simpl. rewrite IH. apply orb_true_r.
Qed.

(** Splitting at the first occurrence of a one-character separator. *)
Lemma str_partition_first (c : ascii) (a b : string) :
  str_in (String c EmptyString) a = false ->
  str_partition (a +:+ String c EmptyString +:+ b) (String c EmptyString) = Some (a, b).
Proof.
  induction a as [|d a IH]; intros Hnot.
  - rewrite str_app_nil_l, str_app_cons, str_app_nil_l. simpl.
    rewrite Ascii.eqb_refl. reflexivity.
  - rewrite str_app_cons. simpl in Hnot. apply orb_false_iff in Hnot as [Hd Hrest].
    simpl. destruct (Ascii.eqb d c) eqn:Hdc.
    + simpl in Hd. discriminate.
    + rewrite (IH Hrest). reflexivity.
Qed.

(** ** Registration keys *)

Lemma slice_from_prefix (p r : string) : slice_from (p +:+ r) (len p) = r.
Proof. unfold slice_from, len. rewrite Nat2Z.id. apply str_drop_app. Qed.

Lemma no_dot_str_in (T : string) :
  (forall a b, T <> a +:+ "." +:+ b) -> str_in "." T = false.
Proof.
  intros Hno. destruct (str_in "." T) eqn:E; [|reflexivity].
  apply str_in_iff in E as (a & b & ->). exfalso. exact (Hno a b eq_refl).
Qed.

Lemma parse_key_well_formed (T token : string) :
  T <> EmptyString -> (forall a b, T <> a +:+ "." +:+ b) ->
  parse_mattermost_registration_key ("mattermost_" +:+ T +:+ "." +:+ token) = Some T.
Proof.
  intros Hne Hno. unfold parse_mattermost_registration_key.
  rewrite startswith_app. cbn [negb].
  rewrite slice_from_prefix.
  assert (Hin : str_in "." (T +:+ "." +:+ token) = true).
  { apply str_in_iff. exists T, token. reflexivity. }
  rewrite Hin. cbn [negb]. unfold split_once.
  rewrite (str_partition_first _ T token (no_dot_str_in T Hno)). cbn [nth].
  destruct T; [congruence|reflexivity].
Qed.

Lemma parse_key_empty_tenant (token : string) :
  parse_mattermost_registration_key ("mattermost_" +:+ "." +:+ token) = None.
Proof.
  unfold parse_mattermost_registration_key.
  rewrite startswith_app. cbn [negb].
  rewrite slice_from_prefix.
  assert (Hin : str_in "." ("." +:+ token) = true).
  { apply str_in_iff. exists EmptyString, token. reflexivity. }
  rewrite Hin. reflexivity.
Qed.

Lemma parse_key_no_prefix (key : string) :
  (forall r, key <> "mattermost_" +:+ r) ->
  parse_mattermost_registration_key key = None.
Proof.
  intros Hno. unfold parse_mattermost_registration_key.
  destruct (startswith key "mattermost_") eqn:E; [|reflexivity].
  apply startswith_inv in E as [r ->]. exfalso. exact (Hno r eq_refl).
Qed.

Lemma parse_key_no_dot (r : string) :
  (forall a b, r <> a +:+ "." +:+ b) ->
  parse_mattermost_registration_key ("mattermost_" +:+ r) = None.
Proof.
  intros Hno. unfold parse_mattermost_registration_key.
  rewrite startswith_app. cbn [negb].
  rewrite slice_from_prefix, (no_dot_str_in r Hno). reflexivity.
Qed.

(** C2, as stated, fails for an empty tenant part: the key
    [mattermost_.token] has the form [mattermost_<T>.<token>] with [T] empty
    and the first [.] after the prefix separating [T] from the token, yet
    parsing yields no tenant id instead of [T]. *)
Lemma parse_key_empty_tenant_counterexample :
  let T := EmptyString in
  let key := "mattermost_" +:+ T +:+ "." +:+ "token" in
  (forall a b, T <> a +:+ "." +:+ b) /\
  parse_mattermost_registration_key key = None /\
  parse_mattermost_registration_key key <> Some T.
Proof.
  split; [intros [|c a] b; discriminate|].
  split; [reflexivity|discriminate].
Qed.

(** C2 (amended): for every key [mattermost_<T>.<token>] whose tenant part
    [T] is non-empty and contains no [.] (so that the first [.] after the
    prefix separates [T] from the token, which is arbitrary),
    [parse_mattermost_registration_key] returns [T]; when [T] is empty it
    returns None; and it returns None for every string that does not start
    with the prefix [mattermost_] and for every string with no [.] after the
    prefix. *)
Theorem parse_registration_key_spec :
  (forall T token : string,
      T <> EmptyString -> (forall a b, T <> a +:+ "." +:+ b) ->
      parse_mattermost_registration_key ("mattermost_" +:+ T +:+ "." +:+ token) = Some T) /\
  (forall token : string,
      parse_mattermost_registration_key ("mattermost_" +:+ "." +:+ token) = None) /\
  (forall key : string,
      (forall r, key <> "mattermost_" +:+ r) ->
      parse_mattermost_registration_key key = None) /\
  (forall r : string,
      (forall a b, r <> a +:+ "." +:+ b) ->
      parse_mattermost_registration_key ("mattermost_" +:+ r) = None).
Proof.
  split; [exact parse_key_well_formed|].
  split; [exact parse_key_empty_tenant|].
  split; [exact parse_key_no_prefix|exact parse_key_no_dot].
Qed.

(** ** rfind *)

Lemma rfind_scan_spec (sep : string) :
  forall (s : string) (i best : Z),
    (rfind_scan s sep i best = best /\
     forall j, j <= String.length s -> startswith (str_drop j s) sep = false)
    \/
    (exists j : nat,
        rfind_scan s sep i best = (i + Z.of_nat j)%Z /\
        j <= String.length s /\
        startswith (str_drop j s) sep = true /\
        forall j', j < j' <= String.length s -> startswith (str_drop j' s) sep = false).
Proof.
  induction s as [|c s IH]; intros i best.
  - cbn [rfind_scan]. destruct (startswith EmptyString sep) eqn:E.
    + right. exists 0. repeat split; [f_equal; lia|simpl; lia|exact E|].
      simpl. intros j' Hj'. lia.
    + left. split; [reflexivity|]. intros j Hj. destruct j; exact E.
  - cbn [rfind_scan].
    destruct (IH (i + 1)%Z (if startswith (String c s) sep then i else best))
      as [[Hr Hno]|(j & Hr & Hj & Hocc & Hmax)].
    + destruct (startswith (String c s) sep) eqn:E.
      * right. exists 0. repeat split; [rewrite Hr; lia|simpl; lia|exact E|].
        intros [|j'] Hj'; [lia|]. simpl. apply Hno. simpl in Hj'. lia.
      * left. split; [exact Hr|]. intros [|j] Hj; [exact E|].
        simpl. apply Hno. simpl in Hj. lia.
    + right. exists (S j). repeat split.
      * rewrite Hr. lia.
      * simpl. lia.
      * exact Hocc.
      * intros [|j'] Hj'; [lia|]. simpl. apply Hmax. simpl in Hj'. lia.
Qed.

(** What [rfind] returns is [-1] or the start of an occurrence that ends
    inside the searched window. *)
Lemma rfind_bounds (s sep : string) (stop : Z) :
  (0 <= stop)%Z ->
  rfind s sep stop = (-1)%Z \/
  (0 <= rfind s sep stop /\ rfind s sep stop + len sep <= Z.min stop (len s))%Z.
Proof.
  intros Hstop. unfold rfind.
  destruct (rfind_scan_spec sep (slice_to s stop) 0 (-1))
    as [[Hr _]|(j & Hr & Hj & Hocc & _)]; [left; exact Hr|right].
  rewrite Hr. apply startswith_len in Hocc.
  rewrite <- (len_slice_to s stop Hstop).
  unfold len in *. rewrite length_str_drop in Hocc. lia.
Qed.

Lemma str_take_app_ge (n : nat) (p q : string) :
  String.length p <= n ->
  str_take n (p +:+ q) = p +:+ str_take (n - String.length p) q.
Proof.
  revert n. induction p as [|c p IH]; intros n Hn.
  - simpl. rewrite Nat.sub_0_r. reflexivity.
  - destruct n as [|n]; [simpl in Hn; lia|].
    rewrite !str_app_cons. simpl. rewrite IH; [reflexivity|simpl in Hn; lia].
Qed.

Lemma slice_to_occurrence (s a sep b : string) (stop : Z) :
  s = a +:+ sep +:+ b -> (len a + len sep <= stop)%Z ->
  exists b', slice_to s stop = a +:+ sep +:+ b'.
Proof.
  intros -> Hlen. exists (str_take (Z.to_nat stop - String.length (a +:+ sep)) b).
  unfold slice_to. rewrite <- !str_app_assoc.
  apply str_take_app_ge. rewrite length_str_app. unfold len in Hlen. lia.
Qed.

(** [rfind] with respect to the original string: a non-negative result is
    the start of an occurrence of [sep] that ends at or before [stop], and no
    such occurrence starts further right. *)
Lemma rfind_rightmost (s sep : string) (stop : Z) :
  (0 <= stop)%Z ->
  let idx := rfind s sep stop in
  ((0 <= idx)%Z ->
   exists a b, s = a +:+ sep +:+ b /\ len a = idx /\ (idx + len sep <= stop)%Z) /\
  (forall a b, s = a +:+ sep +:+ b -> (len a + len sep <= stop)%Z -> (len a <= idx)%Z).
Proof.
  intros Hstop idx. subst idx. unfold rfind.
  pose proof (slice_to_from s stop) as Hs.
  destruct (rfind_scan_spec sep (slice_to s stop) 0 (-1))
    as [[Hr Hno]|(j & Hr & Hj & Hocc & Hmax)]; rewrite Hr; split.
  - lia.
  - intros a b Hab Hlen. exfalso.
    destruct (slice_to_occurrence _ _ _ _ _ Hab Hlen) as [b' Hcut].
    specialize (Hno (String.length a)).
    rewrite Hcut, str_drop_app, startswith_app in Hno.
    rewrite !length_str_app in Hno. discriminate Hno. lia.
  - intros _. apply startswith_inv in Hocc as [r Hr'].
    exists (str_take j (slice_to s stop)), (r +:+ slice_from s stop).
    assert (Hlenj : len (str_take j (slice_to s stop)) = Z.of_nat j).
    { unfold len. rewrite length_str_take. lia. }
    repeat split.
    + rewrite <- Hs at 1. rewrite <- (str_take_drop j (slice_to s stop)) at 1.
      rewrite Hr', !str_app_assoc. reflexivity.
    + lia.
    + assert (Hl : len (slice_to s stop) = Z.min stop (len s)) by (apply len_slice_to; lia).
      assert (Hd : len (str_drop j (slice_to s stop)) = (len sep + len r)%Z).
      { rewrite Hr'. apply len_app. }
      unfold len in Hd, Hl. rewrite length_str_drop in Hd.
      pose proof (len_nonneg r). unfold len in *. lia.
  - intros a b Hab Hlen.
    destruct (slice_to_occurrence _ _ _ _ _ Hab Hlen) as [b' Hcut].
    destruct (Nat.le_gt_cases (String.length a) j) as [Hle|Hgt]; [unfold len; lia|].
    exfalso. specialize (Hmax (String.length a)).
    rewrite Hcut, str_drop_app, startswith_app in Hmax.
    rewrite !length_str_app in Hmax. discriminate Hmax. lia.
Qed.

(** ** Message splitting *)

Lemma half_max_message_length : (MAX_MESSAGE_LENGTH / 2 = 8191)%Z.
Proof. reflexivity. Qed.

(** The split point always lies beyond half the limit and never beyond the
    limit. *)
Lemma find_split_at_bounds (content : string) (seps : list string) :
  (MAX_MESSAGE_LENGTH / 2 < find_split_at content seps <= MAX_MESSAGE_LENGTH)%Z.
Proof.
  induction seps as [|sep seps IH]; cbn [find_split_at].
  - rewrite half_max_message_length. unfold MAX_MESSAGE_LENGTH. lia.
  - destruct (Z.gtb_spec (rfind content sep MAX_MESSAGE_LENGTH) (MAX_MESSAGE_LENGTH / 2))
      as [Hgt|Hle]; [|exact IH].
    pose proof (len_nonneg sep).
    destruct (rfind_bounds content sep MAX_MESSAGE_LENGTH) as [Hr|Hr].
    + unfold MAX_MESSAGE_LENGTH. lia.
    + rewrite Hr in Hgt. rewrite half_max_message_length in Hgt. lia.
    + lia.
Qed.

Lemma split_loop_acc (fuel : nat) :
  forall (content : string) (chunks : list string),
    split_loop fuel content chunks = (chunks ++.) <$> split_loop fuel content [].
Proof.
  induction fuel as [|fuel IH]; intros content chunks; [reflexivity|].
  cbn [split_loop]. destruct (truthy content); [|cbn; rewrite app_nil_r; reflexivity].
  destruct (len content <=? MAX_MESSAGE_LENGTH)%Z; [reflexivity|].
  rewrite IH. rewrite (IH _ ([] ++ _)).
  destruct (split_loop fuel _ []) as [out|]; [|reflexivity].
  cbn [fmap option_fmap option_map]. rewrite <- app_assoc. reflexivity.
Qed.

Lemma split_loop_more_fuel (fuel : nat) :
  forall (content : string) (chunks out : list string) (fuel' : nat),
    split_loop fuel content chunks = Some out -> fuel <= fuel' ->
    split_loop fuel' content chunks = Some out.
Proof.
  induction fuel as [|fuel IH]; intros content chunks out fuel' Hrun Hle; [discriminate|].
  destruct fuel' as [|fuel']; [lia|].
  cbn [split_loop] in *. destruct (truthy content); [|exact Hrun].
  destruct (len content <=? MAX_MESSAGE_LENGTH)%Z; [exact Hrun|].
  apply IH with (fuel' := fuel') in Hrun; [exact Hrun|lia].
Qed.

(** With more fuel than characters the loop exits, and the chunks it has
    collected are non-empty, within the limit, and concatenate to the input. *)
Lemma split_loop_exits (fuel : nat) :
  forall content : string,
    String.length content < fuel ->
    exists out,
      split_loop fuel content [] = Some out /\
      join_chunks out = content /\
      Forall (fun chunk => (0 < len chunk <= MAX_MESSAGE_LENGTH)%Z) out.
Proof.
  induction fuel as [|fuel IH]; intros content Hfuel; [lia|].
  cbn [split_loop]. destruct (truthy content) eqn:Htruthy.
  - destruct (Z.leb_spec (len content) MAX_MESSAGE_LENGTH) as [Hshort|Hlong].
    + exists [content]. split; [reflexivity|]. split.
      * cbn. apply str_app_nil_r.
      * constructor; [|constructor]. apply truthy_len in Htruthy. lia.
    + pose proof (find_split_at_bounds content split_separators) as Hk.
      rewrite half_max_message_length in Hk.
      set (k := find_split_at content split_separators) in *.
      assert (Hrest : len (slice_from content k) = (len content - k)%Z)
        by (apply len_slice_from; lia).
      destruct (IH (slice_from content k)) as (out & Hrun & Hjoin & Hall).
      { unfold len in Hrest. lia. }
      exists (slice_to content k :: out). split; [|split].
      * rewrite split_loop_acc, Hrun. reflexivity.
      * rewrite join_chunks_cons, Hjoin. apply slice_to_from.
      * constructor; [|exact Hall]. rewrite len_slice_to by lia. lia.
  - exists []. split; [reflexivity|]. split; [|constructor].
    destruct content; [reflexivity|discriminate].
Qed.

Lemma split_message_run (content : string) :
  split_loop (S (String.length content)) content [] = Some (_split_message content).
Proof.
  destruct (split_loop_exits (S (String.length content)) content) as (out & Hrun & _);
    [lia|].
  unfold _split_message. rewrite Hrun. reflexivity.
Qed.

Lemma split_message_empty : _split_message EmptyString = [].
Proof. reflexivity. Qed.

Lemma split_message_short (content : string) :
  content <> EmptyString -> (len content <= MAX_MESSAGE_LENGTH)%Z ->
  _split_message content = [content].
Proof.
  intros Hne Hshort. unfold _split_message. cbn [split_loop].
  destruct content; [congruence|]. cbn [truthy].
  destruct (Z.leb_spec (len (String a content)) MAX_MESSAGE_LENGTH); [reflexivity|lia].
Qed.

(** The loop's equation for an over-long input: the first chunk is the text
    up to the split point, separator included; the loop continues with what
    follows it. *)
Lemma split_message_long (content : string) :
  (MAX_MESSAGE_LENGTH < len content)%Z ->
  _split_message content =
  slice_to content (find_split_at content split_separators)
  :: _split_message (slice_from content (find_split_at content split_separators)).
Proof.
  intros Hlong.
  pose proof (find_split_at_bounds content split_separators) as Hk.
  rewrite half_max_message_length in Hk.
  set (k := find_split_at content split_separators) in *.
  assert (Hrest : len (slice_from content k) = (len content - k)%Z)
    by (apply len_slice_from; lia).
  pose proof (split_message_run (slice_from content k)) as Hrun.
  apply split_loop_more_fuel with (fuel' := String.length content) in Hrun;
    [|unfold len in Hrest; lia].
  unfold _split_message at 1. cbn [split_loop].
  assert (Htruthy : truthy content = true).
  { apply truthy_len. unfold MAX_MESSAGE_LENGTH in Hlong. lia. }
  rewrite Htruthy.
  destruct (Z.leb_spec (len content) MAX_MESSAGE_LENGTH); [lia|].
  fold k. rewrite split_loop_acc, Hrun. reflexivity.
Qed.

Lemma join_chunks_split_message (content : string) :
  join_chunks (_split_message content) = content /\
  Forall (fun chunk => (0 < len chunk <= MAX_MESSAGE_LENGTH)%Z) (_split_message content).
Proof.
  destruct (split_loop_exits (S (String.length content)) content)
    as (out & Hrun & Hjoin & Hall); [lia|].
  unfold _split_message. rewrite Hrun. split; assumption.
Qed.

(** C10: for every input, [_split_message] terminates (the loop exits within
    one iteration per character plus one, returning [_split_message content]),
    the plain concatenation of the returned chunks is the input, every chunk
    is non-empty and at most 16383 characters long, and the empty string
    yields the empty list.  An over-long input is cut at the split point, the
    separator that chose it staying at the end of the first chunk, and the
    loop goes on with exactly the text after it. *)
Theorem split_message_spec (content : string) :
  split_loop (S (String.length content)) content [] = Some (_split_message content) /\
  join_chunks (_split_message content) = content /\
  Forall (fun chunk => (0 < len chunk <= 16383)%Z) (_split_message content) /\
  _split_message EmptyString = [] /\
  ((MAX_MESSAGE_LENGTH < len content)%Z ->
   _split_message content =
   slice_to content (find_split_at content split_separators)
   :: _split_message (slice_from content (find_split_at content split_separators))).
Proof.
  split; [apply split_message_run|].
  split; [apply join_chunks_split_message|].
  split; [apply join_chunks_split_message|].
  split; [reflexivity|apply split_message_long].
Qed.

(** A text one character longer than the limit always yields two chunks. *)
Lemma split_message_two_chunks (text : string) :
  len text = (MAX_MESSAGE_LENGTH + 1)%Z ->
  exists chunk1 chunk2,
    _split_message text = [chunk1; chunk2] /\
    (0 < len chunk1 <= MAX_MESSAGE_LENGTH)%Z /\
    (0 < len chunk2 <= MAX_MESSAGE_LENGTH)%Z /\
    chunk1 +:+ chunk2 = text.
Proof.
  intros Hlen.
  pose proof (find_split_at_bounds text split_separators) as Hk.
  rewrite half_max_message_length in Hk.
  rewrite split_message_long by lia.
  set (k := find_split_at text split_separators) in *.
  assert (Hrest : len (slice_from text k) = (len text - k)%Z).
  { apply len_slice_from. lia. }
  assert (Hne : slice_from text k <> EmptyString).
  { intros E. rewrite E in Hrest. unfold len at 1 in Hrest. simpl in Hrest. lia. }
  unfold MAX_MESSAGE_LENGTH in *.
  rewrite (split_message_short (slice_from text k)) by (unfold MAX_MESSAGE_LENGTH; lia || exact Hne).
  exists (slice_to text k), (slice_from text k).
  split; [reflexivity|]. rewrite len_slice_to by lia.
  split; [lia|]. split; [lia|]. apply slice_to_from.
Qed.

(** C7, as stated, fails: the chunks of [plain_words_text] already contain
    the separator at which the text was split (it ends the first chunk), so
    joining them with the separator inserted again gives a text one
    character longer than the original; their plain concatenation is the
    original. *)
Lemma split_reinserted_separator_counterexample :
  let chunk1 := repeat_str 3276 "word " in
  let chunk2 := "word" in
  len plain_words_text = (MAX_MESSAGE_LENGTH + 1)%Z /\
  str_in newline plain_words_text = false /\
  _split_message plain_words_text = [chunk1; chunk2] /\
  len (chunk1 +:+ " " +:+ chunk2) = (len plain_words_text + 1)%Z /\
  chunk1 +:+ " " +:+ chunk2 <> plain_words_text /\
  chunk1 +:+ chunk2 = plain_words_text.
Proof.
  cbv zeta.
  split; [vm_compute; reflexivity|].
  split; [vm_compute; reflexivity|].
  split; [vm_compute; reflexivity|].
  assert (Hlen : len (repeat_str 3276 "word " +:+ " " +:+ "word")
                 = (len plain_words_text + 1)%Z) by (vm_compute; reflexivity).
  split; [exact Hlen|].
  split; [|reflexivity].
  intros E. rewrite E in Hlen. lia.
Qed.

(** C7 (amended): for every input of length exactly (maximum message length
    + 1) - in particular one made of words separated by single spaces with no
    newlines - [_split_message] returns exactly two chunks, each non-empty and
    of length at most the maximum message length, whose plain concatenation
    is the original text: the separator at the split is kept at the end of the
    first chunk, nothing is consumed and nothing has to be re-inserted. *)
Theorem split_message_max_plus_one (text : string) :
  len text = (MAX_MESSAGE_LENGTH + 1)%Z ->
  exists chunk1 chunk2,
    _split_message text = [chunk1; chunk2] /\
    (len chunk1 <= MAX_MESSAGE_LENGTH)%Z /\
    (len chunk2 <= MAX_MESSAGE_LENGTH)%Z /\
    join_chunks [chunk1; chunk2] = text.
Proof.
  intros Hlen.
  destruct (split_message_two_chunks text Hlen) as (c1 & c2 & Hs & H1 & H2 & Hjoin).
  exists c1, c2. split; [exact Hs|]. split; [lia|]. split; [lia|].
  cbn [join_chunks foldr]. rewrite str_app_nil_r. exact Hjoin.
Qed.

Lemma split_message_max_plus_one_witness :
  exists chunk1 chunk2,
    _split_message plain_words_text = [chunk1; chunk2] /\
    (len chunk1 <= MAX_MESSAGE_LENGTH)%Z /\
    (len chunk2 <= MAX_MESSAGE_LENGTH)%Z /\
    join_chunks [chunk1; chunk2] = plain_words_text.
Proof.
  apply (split_message_max_plus_one plain_words_text).
  vm_compute. reflexivity.
Defined.

(** The [for] loop stops at the first separator found strictly beyond half
    the limit. *)
Lemma find_split_at_first_accepted (content : string) (tried : list string)
    (sep : string) (later : list string) :
  Forall (fun s => (rfind content s MAX_MESSAGE_LENGTH <= MAX_MESSAGE_LENGTH / 2)%Z) tried ->
  (MAX_MESSAGE_LENGTH / 2 < rfind content sep MAX_MESSAGE_LENGTH)%Z ->
  find_split_at content (tried ++ sep :: later)
  = (rfind content sep MAX_MESSAGE_LENGTH + len sep)%Z.
Proof.
  intros Htried Hsep. induction Htried as [|s tried Hs _ IH]; cbn [app find_split_at].
  - destruct (Z.gtb_spec (rfind content sep MAX_MESSAGE_LENGTH) (MAX_MESSAGE_LENGTH / 2));
      [reflexivity|lia].
  - destruct (Z.gtb_spec (rfind content s MAX_MESSAGE_LENGTH) (MAX_MESSAGE_LENGTH / 2));
      [lia|exact IH].
Qed.

Lemma find_split_at_none_accepted (content : string) (seps : list string) :
  Forall (fun s => (rfind content s MAX_MESSAGE_LENGTH <= MAX_MESSAGE_LENGTH / 2)%Z) seps ->
  find_split_at content seps = MAX_MESSAGE_LENGTH.
Proof.
  intros Hseps. induction Hseps as [|s seps Hs _ IH]; cbn [find_split_at]; [reflexivity|].
  destruct (Z.gtb_spec (rfind content s MAX_MESSAGE_LENGTH) (MAX_MESSAGE_LENGTH / 2));
    [lia|exact IH].
Qed.

(** C3, as stated, fails: in [space_at_half_text] the only separator
    occurrence starts exactly at index (maximum length / 2) = 8191, yet the
    text is cut at the hard limit 16383 and not after that space. *)
Lemma split_at_half_counterexample :
  (MAX_MESSAGE_LENGTH < len space_at_half_text)%Z /\
  rfind space_at_half_text (newline +:+ newline) MAX_MESSAGE_LENGTH = (-1)%Z /\
  rfind space_at_half_text newline MAX_MESSAGE_LENGTH = (-1)%Z /\
  rfind space_at_half_text ". " MAX_MESSAGE_LENGTH = (-1)%Z /\
  rfind space_at_half_text " " MAX_MESSAGE_LENGTH = (MAX_MESSAGE_LENGTH / 2)%Z /\
  _split_message space_at_half_text
  = [slice_to space_at_half_text MAX_MESSAGE_LENGTH;
     slice_from space_at_half_text MAX_MESSAGE_LENGTH] /\
  _split_message space_at_half_text
  <> [slice_to space_at_half_text (MAX_MESSAGE_LENGTH / 2 + 1);
      slice_from space_at_half_text (MAX_MESSAGE_LENGTH / 2 + 1)].
Proof.
  split; [vm_compute; reflexivity|].
  split; [vm_compute; reflexivity|].
  split; [vm_compute; reflexivity|].
  split; [vm_compute; reflexivity|].
  split; [vm_compute; reflexivity|].
  assert (Hsplit : _split_message space_at_half_text
                   = [slice_to space_at_half_text MAX_MESSAGE_LENGTH;
                      slice_from space_at_half_text MAX_MESSAGE_LENGTH])
    by (vm_compute; reflexivity).
  split; [exact Hsplit|].
  rewrite Hsplit. intros E.
  apply (f_equal (fun chunks => len <$> chunks)) in E.
  vm_compute in E. discriminate E.
Qed.

(** C3 (amended): in [_split_message], for every input longer than the
    maximum message length, a candidate split point (the rightmost
    occurrence, before the maximum length, of double newline, single newline,
    period+space, or plain space, tried in that order) is accepted exactly
    when it starts strictly beyond half the maximum length, that is at index
    8192 or later: the input is cut right after the first separator in that
    order whose candidate is accepted, and at the hard limit when none is.
    A separator starting exactly at index 8191 is not accepted. *)
Theorem split_point_accepted_beyond_half (content : string) :
  (MAX_MESSAGE_LENGTH < len content)%Z ->
  (forall (tried : list string) (sep : string) (later : list string),
      split_separators = tried ++ sep :: later ->
      Forall (fun s => (rfind content s MAX_MESSAGE_LENGTH <= 8191)%Z) tried ->
      (8192 <= rfind content sep MAX_MESSAGE_LENGTH)%Z ->
      _split_message content
      = slice_to content (rfind content sep MAX_MESSAGE_LENGTH + len sep)
        :: _split_message (slice_from content (rfind content sep MAX_MESSAGE_LENGTH + len sep)))
  /\
  (Forall (fun s => (rfind content s MAX_MESSAGE_LENGTH <= 8191)%Z) split_separators ->
   _split_message content
   = slice_to content MAX_MESSAGE_LENGTH
     :: _split_message (slice_from content MAX_MESSAGE_LENGTH)).
Proof.
  intros Hlong. rewrite (split_message_long content Hlong).
  rewrite <- half_max_message_length. split.
  - intros tried sep later -> Htried Hsep.
    rewrite find_split_at_first_accepted; [reflexivity|exact Htried|].
    rewrite half_max_message_length in *. lia.
  - intros Hnone. rewrite find_split_at_none_accepted; [reflexivity|exact Hnone].
Qed.

Lemma split_point_accepted_beyond_half_witness :
  (forall (tried : list string) (sep : string) (later : list string),
      split_separators = tried ++ sep :: later ->
      Forall (fun s => (rfind space_past_half_text s MAX_MESSAGE_LENGTH <= 8191)%Z) tried ->
      (8192 <= rfind space_past_half_text sep MAX_MESSAGE_LENGTH)%Z ->
      _split_message space_past_half_text
      = slice_to space_past_half_text (rfind space_past_half_text sep MAX_MESSAGE_LENGTH + len sep)
        :: _split_message
             (slice_from space_past_half_text
                         (rfind space_past_half_text sep MAX_MESSAGE_LENGTH + len sep)))
  /\
  (Forall (fun s => (rfind space_past_half_text s MAX_MESSAGE_LENGTH <= 8191)%Z)
          split_separators ->
   _split_message space_past_half_text
   = slice_to space_past_half_text MAX_MESSAGE_LENGTH
     :: _split_message (slice_from space_past_half_text MAX_MESSAGE_LENGTH)).
Proof.
  apply (split_point_accepted_beyond_half space_past_half_text).
  vm_compute. reflexivity.
Defined.

(** The accepted case on [space_past_half_text]: the cut falls right after
    the space at index 8192. *)
Example split_past_half_example :
  rfind space_past_half_text " " MAX_MESSAGE_LENGTH = 8192%Z /\
  _split_message space_past_half_text
  = [repeat_str 8192 "a" +:+ " "; repeat_str 8191 "b"].
Proof. split; vm_compute; reflexivity. Qed.

(** ** Citations *)

Lemma insert_by_number_perm (x : cited_doc) (l : list cited_doc) :
  insert_by_number x l ≡ₚ x :: l.
Proof.
  induction l as [|y l IH]; cbn [insert_by_number]; [reflexivity|].
  destruct (cited_number x <=? cited_number y)%Z; [reflexivity|].
  rewrite IH. apply Permutation_swap.
Qed.

Lemma sort_by_number_perm (l : list cited_doc) : sort_by_number l ≡ₚ l.
Proof.
  induction l as [|x l IH]; [reflexivity|].
  cbn [sort_by_number foldr]. rewrite insert_by_number_perm.
  constructor. exact IH.
Qed.

Lemma insert_by_number_sorted (x : cited_doc) (l : list cited_doc) :
  Sorted by_number l -> Sorted by_number (insert_by_number x l).
Proof.
  induction 1 as [|y l Hsorted IH Hhd]; cbn [insert_by_number].
  - repeat constructor.
  - destruct (Z.leb_spec (cited_number x) (cited_number y)) as [Hle|Hgt].
    + constructor; [constructor; assumption|]. constructor. exact Hle.
    + constructor; [exact IH|].
      destruct Hhd as [|z l Hyz]; cbn [insert_by_number].
      * constructor. unfold by_number. lia.
      * destruct (cited_number x <=? cited_number z)%Z; constructor;
          [unfold by_number; lia|exact Hyz].
Qed.

Lemma sort_by_number_sorted (l : list cited_doc) : Sorted by_number (sort_by_number l).
Proof.
  induction l as [|x l IH]; [constructor|].
  cbn [sort_by_number foldr]. apply insert_by_number_sorted. exact IH.
Qed.

(** The sort is stable: entries with the same number keep their order. *)
Lemma insert_by_number_stable (k : Z) (x : cited_doc) (l : list cited_doc) :
  filter (fun d => cited_number d = k) (insert_by_number x l)
  = filter (fun d => cited_number d = k) (x :: l).
Proof.
  induction l as [|y l IH]; cbn [insert_by_number]; [reflexivity|].
  destruct (Z.leb_spec (cited_number x) (cited_number y)) as [Hle|Hgt]; [reflexivity|].
  rewrite (filter_cons _ y), IH, !filter_cons.
  repeat case_decide; try reflexivity; lia.
Qed.

Lemma sort_by_number_stable (k : Z) (l : list cited_doc) :
  filter (fun d => cited_number d = k) (sort_by_number l)
  = filter (fun d => cited_number d = k) l.
Proof.
  induction l as [|x l IH]; [reflexivity|].
  cbn [sort_by_number foldr]. rewrite insert_by_number_stable, !filter_cons.
  fold (sort_by_number l). rewrite IH. reflexivity.
Qed.

Lemma sorted_numbers (l : list cited_doc) :
  Sorted by_number l -> Sorted Z.le (cited_number <$> l).
Proof.
  induction 1 as [|x l Hsorted IH Hhd]; cbn; constructor; [exact IH|].
  destruct Hhd; cbn; constructor. assumption.
Qed.

Lemma sorted_take {A : Type} (R : relation A) (n : nat) (l : list A) :
  Sorted R l -> Sorted R (take n l).
Proof.
  intros Hsorted. revert n. induction Hsorted as [|x l Hsorted IH Hhd]; intros [|n]; cbn;
    try constructor.
  - apply IH.
  - destruct Hhd; destruct n; cbn; constructor. assumption.
Qed.

(** The numbers listed do not depend on the order of the citations. *)
Lemma sorted_numbers_perm (l l' : list cited_doc) :
  l ≡ₚ l' ->
  cited_number <$> sort_by_number l = cited_number <$> sort_by_number l'.
Proof.
  intros Hperm. apply (Sorted_unique Z.le).
  - apply sorted_numbers, sort_by_number_sorted.
  - apply sorted_numbers, sort_by_number_sorted.
  - rewrite !sort_by_number_perm, Hperm. reflexivity.
Qed.

Lemma render_block_join (entries : list cited_doc) (header : string) :
  fold_left (fun citations d => citations +:+ render_citation d) entries header
  = header +:+ join_chunks (render_citation <$> entries).
Proof.
  revert header. induction entries as [|d entries IH]; intros header; cbn [fold_left].
  - cbn. rewrite str_app_nil_r. reflexivity.
  - rewrite IH, fmap_cons, join_chunks_cons, str_app_assoc. reflexivity.
Qed.

Lemma find_document_some (docs : list SearchDoc.t) (document_id : string) (doc : SearchDoc.t) :
  find_document docs document_id = Some doc ->
  doc ∈ docs /\ SearchDoc.document_id doc = document_id.
Proof.
  unfold find_document. intros Hfind. apply find_some in Hfind as [Hin Heq].
  split; [apply list_elem_of_In; exact Hin|]. apply String.eqb_eq. exact Heq.
Qed.

Lemma find_document_none (docs : list SearchDoc.t) (document_id : string) :
  (forall doc, doc ∈ docs -> SearchDoc.document_id doc <> document_id) ->
  find_document docs document_id = None.
Proof.
  intros Hno. unfold find_document.
  destruct (find _ docs) as [doc|] eqn:E; [|reflexivity].
  apply find_some in E as [Hin Heq]. apply String.eqb_eq in Heq.
  exfalso. apply (Hno doc); [apply list_elem_of_In; exact Hin|exact Heq].
Qed.

Lemma cite_some (docs : list SearchDoc.t) (citation : CitationInfo.t) (d : cited_doc) :
  cite docs citation = Some d ->
  exists doc,
    doc ∈ docs /\
    SearchDoc.document_id doc = CitationInfo.document_id citation /\
    d = (CitationInfo.citation_number citation,
         (if truthy (SearchDoc.semantic_identifier doc)
          then SearchDoc.semantic_identifier doc else "Source"),
         SearchDoc.link doc).
Proof.
  unfold cite. destruct (find_document docs _) as [doc|] eqn:E; [|discriminate].
  intros [= <-]. apply find_document_some in E as [Hin Hid]. exists doc. auto.
Qed.

Lemma collect_cited_docs_no_match (citations : list CitationInfo.t) (docs : list SearchDoc.t) :
  (forall citation doc,
      citation ∈ citations -> doc ∈ docs ->
      SearchDoc.document_id doc <> CitationInfo.document_id citation) ->
  collect_cited_docs citations docs = [].
Proof.
  intros Hno. unfold collect_cited_docs.
  induction citations as [|c citations IH]; [reflexivity|].
  cbn [omap list_omap]. unfold cite at 1. rewrite find_document_none.
  - apply IH. intros citation doc Hc. apply Hno. right. exact Hc.
  - intros doc Hdoc. apply Hno; [left|exact Hdoc].
Qed.

Lemma append_citations_listed (answer : string) (response : ChatFullResponse.t) :
  _append_citations answer response
  = match listed_citations response with
    | [] => answer
    | _ :: _ =>
        answer +:+ sources_header +:+ join_chunks (render_citation <$> listed_citations response)
    end.
Proof.
  unfold _append_citations, listed_citations.
  destruct (ChatFullResponse.citation_info response) as [|c cs] eqn:Ecs; [reflexivity|].
  destruct (ChatFullResponse.top_documents response) as [|doc docs] eqn:Edocs.
  { rewrite collect_cited_docs_no_match; [reflexivity|].
    intros citation doc _ Hdoc. inversion Hdoc. }
  destruct (collect_cited_docs (c :: cs) (doc :: docs)) as [|d ds] eqn:Ecollect; [reflexivity|].
  pose proof (sort_by_number_perm (d :: ds)) as Hperm.
  destruct (sort_by_number (d :: ds)) as [|e es].
  { apply Permutation_nil_l in Hperm. discriminate. }
  cbn [take]. unfold render_block. rewrite render_block_join. reflexivity.
Qed.

Lemma listed_citations_from_sorted (response : ChatFullResponse.t) (e : cited_doc) :
  e ∈ listed_citations response ->
  e ∈ collect_cited_docs (ChatFullResponse.citation_info response)
                         (ChatFullResponse.top_documents response).
Proof.
  unfold listed_citations. intros He.
  rewrite <- sort_by_number_perm, <- (take_drop 5 (sort_by_number _)).
  apply elem_of_app. left. exact He.
Qed.

Lemma listed_citations_lowest (response : ChatFullResponse.t) (d : cited_doc) :
  d ∈ collect_cited_docs (ChatFullResponse.citation_info response)
                         (ChatFullResponse.top_documents response) ->
  d ∉ listed_citations response ->
  length (listed_citations response) = 5 /\
  forall e, e ∈ listed_citations response -> (cited_number e <= cited_number d)%Z.
Proof.
  unfold listed_citations.
  set (sorted := sort_by_number _). intros Hd Hnot.
  assert (Hd' : d ∈ drop 5 sorted).
  { assert (Hd0 : d ∈ sorted) by (subst sorted; rewrite sort_by_number_perm; exact Hd).
    rewrite <- (take_drop 5 sorted) in Hd0.
    apply elem_of_app in Hd0 as [Hd0|Hd0]; [contradiction|exact Hd0]. }
  split.
  - apply length_take_le. destruct (Nat.le_gt_cases 5 (length sorted)) as [Hle|Hlt]; [exact Hle|].
    rewrite drop_ge in Hd' by lia. inversion Hd'.
  - intros e He.
    assert (Hsorted : StronglySorted by_number (take 5 sorted ++ drop 5 sorted)).
    { rewrite take_drop. apply Sorted_StronglySorted.
      - intros x y z. unfold by_number. lia.
      - apply sort_by_number_sorted. }
    exact (StronglySorted_app_1_elem_of _ _ _ _ _ Hsorted He Hd').
Qed.

(** C8: [_append_citations] renders the citation block with entries sorted
    in ascending order of citation number regardless of the input order of
    [citation_info] (given citation numbers [2,1] with matching source
    documents, the line starting with [1.] comes before the line starting
    with [2.]), includes only citations whose [document_id] matches a top
    document, caps the block at 5 entries (the lowest-numbered ones), and
    returns the answer unchanged when no citation matches any document. *)
Theorem append_citations_spec (answer : string) (response : ChatFullResponse.t) :
  let citations := ChatFullResponse.citation_info response in
  let docs := ChatFullResponse.top_documents response in
  let listed := listed_citations response in
  _append_citations answer response
  = match listed with
    | [] => answer
    | _ :: _ => answer +:+ sources_header +:+ join_chunks (render_citation <$> listed)
    end /\
  Sorted Z.le (cited_number <$> listed) /\
  length listed <= 5 /\
  (forall e, e ∈ listed ->
     exists citation doc,
       citation ∈ citations /\ doc ∈ docs /\
       SearchDoc.document_id doc = CitationInfo.document_id citation /\
       e = (CitationInfo.citation_number citation,
            (if truthy (SearchDoc.semantic_identifier doc)
             then SearchDoc.semantic_identifier doc else "Source"),
            SearchDoc.link doc)) /\
  (forall d, d ∈ collect_cited_docs citations docs -> d ∉ listed ->
     length listed = 5 /\ forall e, e ∈ listed -> (cited_number e <= cited_number d)%Z) /\
  ((forall citation doc,
       citation ∈ citations -> doc ∈ docs ->
       SearchDoc.document_id doc <> CitationInfo.document_id citation) ->
   _append_citations answer response = answer) /\
  (forall response' : ChatFullResponse.t,
     ChatFullResponse.citation_info response' ≡ₚ citations ->
     ChatFullResponse.top_documents response' = docs ->
     cited_number <$> listed_citations response' = cited_number <$> listed) /\
  (forall (id2 id1 : string) (doc2 doc1 : SearchDoc.t),
     find_document docs id2 = Some doc2 ->
     find_document docs id1 = Some doc1 ->
     exists name1 name2 : string,
       _append_citations answer
         (ChatFullResponse.mk answer [CitationInfo.mk 2 id2; CitationInfo.mk 1 id1] docs)
       = answer +:+ sources_header
         +:+ render_citation (1%Z, name1, SearchDoc.link doc1)
         +:+ render_citation (2%Z, name2, SearchDoc.link doc2) /\
       startswith (render_citation (1%Z, name1, SearchDoc.link doc1)) "1. " = true /\
       startswith (render_citation (2%Z, name2, SearchDoc.link doc2)) "2. " = true).
Proof.
  cbv zeta.
  split; [apply append_citations_listed|].
  split.
  { unfold listed_citations. rewrite fmap_take.
    apply sorted_take, sorted_numbers, sort_by_number_sorted. }
  split; [unfold listed_citations; rewrite length_take; lia|].
  split.
  { intros e He. apply listed_citations_from_sorted in He.
    unfold collect_cited_docs in He. apply list_elem_of_omap in He as (citation & Hc & Hcite).
    apply cite_some in Hcite as (doc & Hdoc & Hid & ->).
    exists citation, doc. auto. }
  split; [apply listed_citations_lowest|].
  split.
  { intros Hno. rewrite append_citations_listed. unfold listed_citations.
    rewrite collect_cited_docs_no_match by exact Hno. reflexivity. }
  split.
  { intros response' Hperm Hdocs. unfold listed_citations.
    rewrite !fmap_take. f_equal. apply sorted_numbers_perm.
    rewrite Hdocs. unfold collect_cited_docs. rewrite Hperm. reflexivity. }
  intros id2 id1 doc2 doc1 H2 H1.
  exists (if truthy (SearchDoc.semantic_identifier doc1)
          then SearchDoc.semantic_identifier doc1 else "Source"),
         (if truthy (SearchDoc.semantic_identifier doc2)
          then SearchDoc.semantic_identifier doc2 else "Source").
  split.
  - rewrite append_citations_listed. unfold listed_citations, collect_cited_docs.
    cbn [ChatFullResponse.citation_info ChatFullResponse.top_documents omap list_omap].
    unfold cite. cbn [CitationInfo.document_id CitationInfo.citation_number].
    rewrite H2, H1. cbn. rewrite str_app_nil_r. reflexivity.
  - split; destruct (SearchDoc.link _) as [[|c l]|]; reflexivity.
Qed.

(** ** Frame reasoning for effectful code *)

#[export] Instance cache_is_world_frame (c : MattermostCacheManager) : WorldFrame (cache_is c).
Proof. split; intros v s Hs; exact Hs. Qed.

#[export] Instance driver_healthy_world_frame : WorldFrame driver_healthy.
Proof. split; intros v s Hs; exact Hs. Qed.

#[export] Instance driver_healthy_cache_frame : CacheFrame driver_healthy.
Proof. split; intros v s Hs; exact Hs. Qed.

Section Preserves.
Context (P : State -> Prop).

Lemma preserves_ret {A : Type} (a : A) : preserves P (ret a).
Proof. intros s Hs. exact Hs. Qed.

Lemma preserves_raise {A : Type} (e : exn) : preserves P (@raise A e).
Proof. intros s Hs. exact Hs. Qed.

Lemma preserves_gets {A : Type} (f : State -> A) : preserves P (gets f).
Proof. intros s Hs. exact Hs. Qed.

Lemma preserves_modify (f : State -> State) :
  (forall s, P s -> P (f s)) -> preserves P (modify f).
Proof. intros Hf s Hs. apply Hf, Hs. Qed.

Lemma preserves_bind {A B : Type} (m : M A) (k : A -> M B) :
  preserves P m -> (forall a, preserves P (k a)) -> preserves P (bind m k).
Proof.
  intros Hm Hk s Hs. unfold bind. specialize (Hm s Hs).
  destruct (m s) as [[a|e] s1]; [apply Hk, Hm|exact Hm].
Qed.

Lemma preserves_try_except {A : Type} (body : M A) (handler : exn -> M A) :
  preserves P body -> (forall e, preserves P (handler e)) ->
  preserves P (try_except body handler).
Proof.
  intros Hbody Hhandler s Hs. unfold try_except. specialize (Hbody s Hs).
  destruct (body s) as [[a|e] s1]; [exact Hbody|apply Hhandler, Hbody].
Qed.

Lemma preserves_try_finally {A : Type} (body : M A) (cleanup : M unit) :
  preserves P body -> preserves P cleanup -> preserves P (try_finally body cleanup).
Proof.
  intros Hbody Hcleanup s Hs. unfold try_finally. specialize (Hbody s Hs).
  destruct (body s) as [r s1]. specialize (Hcleanup s1 Hbody).
  destruct (cleanup s1) as [[u|e] s2]; exact Hcleanup.
Qed.

Lemma preserves_for_each {A : Type} (l : list A) (body : A -> M unit) :
  (forall x, preserves P (body x)) -> preserves P (for_each l body).
Proof.
  intros Hbody. induction l as [|x l IH]; cbn [for_each].
  - apply preserves_ret.
  - apply preserves_bind; [apply Hbody|intros _; exact IH].
Qed.

Lemma preserves_for_fold {A B : Type} (l : list A) (acc : B) (body : B -> A -> M B) :
  (forall acc x, preserves P (body acc x)) -> preserves P (for_fold l acc body).
Proof.
  intros Hbody. revert acc. induction l as [|x l IH]; intros acc; cbn [for_fold].
  - apply preserves_ret.
  - apply preserves_bind; [apply Hbody|intros acc'; apply IH].
Qed.

Context `{!WorldFrame P}.

Lemma preserves_contextvar_set (tenant_id : string) : preserves P (contextvar_set tenant_id).
Proof. intros s Hs. apply frame_current_tenant, Hs. Qed.

Lemma preserves_contextvar_reset (token : option string) :
  preserves P (contextvar_reset token).
Proof. intros s Hs. apply frame_current_tenant, Hs. Qed.

Lemma preserves_session {A : Type} (tenant_id : string) (body : M A) :
  preserves P body -> preserves P (get_session_with_tenant tenant_id body).
Proof.
  intros Hbody s Hs. unfold get_session_with_tenant.
  destruct (dbs (world s) !! tenant_id) as [db|]; [|exact Hs].
  specialize (Hbody (set_session (Some (tenant_id, db)) s) (frame_session _ _ Hs)).
  destruct (body _) as [r s1]. apply frame_session, Hbody.
Qed.

Lemma preserves_db_read : preserves P db_read.
Proof. intros s Hs. unfold db_read. destruct (session (world s)) as [[t db]|]; exact Hs. Qed.

Lemma preserves_db_write (db : TenantDb) : preserves P (db_write db).
Proof.
  intros s Hs. unfold db_write. destruct (session (world s)) as [[t db0]|]; [|exact Hs].
  apply frame_session, Hs.
Qed.

Lemma preserves_db_commit : preserves P db_commit.
Proof.
  intros s Hs. unfold db_commit. destruct (session (world s)) as [[t db0]|]; [|exact Hs].
  apply frame_dbs, Hs.
Qed.

Lemma preserves_get_team_config_by_registration_key (registration_key : string) :
  preserves P (get_team_config_by_registration_key registration_key).
Proof. apply preserves_bind; [apply preserves_db_read|intros db; apply preserves_ret]. Qed.

Lemma preserves_get_team_config_by_mattermost_id (team_id : string) :
  preserves P (get_team_config_by_mattermost_id team_id).
Proof. apply preserves_bind; [apply preserves_db_read|intros db; apply preserves_ret]. Qed.

Lemma preserves_get_or_create `{ApiKeyBackend} (tenant_id : string) :
  preserves P (get_or_create_mattermost_service_api_key tenant_id).
Proof.
  unfold get_or_create_mattermost_service_api_key.
  apply preserves_bind; [apply preserves_db_read|intros db].
  apply preserves_bind; [apply preserves_gets|intros n].
  apply preserves_bind; [apply preserves_modify; intros s; apply frame_entropy|intros _].
  destruct (service_api_key db).
  - apply preserves_bind; [apply preserves_db_write|intros _; apply preserves_ret].
  - destruct (insert_api_key n) as [[|c k]|]; try apply preserves_raise.
    apply preserves_bind; [apply preserves_db_write|intros _; apply preserves_ret].
Qed.

Lemma preserves_load_tenant_data `{ApiKeyBackend} (tenant_id : string) :
  preserves P (_load_tenant_data tenant_id).
Proof.
  unfold _load_tenant_data.
  apply preserves_bind; [apply preserves_gets|intros cached_key].
  apply preserves_session.
  apply preserves_bind;
    [apply preserves_bind; [apply preserves_db_read|intros db; apply preserves_ret]|intros bot].
  apply preserves_bind;
    [apply preserves_bind; [apply preserves_db_read|intros db; apply preserves_ret]|intros configs].
  destruct (enabled_team_ids configs); [apply preserves_ret|].
  destruct (negb (truthy_opt cached_key)); [|apply preserves_ret].
  apply preserves_bind; [apply preserves_get_or_create|intros new_key].
  apply preserves_bind; [apply preserves_db_commit|intros _; apply preserves_ret].
Qed.

Lemma preserves_sync_register (team_id registration_key : string) :
  preserves P (_sync_register team_id registration_key).
Proof.
  unfold _sync_register.
  apply preserves_bind; [apply preserves_get_team_config_by_registration_key|].
  intros [[i config]|]; [|apply preserves_raise].
  destruct (MattermostTeamConfig.team_id config); [apply preserves_raise|].
  apply preserves_bind; [apply preserves_gets|intros now].
  apply preserves_bind; [apply preserves_db_read|intros db].
  apply preserves_bind; [apply preserves_db_write|intros _].
  apply preserves_bind; [apply preserves_db_commit|intros _; apply preserves_ret].
Qed.

End Preserves.

(** ** refresh_all *)

Section Cache.
Context `{ApiKeyBackend}.

(** An iteration of the refresh loop never raises: what goes wrong for one
    tenant is caught inside the iteration. *)
Lemma refresh_all_tenant_returns (gated : gset string) (new : NewMaps) (tenant_id : string)
    (s : State) :
  exists new', (refresh_all_tenant gated new tenant_id s).1 = Returned new'.
Proof.
  unfold refresh_all_tenant.
  destruct (bool_decide (tenant_id ∈ gated)); [exists new; reflexivity|].
  unfold bind at 1. cbn -[try_finally try_except _load_tenant_data].
  unfold try_finally, try_except, contextvar_reset, modify.
  set (s0 := set_current_tenant (Some tenant_id) s).
  unfold bind. destruct (_load_tenant_data tenant_id s0) as [[data|e] s1].
  - destruct data as [[[team_ids api_key] server_url] bot_token].
    destruct team_ids; [exists new; reflexivity|].
    destruct (negb (truthy_opt api_key)); eexists; reflexivity.
  - exists new. reflexivity.
Qed.

Lemma refresh_loop_returns (gated : gset string) (tenant_ids : list string) :
  forall (new : NewMaps) (s : State),
  exists new', (for_fold tenant_ids new (refresh_all_tenant gated) s).1 = Returned new'.
Proof.
  induction tenant_ids as [|tenant_id tenant_ids IH]; intros new s; cbn [for_fold].
  - exists new. reflexivity.
  - unfold bind.
    destruct (refresh_all_tenant_returns gated new tenant_id s) as [new1 Hstep].
    destruct (refresh_all_tenant gated new tenant_id s) as [r s1]. cbn in Hstep. subst r.
    apply IH.
Qed.

(** What [refresh_all] raises is a [CacheError], and it raises it before
    any tenant was loaded: the whole state, the cache in particular, is the
    one the call started from. *)
Lemma refresh_all_raises (s s' : State) (e : exn) :
  refresh_all s = (Raised e, s') ->
  s' = s /\ exists msg, e = CacheError msg.
Proof.
  unfold refresh_all, try_except, bind at 1, get_gated_tenants.
  destruct (gated_tenants (world s)) as [gated|].
  - unfold bind at 1, get_all_tenant_ids.
    destruct (all_tenant_ids (world s)) as [tenant_ids|].
    + unfold bind.
      destruct (refresh_loop_returns gated tenant_ids (mkNewMaps ∅ ∅ ∅ ∅) s) as [new Hloop].
      destruct (for_fold tenant_ids _ _ s) as [r s1]. cbn in Hloop. subst r.
      cbn. discriminate.
    + cbn. intros [= <- <-]. eauto.
  - cbn. intros [= <- <-]. eauto.
Qed.

(** C1: if a call to [refresh_all] raises, the raised error is a
    [CacheError] and, after the call, each of the four cache maps
    (team->tenant, tenant->api-key, tenant->server-url, tenant->bot-token)
    equals its value before the call, so every [get_tenant] and
    [get_api_key] result is unchanged. *)
Theorem refresh_all_failure_keeps_cache (s s' : State) (e : exn) :
  refresh_all s = (Raised e, s') ->
  (exists msg, e = CacheError msg) /\
  _team_tenants (cache s') = _team_tenants (cache s) /\
  _api_keys (cache s') = _api_keys (cache s) /\
  _server_urls (cache s') = _server_urls (cache s) /\
  _bot_tokens (cache s') = _bot_tokens (cache s) /\
  (forall team_id, get_tenant (cache s') team_id = get_tenant (cache s) team_id) /\
  (forall tenant_id, get_api_key (cache s') tenant_id = get_api_key (cache s) tenant_id).
Proof.
  intros Hrun. apply refresh_all_raises in Hrun as [-> Herr].
  repeat split; auto.
Qed.

(** When nothing raises outside the per-tenant iterations, [refresh_all]
    returns and publishes four new maps together. *)
Lemma refresh_all_returns (s : State) (gated : gset string) (tenant_ids : list string) :
  gated_tenants (world s) = Some gated ->
  all_tenant_ids (world s) = Some tenant_ids ->
  exists new s1,
    for_fold tenant_ids (mkNewMaps ∅ ∅ ∅ ∅) (refresh_all_tenant gated) s = (Returned new, s1) /\
    refresh_all s
    = (Returned tt,
       set_cache (mkCache (new_team_tenants new) (new_api_keys new)
                          (new_server_urls new) (new_bot_tokens new) true) s1).
Proof.
  intros Hgated Hids.
  destruct (refresh_loop_returns gated tenant_ids (mkNewMaps ∅ ∅ ∅ ∅) s) as [new Hloop].
  destruct (for_fold tenant_ids _ _ s) as [r s1] eqn:Efold. cbn in Hloop. subst r.
  exists new, s1. split; [reflexivity|].
  unfold refresh_all, try_except, bind at 1, get_gated_tenants. rewrite Hgated.
  unfold bind at 1, get_all_tenant_ids. rewrite Hids.
  unfold bind. rewrite Efold. reflexivity.
Qed.

(** ** refresh_team *)

(** The team ids [_load_tenant_data] returns are the tenant's enabled,
    registered teams. *)
Lemma load_tenant_data_team_ids (tenant_id : string) (s s1 : State) (data : tenant_data) :
  _load_tenant_data tenant_id s = (Returned data, s1) ->
  exists db,
    dbs (world s) !! tenant_id = Some db /\
    data.1.1.1 = enabled_team_ids (team_configs db).
Proof.
  unfold _load_tenant_data, bind at 1, gets, get_session_with_tenant.
  destruct (dbs (world s) !! tenant_id) as [db|]; [|discriminate].
  intros Hrun. exists db. split; [reflexivity|].
  unfold get_mattermost_bot_config, get_team_configs, bind at 1 2 3 4, db_read in Hrun.
  cbn [world session set_session ret] in Hrun.
  destruct (enabled_team_ids (team_configs db)) as [|team_id team_ids].
  { cbn in Hrun. injection Hrun as <- _. reflexivity. }
  destruct (negb (truthy_opt _)).
  - unfold bind at 1 in Hrun.
    destruct (get_or_create_mattermost_service_api_key tenant_id _) as [[key|e] s2];
      [|discriminate Hrun].
    unfold bind, db_commit in Hrun.
    destruct (session (world s2)) as [[t db2]|]; [|discriminate Hrun].
    cbn in Hrun. injection Hrun as <- _. reflexivity.
  - cbn in Hrun. injection Hrun as <- _. reflexivity.
Qed.

(** C9: for every call [refresh_team(team_id, tenant_id)]: if loading the
    tenant's data raises, or [team_id] is not among the tenant's loaded
    enabled team ids, the cache is left exactly as it was; if it is, the only
    changes are that [team_id] maps to [tenant_id] in the team->tenant map and
    [tenant_id]'s api-key, server-url and bot-token entries are merged in
    (each is set when the loaded value is non-empty): every other team's and
    tenant's entries are unchanged, and nothing is rebuilt. *)
Theorem refresh_team_frame (team_id tenant_id : string) (s : State) :
  let c := cache s in
  let c' := cache (refresh_team team_id tenant_id s).2 in
  match (_load_tenant_data tenant_id s).1 with
  | Raised _ => c' = c
  | Returned (team_ids, api_key, server_url, bot_token) =>
      (exists db, dbs (world s) !! tenant_id = Some db /\
                  team_ids = enabled_team_ids (team_configs db)) /\
      (team_id ∉ team_ids -> c' = c) /\
      (team_id ∈ team_ids ->
       _team_tenants c' = <[team_id := tenant_id]> (_team_tenants c) /\
       _api_keys c' = set_if_truthy tenant_id api_key (_api_keys c) /\
       _server_urls c' = set_if_truthy tenant_id server_url (_server_urls c) /\
       _bot_tokens c' = set_if_truthy tenant_id bot_token (_bot_tokens c) /\
       _initialized c' = _initialized c /\
       get_tenant c' team_id = Some tenant_id /\
       (forall other_team, other_team <> team_id ->
          get_tenant c' other_team = get_tenant c other_team) /\
       (forall other_tenant, other_tenant <> tenant_id ->
          get_api_key c' other_tenant = get_api_key c other_tenant /\
          get_server_url c' other_tenant = get_server_url c other_tenant /\
          get_bot_token c' other_tenant = get_bot_token c other_tenant))
  end.
Proof.
  cbv zeta. unfold refresh_team, bind.
  pose proof (preserves_load_tenant_data (cache_is (cache s)) tenant_id s eq_refl) as Hcache.
  pose proof (load_tenant_data_team_ids tenant_id s) as Hids.
  destruct (_load_tenant_data tenant_id s) as [[data|e] s1]; cbn [fst snd] in *;
    [|exact Hcache].
  unfold cache_is in Hcache.
  destruct (Hids s1 data eq_refl) as (db & Hdb & Hteams).
  destruct data as [[[team_ids api_key] server_url] bot_token]. cbn in Hteams.
  split; [exists db; auto|].
  destruct (bool_decide_reflect (team_id ∈ team_ids)) as [Hin|Hnotin].
  - split; [intros Hnot; contradiction|]. intros _.
    cbn [modify snd set_cache cache _team_tenants _api_keys _server_urls _bot_tokens
         _initialized].
    rewrite Hcache. unfold get_tenant, get_api_key, get_server_url, get_bot_token.
    cbn [_team_tenants _api_keys _server_urls _bot_tokens].
    repeat split; try reflexivity.
    + apply lookup_insert_eq.
    + intros other Hother. apply lookup_insert_ne. congruence.
    + unfold set_if_truthy. destruct (truthy_opt api_key); [|reflexivity].
      apply lookup_insert_ne. congruence.
    + unfold set_if_truthy. destruct (truthy_opt server_url); [|reflexivity].
      apply lookup_insert_ne. congruence.
    + unfold set_if_truthy. destruct (truthy_opt bot_token); [|reflexivity].
      apply lookup_insert_ne. congruence.
  - split; [intros _; exact Hcache|]. intros Hin. contradiction.
Qed.

End Cache.

(** ** Posting to the platform *)

Lemma create_post_healthy (channel_id message : string) (root_id : option string) (s : State) :
  driver_healthy s ->
  exists s1,
    create_post channel_id message root_id s = (Returned tt, s1) /\ driver_healthy s1.
Proof.
  unfold driver_healthy, create_post, driver_call. intros Hs.
  destruct (driver_faults (world s)) as [|[|] rest] eqn:E.
  - eexists. split; [reflexivity|]. cbn. rewrite E. constructor.
  - inversion Hs; discriminate.
  - eexists. split; [reflexivity|]. cbn. inversion Hs; assumption.
Qed.

Lemma preserves_create_post_healthy (channel_id message : string) (root_id : option string) :
  preserves driver_healthy (create_post channel_id message root_id).
Proof.
  intros s Hs. destruct (create_post_healthy channel_id message root_id s Hs) as (s1 & -> & H1).
  exact H1.
Qed.

Lemma truthy_opt_if_truthy (r : string) :
  (if truthy_opt (if truthy r then Some r else None)
   then (if truthy r then Some r else None) else None)
  = (if truthy r then Some r else None).
Proof. destruct r; reflexivity. Qed.

(** A call of [create_post] either fails, leaving the posts as they are, or
    appends its post. *)
Lemma create_post_cases (channel_id message : string) (root_id : option string) (s : State) :
  (exists e s1,
      create_post channel_id message root_id s = (Raised e, s1) /\
      posts (world s1) = posts (world s) /\ ~ driver_healthy s) \/
  (exists s1,
      create_post channel_id message root_id s = (Returned tt, s1) /\
      posts (world s1)
      = posts (world s)
        ++ [mkPost channel_id message (if truthy_opt root_id then root_id else None)] /\
      (driver_healthy s -> driver_healthy s1)).
Proof.
  unfold create_post, driver_call, driver_healthy.
  destruct (driver_faults (world s)) as [|[|] rest] eqn:E.
  - right. eexists. split; [reflexivity|]. split; [reflexivity|].
    intros _. cbn. rewrite E. constructor.
  - left. do 2 eexists. split; [reflexivity|]. split; [reflexivity|].
    intros Hs. inversion Hs; discriminate.
  - right. eexists. split; [reflexivity|]. split; [reflexivity|].
    intros Hs. cbn. inversion Hs; assumption.
Qed.

(** A loop of [create_post] calls appends one post per element, in order,
    up to the first driver fault. *)
Lemma for_each_create_post (channel_id : string) (root_id : option string)
    (chunks : list string) :
  forall s : State,
    exists n,
      n <= length chunks /\
      posts (world (for_each chunks (fun chunk => create_post channel_id chunk root_id) s).2)
      = posts (world s)
        ++ ((fun chunk =>
               mkPost channel_id chunk (if truthy_opt root_id then root_id else None))
              <$> take n chunks) /\
      ((for_each chunks (fun chunk => create_post channel_id chunk root_id) s).1 = Returned tt ->
       n = length chunks) /\
      (driver_healthy s ->
       (for_each chunks (fun chunk => create_post channel_id chunk root_id) s).1 = Returned tt).
Proof.
  induction chunks as [|chunk chunks IH]; intros s; cbn [for_each].
  - exists 0. cbn. rewrite app_nil_r. auto.
  - unfold bind.
    destruct (create_post_cases channel_id chunk root_id s)
      as [(e & s1 & -> & Hposts & Hbad)|(s1 & -> & Hposts & Hgood)].
    + exists 0. cbn. rewrite app_nil_r. split; [lia|]. split; [exact Hposts|].
      split; [discriminate|]. intros Hs. contradiction.
    + destruct (IH s1) as (n & Hn & Hrest & Hret & Hhealthy).
      exists (S n). split; [cbn; lia|]. split; [|split].
      * rewrite Hrest, Hposts. cbn. rewrite <- app_assoc. reflexivity.
      * intros Hr. cbn. f_equal. apply Hret, Hr.
      * intros Hs. apply Hhealthy, Hgood, Hs.
Qed.

(** C4: [send_response] places every reply chunk as follows: if the
    original message has a non-empty [root_id], each created post's root is
    that [root_id]; else if [thread_only_mode] is true, each created post's
    root is the original message's [post_id] (an empty [post_id] gives a post
    without root, whose root on the platform is the empty string as well);
    else each created post is made with no root.  The posts created are one
    per chunk of [_split_message content], in order, in the message's
    channel; all of them when the call returns, which it does whenever the
    driver does not fail. *)
Theorem send_response_placement (message : MattermostMessage.t) (content : string)
    (thread_only_mode : bool) (s : State) :
  let run := send_response message content thread_only_mode s in
  exists created : list Post,
    posts (world run.2) = posts (world s) ++ created /\
    (exists n,
        n <= length (_split_message content) /\
        (run.1 = Returned tt -> n = length (_split_message content)) /\
        created
        = (fun chunk =>
             mkPost (MattermostMessage.channel_id message) chunk
                    (response_root message thread_only_mode))
            <$> take n (_split_message content)) /\
    (driver_healthy s -> run.1 = Returned tt) /\
    Forall (fun p =>
              if MattermostMessage.is_thread message
              then post_root_id p = Some (MattermostMessage.root_id message)
              else if thread_only_mode
                   then root_of p = MattermostMessage.post_id message /\
                        (MattermostMessage.post_id message <> EmptyString ->
                         post_root_id p = Some (MattermostMessage.post_id message))
                   else post_root_id p = None) created.
Proof.
  cbv zeta. unfold send_response.
  destruct (for_each_create_post (MattermostMessage.channel_id message)
              (response_root message thread_only_mode) (_split_message content) s)
    as (n & Hn & Hposts & Hret & Hhealthy).
  unfold response_root in *. rewrite truthy_opt_if_truthy in Hposts.
  eexists. split; [exact Hposts|].
  split; [exists n; auto|]. split; [exact Hhealthy|].
  apply Forall_fmap, Forall_forall. intros chunk _. cbn [post_root_id root_of default].
  unfold MattermostMessage.is_thread.
  destruct (truthy (MattermostMessage.root_id message)) eqn:Hthread.
  - rewrite Hthread. reflexivity.
  - destruct thread_only_mode; [|reflexivity].
    destruct (MattermostMessage.post_id message) as [|c p]; cbn; [|auto].
    split; [reflexivity|congruence].
Qed.

(** ** Registration *)

Section Commands.
Context `{ApiKeyBackend}.

(** A key whose row already carries a team id is refused, whoever asks, and
    nothing changes: neither the row, nor the cache, nor anything else. *)
Lemma register_team_used_key (message : MattermostMessage.t)
    (registration_key tenant_id : string) (s : State) (db : TenantDb)
    (i : nat) (config : MattermostTeamConfig.t) (bound_team : string) :
  dbs (world s) !! tenant_id = Some db ->
  list_find (fun c => MattermostTeamConfig.registration_key c = registration_key)
            (team_configs db) = Some (i, config) ->
  MattermostTeamConfig.team_id config = Some bound_team ->
  _register_team message registration_key tenant_id s
  = (Raised (RegistrationError key_already_used_message), s).
Proof.
  intros Hdb Hfind Hbound. destruct s as [[] c]. cbn [world dbs] in Hdb.
  unfold _register_team, contextvar_set, contextvar_reset, try_finally,
    get_session_with_tenant, _sync_register, get_team_config_by_registration_key, db_read.
  unfold bind, gets, modify, ret, raise.
  cbn [world dbs session set_current_tenant set_session]. rewrite Hdb.
  cbn [world dbs session set_current_tenant set_session]. rewrite Hfind, Hbound.
  reflexivity.
Qed.

(** Loading a tenant's data may renew its service API key; the team rows
    of every tenant stay as they are. *)
Lemma load_tenant_data_team_configs (loaded tenant_id : string) (s : State) (db : TenantDb) :
  dbs (world s) !! tenant_id = Some db ->
  exists db1,
    dbs (world (_load_tenant_data loaded s).2) !! tenant_id = Some db1 /\
    team_configs db1 = team_configs db.
Proof.
  intros Hdb. destruct s as [[] c]. cbn [world dbs] in Hdb.
  assert (Hkeep : forall key dbl,
             dbs0 !! loaded = Some dbl ->
             exists db1,
               <[loaded := set_service_api_key key dbl]> dbs0 !! tenant_id = Some db1 /\
               team_configs db1 = team_configs db).
  { intros key dbl Hloaded. destruct (decide (loaded = tenant_id)) as [->|Hne].
    - rewrite lookup_insert_eq. eexists. split; [reflexivity|].
      rewrite Hloaded in Hdb. injection Hdb as ->. reflexivity.
    - rewrite lookup_insert_ne by exact Hne. exists db. auto. }
  unfold _load_tenant_data, get_session_with_tenant, get_mattermost_bot_config,
    get_team_configs, get_or_create_mattermost_service_api_key, db_commit, db_write, db_read.
  unfold bind, gets, modify, ret, raise. cbn -[lookup insert].
  destruct (dbs0 !! loaded) as [dbl|] eqn:Hloaded; cbn -[lookup insert];
    [|exists db; auto].
  destruct (enabled_team_ids (team_configs dbl)); cbn -[lookup insert];
    [exists db; auto|].
  destruct (negb (truthy_opt _)); cbn -[lookup insert]; [|exists db; auto].
  destruct (service_api_key dbl); cbn -[lookup insert]; [apply Hkeep; reflexivity|].
  destruct (insert_api_key entropy0) as [[|ch k]|]; cbn -[lookup insert];
    try solve [exists db; auto]. apply Hkeep; reflexivity.
Qed.

(** Registering with a key whose row is not bound yet binds the row to
    the registering team, whether or not the cache refresh that follows
    succeeds. *)
Lemma register_team_binds (message : MattermostMessage.t)
    (registration_key tenant_id : string) (s : State) (db : TenantDb)
    (i : nat) (config : MattermostTeamConfig.t) :
  dbs (world s) !! tenant_id = Some db ->
  list_find (fun c => MattermostTeamConfig.registration_key c = registration_key)
            (team_configs db) = Some (i, config) ->
  MattermostTeamConfig.team_id config = None ->
  exists db1,
    dbs (world (_register_team message registration_key tenant_id s).2) !! tenant_id
    = Some db1 /\
    list_find (fun c => MattermostTeamConfig.registration_key c = registration_key)
              (team_configs db1)
    = Some (i, bind_team config (MattermostMessage.team_id message) (clock (world s))).
Proof.
  intros Hdb Hfind Hfree. destruct s as [[] c]. cbn [world dbs clock] in *.
  set (bound := bind_team config (MattermostMessage.team_id message) clock0).
  set (db' := set_team_configs (<[i := bound]> (team_configs db)) db).
  assert (Hfind' : list_find
                     (fun c => MattermostTeamConfig.registration_key c = registration_key)
                     (team_configs db') = Some (i, bound)).
  { apply list_find_Some in Hfind as (Hi & Hkey & Hbefore).
    apply list_find_Some. cbn [db' set_team_configs team_configs]. split; [|split].
    - apply list_lookup_insert_eq. apply lookup_lt_Some in Hi. exact Hi.
    - exact Hkey.
    - intros j y Hj Hlt. rewrite list_lookup_insert_ne in Hj by lia.
      exact (Hbefore j y Hj Hlt). }
  unfold _register_team, contextvar_set, contextvar_reset, try_finally,
    get_session_with_tenant, _sync_register, get_team_config_by_registration_key,
    db_commit, db_write, db_read.
  unfold bind at 1 2 3 4 5 6 7 8 9 10, gets, modify, ret, raise.
  cbn [world dbs session clock set_current_tenant set_session set_dbs]. rewrite Hdb.
  cbn [world dbs session clock set_current_tenant set_session set_dbs].
  rewrite Hfind, Hfree.
  cbn [world dbs session clock set_current_tenant set_session set_dbs].
  fold bound. fold db'.
  match goal with |- context [refresh_team ?a ?b ?s1] => set (s2 := s1) end.
  destruct (load_tenant_data_team_configs tenant_id tenant_id s2 db')
    as (db1 & Hdb1 & Hconfigs); [subst s2; cbn -[lookup insert]; apply lookup_insert_eq|].
  exists db1. split; [|rewrite Hconfigs; exact Hfind'].
  unfold refresh_team, bind.
  destruct (_load_tenant_data tenant_id s2) as [[data|e] s3]; cbn [snd] in Hdb1.
  - destruct data as [[[team_ids api_key] server_url] bot_token].
    destruct (bool_decide _); cbn -[lookup insert]; exact Hdb1.
  - cbn -[lookup insert]. exact Hdb1.
Qed.

(** C5: for every registration attempt whose key resolves to a TeamConfig
    row whose [team_id] is already set, [_register_team] raises a
    [RegistrationError] carrying the key-already-used message and modifies
    neither the row nor anything else; this holds whichever team makes the
    attempt.  Hence a key once bound to a team is rejected on every
    subsequent attempt: after an attempt that found the row unbound, any
    further attempt with the same key, by any team, is rejected. *)
Theorem register_team_key_used_once :
  (forall (message : MattermostMessage.t) (registration_key tenant_id : string)
          (s : State) (db : TenantDb) (i : nat) (config : MattermostTeamConfig.t)
          (bound_team : string),
      dbs (world s) !! tenant_id = Some db ->
      list_find (fun c => MattermostTeamConfig.registration_key c = registration_key)
                (team_configs db) = Some (i, config) ->
      MattermostTeamConfig.team_id config = Some bound_team ->
      _register_team message registration_key tenant_id s
      = (Raised (RegistrationError key_already_used_message), s)) /\
  (forall (first later : MattermostMessage.t) (registration_key tenant_id : string)
          (s : State) (db : TenantDb) (i : nat) (config : MattermostTeamConfig.t),
      dbs (world s) !! tenant_id = Some db ->
      list_find (fun c => MattermostTeamConfig.registration_key c = registration_key)
                (team_configs db) = Some (i, config) ->
      MattermostTeamConfig.team_id config = None ->
      let s1 := (_register_team first registration_key tenant_id s).2 in
      _register_team later registration_key tenant_id s1
      = (Raised (RegistrationError key_already_used_message), s1)).
Proof.
  split; [exact register_team_used_key|].
  intros first later registration_key tenant_id s db i config Hdb Hfind Hfree s1.
  destruct (register_team_binds first registration_key tenant_id s db i config
              Hdb Hfind Hfree) as (db1 & Hdb1 & Hfind1).
  exact (register_team_used_key later registration_key tenant_id s1 db1 i _ _
           Hdb1 Hfind1 eq_refl).
Qed.

(** ** Commands *)

Lemma preserves_refresh_team (P : State -> Prop) `{!WorldFrame P} `{!CacheFrame P}
    (team_id tenant_id : string) :
  preserves P (refresh_team team_id tenant_id).
Proof.
  unfold refresh_team.
  apply preserves_bind; [apply preserves_load_tenant_data; assumption|].
  intros [[[team_ids api_key] server_url] bot_token].
  destruct (bool_decide _); [|apply preserves_ret].
  apply preserves_modify. intros s. apply frame_cache.
Qed.

Lemma preserves_register_team (P : State -> Prop) `{!WorldFrame P} `{!CacheFrame P}
    (message : MattermostMessage.t) (registration_key tenant_id : string) :
  preserves P (_register_team message registration_key tenant_id).
Proof.
  unfold _register_team.
  apply preserves_bind; [apply preserves_contextvar_set; assumption|intros token].
  apply preserves_try_finally; [|apply preserves_contextvar_reset; assumption].
  apply preserves_bind; [|intros _; apply preserves_refresh_team; assumption].
  apply preserves_session; [assumption|]. apply preserves_sync_register. assumption.
Qed.

(** With a healthy driver, a guarded block whose handlers only post a reply
    returns normally. *)
Lemma try_except_reply_returns (body : M unit) (handler : exn -> M unit) :
  preserves driver_healthy body ->
  (forall e, exists channel_id message root_id, handler e = create_post channel_id message root_id) ->
  returns driver_healthy (try_except body handler).
Proof.
  intros Hbody Hhandler s Hs. unfold try_except. specialize (Hbody s Hs).
  destruct (body s) as [[[]|e] s1]; [exists tt; reflexivity|].
  destruct (Hhandler e) as (channel_id & message & root_id & ->).
  destruct (create_post_healthy channel_id message root_id s1 Hbody) as (s2 & -> & _).
  exists tt. reflexivity.
Qed.

Lemma handle_registration_command_returns (message : MattermostMessage.t) :
  returns driver_healthy (handle_registration_command message).
Proof.
  unfold handle_registration_command. apply try_except_reply_returns.
  - destruct (split_maxsplit1 _) as [|part0 [|part1 parts]]; try apply preserves_raise.
    apply preserves_bind; [apply preserves_gets|intros [existing|]];
      [apply preserves_raise|].
    destruct (negb (truthy_opt _)); [apply preserves_raise|].
    apply preserves_bind; [|intros _; apply preserves_create_post_healthy].
    apply preserves_register_team; apply _.
  - intros [msg|msg|msg|msg|msg]; eauto.
Qed.

Lemma handle_sync_channels_command_returns (message : MattermostMessage.t)
    (tenant_id : option string) :
  returns driver_healthy (handle_sync_channels_command message tenant_id).
Proof.
  unfold handle_sync_channels_command. apply try_except_reply_returns.
  - destruct (negb (truthy_opt tenant_id)); [apply preserves_raise|].
    apply preserves_bind.
    + apply preserves_session; [apply _|].
      apply preserves_bind;
        [apply preserves_get_team_config_by_mattermost_id; apply _
        |intros config; apply preserves_ret].
    + intros [[| |]|]; try apply preserves_raise; apply preserves_create_post_healthy.
  - intros [msg|msg|msg|msg|msg]; eauto.
Qed.

Lemma not_command_not_recognized (text : string) :
  startswith (strip text) "!" = false -> recognized_command text = None.
Proof.
  intros Hbang. unfold recognized_command.
  destruct (startswith (strip text) "!register") eqn:Hreg.
  { rewrite (startswith_trans _ _ "!" Hreg eq_refl) in Hbang. discriminate. }
  destruct (startswith (strip text) "!sync-channels") eqn:Hsync; [|reflexivity].
  rewrite (startswith_trans _ _ "!" Hsync eq_refl) in Hbang. discriminate.
Qed.

Lemma handle_command_unfold (message : MattermostMessage.t) (bot_user_id : string) :
  handle_command message bot_user_id
  = match recognized_command (MattermostMessage.message message) with
    | Some CmdRegister => handle_registration_command message ;;; ret true
    | Some CmdSyncChannels =>
        tenant_id <- gets (fun s => get_tenant (cache s) (MattermostMessage.team_id message)) ;;
        handle_sync_channels_command message tenant_id ;;;
        ret true
    | None => ret false
    end.
Proof.
  unfold handle_command, recognized_command.
  change ("!" +:+ REGISTER_COMMAND) with "!register".
  change ("!" +:+ SYNC_CHANNELS_COMMAND) with "!sync-channels".
  set (content := strip (MattermostMessage.message message)).
  destruct (startswith content "!") eqn:Hbang; cbn [negb].
  { destruct (startswith content "!register"); [reflexivity|].
    destruct (startswith content "!sync-channels"); reflexivity. }
  pose proof (not_command_not_recognized _ Hbang) as Hnone.
  unfold recognized_command in Hnone. fold content in Hnone.
  destruct (startswith content "!register"); [discriminate|].
  destruct (startswith content "!sync-channels"); [discriminate|reflexivity].
Qed.

(** C6: [handle_command] returns False, leaving the message to chat
    handling and changing nothing, for every message whose stripped text
    does not start with [!], and also for every message whose stripped text
    starts with [!] but is not one of the recognized commands [register] and
    [sync-channels] (recognition is by prefix: the stripped text starts with
    [!register] or [!sync-channels]); it returns True exactly for the
    recognized commands: a recognized command never yields False, it yields
    True whenever the driver does not fail while the handler posts its
    reply, and True is returned for nothing else. *)
Theorem handle_command_dispatch (message : MattermostMessage.t) (bot_user_id : string)
    (s : State) :
  let text := MattermostMessage.message message in
  let run := handle_command message bot_user_id s in
  (startswith (strip text) "!" = false -> run = (Returned false, s)) /\
  (startswith (strip text) "!" = true ->
   startswith (strip text) "!register" = false ->
   startswith (strip text) "!sync-channels" = false ->
   run = (Returned false, s)) /\
  (recognized_command text = None <-> run.1 = Returned false) /\
  ((startswith (strip text) "!register" = true \/
    startswith (strip text) "!sync-channels" = true) <->
   recognized_command text <> None) /\
  (recognized_command text <> None ->
   (exists e, run.1 = Raised e) \/ run.1 = Returned true) /\
  (recognized_command text <> None -> driver_healthy s -> run.1 = Returned true) /\
  (run.1 = Returned true -> recognized_command text <> None).
Proof.
  cbv zeta. rewrite handle_command_unfold.
  assert (Hreg : forall s0, (exists e, ((handle_registration_command message ;;; ret true) s0).1
                                       = Raised e) \/
                            ((handle_registration_command message ;;; ret true) s0).1
                            = Returned true).
  { intros s0. unfold bind.
    destruct (handle_registration_command message s0) as [[[]|e] s1]; cbn; eauto. }
  assert (Hsync : forall s0,
             (exists e,
                 ((tenant_id <- gets (fun s => get_tenant (cache s)
                                                (MattermostMessage.team_id message)) ;;
                   handle_sync_channels_command message tenant_id ;;; ret true) s0).1
                 = Raised e) \/
             ((tenant_id <- gets (fun s => get_tenant (cache s)
                                            (MattermostMessage.team_id message)) ;;
               handle_sync_channels_command message tenant_id ;;; ret true) s0).1
             = Returned true).
  { intros s0. unfold bind, gets.
    destruct (handle_sync_channels_command message _ s0) as [[[]|e] s1]; cbn; eauto. }
  split; [intros Hbang; rewrite (not_command_not_recognized _ Hbang); reflexivity|].
  split.
  { intros _ Hr Hs. unfold recognized_command. rewrite Hr, Hs. reflexivity. }
  split.
  { destruct (recognized_command _) as [[|]|]; split; try congruence; try reflexivity.
    - intros Hfalse. destruct (Hreg s) as [[e He]|He]; rewrite He in Hfalse; discriminate.
    - intros Hfalse. destruct (Hsync s) as [[e He]|He]; rewrite He in Hfalse; discriminate. }
  split.
  { unfold recognized_command.
    destruct (startswith _ "!register"); [split; [discriminate|auto]|].
    destruct (startswith _ "!sync-channels"); [split; [discriminate|auto]|].
    split; [intros [?|?]; discriminate|congruence]. }
  split.
  { destruct (recognized_command _) as [[|]|]; intros Hsome;
      [apply Hreg|apply Hsync|congruence]. }
  split.
  { destruct (recognized_command _) as [[|]|]; intros Hsome Hhealthy; [| |congruence].
    - unfold bind.
      destruct (handle_registration_command_returns message s Hhealthy) as [[] Hret].
      destruct (handle_registration_command message s) as [r s1]. cbn in Hret. subst r.
      reflexivity.
    - unfold bind, gets.
      destruct (handle_sync_channels_command_returns message
                  (get_tenant (cache s) (MattermostMessage.team_id message)) s Hhealthy)
        as [[] Hret].
      destruct (handle_sync_channels_command message _ s) as [r s1]. cbn in Hret. subst r.
      reflexivity. }
  destruct (recognized_command _) as [[|]|]; try congruence. cbn. discriminate.
Qed.

End Commands.

(** ** A worked scenario *)

Lemma refresh_all_failure_keeps_cache_witness :
  (exists msg, CacheError "Failed to refresh cache: tenant listing failed" = CacheError msg) /\
  _team_tenants (cache failing_state) = _team_tenants (cache failing_state) /\
  _api_keys (cache failing_state) = _api_keys (cache failing_state) /\
  _server_urls (cache failing_state) = _server_urls (cache failing_state) /\
  _bot_tokens (cache failing_state) = _bot_tokens (cache failing_state) /\
  (forall team_id,
      get_tenant (cache failing_state) team_id = get_tenant (cache failing_state) team_id) /\
  (forall tenant_id,
      get_api_key (cache failing_state) tenant_id = get_api_key (cache failing_state) tenant_id).
Proof.
  apply (@refresh_all_failure_keeps_cache sample_backend failing_state failing_state
           (CacheError "Failed to refresh cache: tenant listing failed")).
  reflexivity.
Defined.

(** A refresh cycle: tenant1 is loaded and gets a service key; tenant2, whose
    database is unreachable, is skipped without aborting the cycle. *)
Example refresh_all_example :
  let run := @refresh_all sample_backend sample_state in
  run.1 = Returned tt /\
  map_to_list (_team_tenants (cache run.2)) = [("teamA", "tenant1")] /\
  map_to_list (_api_keys (cache run.2)) = [("tenant1", "fresh_key")] /\
  map_to_list (_server_urls (cache run.2)) = [("tenant1", "https://chat.example")] /\
  map_to_list (_bot_tokens (cache run.2)) = [("tenant1", "bot-token")].
Proof. vm_compute. repeat split. Qed.

(** Registration with the free key by a new team, then a second attempt
    with the same key by yet another team. *)
Example registration_example :
  let s1 := (@refresh_all sample_backend sample_state).2 in
  let first := @handle_command sample_backend
                 (sample_message "teamB" "  !register mattermost_tenant1.secret ") "bot" s1 in
  let second := @handle_command sample_backend
                  (sample_message "teamC" "!register mattermost_tenant1.secret") "bot" first.2 in
  first.1 = Returned true /\
  posts (world first.2) = [mkPost "chan1" registration_success_message None] /\
  get_tenant (cache first.2) "teamB" = Some "tenant1" /\
  second.1 = Returned true /\
  posts (world second.2)
  = [mkPost "chan1" registration_success_message None;
     mkPost "chan1" (registration_failed_prefix +:+ key_already_used_message) None] /\
  get_tenant (cache second.2) "teamC" = None /\
  dbs (world second.2) !! "tenant1" = dbs (world first.2) !! "tenant1".
Proof. vm_compute. repeat split. Qed.

(** Prefix matching: [!registerfoo] is handled as the register command;
    text that merely contains a command is chat text. *)
Example prefix_matching_example :
  let s1 := (@refresh_all sample_backend sample_state).2 in
  (@handle_command sample_backend (sample_message "teamA" "!registerfoo") "bot" s1).1
  = Returned true /\
  @handle_command sample_backend (sample_message "teamA" "hello !register") "bot" s1
  = (Returned false, s1) /\
  @handle_command sample_backend (sample_message "teamA" "!help") "bot" s1
  = (Returned false, s1).
Proof. vm_compute. repeat split. Qed.

(** A reply of two chunks in a thread-only channel, and the same reply when
    the driver fails on the second post. *)
Example send_response_example :
  let message := sample_message "teamA" "question" in
  let run := send_response message plain_words_text true sample_state in
  let faulty := send_response message plain_words_text true
                  (set_driver_faults [false; true] sample_state) in
  run.1 = Returned tt /\
  posts (world run.2)
  = [mkPost "chan1" (repeat_str 3276 "word ") (Some "post1");
     mkPost "chan1" "word" (Some "post1")] /\
  faulty.1 = Raised (ExternalError "driver request failed") /\
  posts (world faulty.2) = [mkPost "chan1" (repeat_str 3276 "word ") (Some "post1")].
Proof. vm_compute. repeat split. Qed.

(** * Properties of the further code *)

(** ** Registration keys, continued *)

Lemma startswith_drop (s sep : string) :
  startswith s sep = true -> s = sep +:+ str_drop (String.length sep) s.
Proof.
  intros E. apply startswith_inv in E as [r ->]. rewrite str_drop_app. reflexivity.
Qed.

Lemma str_partition_app (s sep a b : string) :
  str_partition s sep = Some (a, b) -> s = a +:+ sep +:+ b.
Proof.
  revert a b. induction s as [|c s IH]; intros a b; cbn [str_partition].
  - destruct (startswith EmptyString sep) eqn:E; [|discriminate].
    intros [= <- <-]. rewrite str_app_nil_l. apply startswith_drop, E.
  - destruct (startswith (String c s) sep) eqn:E.
    + intros [= <- <-]. rewrite str_app_nil_l. apply startswith_drop, E.
    + destruct (str_partition s sep) as [[a' b']|]; [|discriminate].
      intros [= <- <-]. rewrite str_app_cons, <- (IH a' b' eq_refl). reflexivity.
Qed.

Lemma str_partition_before (s a b : string) (c : ascii) :
  str_partition s (String c EmptyString) = Some (a, b) ->
  str_in (String c EmptyString) a = false.
Proof.
  revert a b. induction s as [|d s IH]; intros a b; cbn [str_partition].
  - cbn. discriminate.
  - destruct (startswith (String d s) (String c EmptyString)) eqn:E.
    + intros [= <- <-]. reflexivity.
    + destruct (str_partition s (String c EmptyString)) as [[a' b']|]; [|discriminate].
      intros [= <- <-]. cbn [str_in]. rewrite (IH a' b' eq_refl).
      cbn in E. cbn. destruct (Ascii.eqb d c); [discriminate|reflexivity].
Qed.

Lemma str_in_partition (s sep : string) :
  str_in sep s = true -> exists a b, str_partition s sep = Some (a, b).
Proof.
  induction s as [|c s IH]; cbn [str_in str_partition].
  - rewrite orb_false_r. intros ->. eauto.
  - destruct (startswith (String c s) sep); [eauto|]. cbn [orb].
    intros Hin. destruct (IH Hin) as (a & b & ->). eauto.
Qed.

(** Whatever [parse_mattermost_registration_key] returns is a non-empty,
    dot-free tenant id that the key really carries: the key is the prefix,
    that tenant id, a dot, and a token. *)
Theorem parse_registration_key_sound (key tenant_id : string) :
  parse_mattermost_registration_key key = Some tenant_id ->
  tenant_id <> EmptyString /\
  (forall a b, tenant_id <> a +:+ "." +:+ b) /\
  exists token, key = "mattermost_" +:+ tenant_id +:+ "." +:+ token.
Proof.
  unfold parse_mattermost_registration_key.
  destruct (startswith key "mattermost_") eqn:Hprefix; [|discriminate].
  apply startswith_inv in Hprefix as [rest ->]. cbn [negb].
  rewrite slice_from_prefix.
  destruct (str_in "." rest) eqn:Hdot; [|discriminate]. cbn [negb].
  destruct (str_in_partition _ _ Hdot) as (a & b & Hpart).
  unfold split_once. rewrite Hpart. cbn [nth].
  destruct (truthy a) eqn:Ha; [|discriminate]. intros [= <-].
  split; [destruct a; [discriminate|congruence]|]. split.
  - intros a1 b1 ->. pose proof (str_partition_before _ _ _ _ Hpart) as Hno.
    assert (Hin : str_in "." (a1 +:+ "." +:+ b1) = true).
    { apply str_in_iff. eauto. }
    congruence.
  - exists b. rewrite (str_partition_app _ _ _ _ Hpart). reflexivity.
Qed.

Lemma parse_registration_key_sound_witness :
  "tenant1" <> EmptyString /\
  (forall a b, "tenant1" <> a +:+ "." +:+ b) /\
  exists token, "mattermost_tenant1.secret" = "mattermost_" +:+ "tenant1" +:+ "." +:+ token.
Proof.
  apply (parse_registration_key_sound "mattermost_tenant1.secret" "tenant1").
  reflexivity.
Defined.

(** ** Splitting, continued *)

Lemma split_message_full_chunks (n : nat) :
  forall content : string,
    String.length content <= n ->
    (content <> EmptyString ->
     (8192 * (Z.of_nat (length (_split_message content)) - 1) <= len content)%Z) /\
    (forall i chunk,
        _split_message content !! i = Some chunk ->
        S i < length (_split_message content) -> (8191 < len chunk)%Z).
Proof.
  induction n as [|n IH]; intros content Hn.
  - destruct content; [|cbn in Hn; lia]. split; [congruence|].
    intros i chunk Hi. rewrite split_message_empty in Hi. destruct i; discriminate.
  - destruct (decide (content = EmptyString)) as [->|Hne].
    { split; [congruence|]. intros i chunk Hi. rewrite split_message_empty in Hi.
      destruct i; discriminate. }
    destruct (Z.le_gt_cases (len content) MAX_MESSAGE_LENGTH) as [Hshort|Hlong].
    { rewrite (split_message_short content Hne Hshort). cbn [length]. split.
      - intros _. pose proof (len_nonneg content). lia.
      - intros i chunk _ Hi. lia. }
    pose proof (find_split_at_bounds content split_separators) as Hk.
    rewrite half_max_message_length in Hk.
    rewrite (split_message_long content) by lia.
    set (k := find_split_at content split_separators) in *.
    assert (Hrest : len (slice_from content k) = (len content - k)%Z)
      by (apply len_slice_from; lia).
    assert (Hfirst : len (slice_to content k) = k)
      by (rewrite len_slice_to; unfold MAX_MESSAGE_LENGTH in *; lia).
    unfold MAX_MESSAGE_LENGTH in *.
    destruct (IH (slice_from content k)) as [Hcount Hbig].
    { unfold len in Hrest. lia. }
    assert (Hrest_ne : slice_from content k <> EmptyString).
    { intros E. rewrite E in Hrest. change (len EmptyString) with 0%Z in Hrest. lia. }
    specialize (Hcount Hrest_ne). cbn [length]. split.
    + intros _. lia.
    + intros [|i] chunk Hi Hlt.
      * injection Hi as <-. lia.
      * apply (Hbig i chunk Hi). lia.
Qed.

(** Every chunk [_split_message] returns, except the last one, is longer than
    half the limit (more than 8191 characters); so a text of [n] characters
    is cut into at most [n / 8192 + 1] chunks. *)
Theorem split_message_chunk_sizes (content : string) :
  (forall i chunk,
      _split_message content !! i = Some chunk ->
      S i < length (_split_message content) -> (8191 < len chunk)%Z) /\
  (Z.of_nat (length (_split_message content)) <= len content / 8192 + 1)%Z.
Proof.
  destruct (split_message_full_chunks (String.length content) content (le_n _))
    as [Hcount Hbig].
  split; [exact Hbig|].
  destruct (decide (content = EmptyString)) as [->|Hne]; [vm_compute; discriminate|].
  specialize (Hcount Hne).
  assert (Z.of_nat (length (_split_message content)) - 1 <= len content / 8192)%Z; [|lia].
  apply Z.div_le_lower_bound; lia.
Qed.


(** ** The cache's queries *)

Lemma omap_fst_sublist {A B C : Type} (f : A * B -> option (A * B * C)) (l : list (A * B)) :
  (forall x y, f x = Some y -> y.1.1 = x.1) ->
  (omap f l).*1.*1 `sublist_of` l.*1.
Proof.
  intros Hf. induction l as [|x l IH]; cbn [omap list_omap]; [constructor|].
  destruct (f x) as [y|] eqn:E.
  - cbn [fmap list_fmap]. rewrite (Hf x y E). constructor. exact IH.
  - cbn [fmap list_fmap]. constructor. exact IH.
Qed.

(** [get_all_tenants_with_bots] lists exactly the tenants for which both a
    non-empty server URL and a non-empty bot token are cached, with those two
    values, each tenant once; a token without a server URL is not enough. *)
Theorem get_all_tenants_with_bots_spec (c : MattermostCacheManager) :
  (forall tenant_id server_url bot_token,
      (tenant_id, server_url, bot_token) ∈ get_all_tenants_with_bots c <->
      get_server_url c tenant_id = Some server_url /\
      get_bot_token c tenant_id = Some bot_token /\
      server_url <> EmptyString /\ bot_token <> EmptyString) /\
  NoDup ((get_all_tenants_with_bots c).*1.*1).
Proof.
  split.
  - intros tenant_id server_url bot_token. unfold get_all_tenants_with_bots.
    rewrite list_elem_of_omap. unfold get_server_url, get_bot_token. split.
    + intros ([t tok] & Hin & Hsome). apply elem_of_map_to_list in Hin.
      cbn [fst] in Hsome. rewrite Hin in Hsome.
      destruct (_server_urls c !! t) as [[|a url]|] eqn:Hurl; try discriminate Hsome;
        destruct tok as [|b tok]; try discriminate Hsome.
      injection Hsome as <- <- <-. rewrite Hin, Hurl. repeat split; discriminate.
    + intros (Hurl & Htok & Hu & Ht). exists (tenant_id, bot_token).
      split; [apply elem_of_map_to_list, Htok|]. cbn [fst]. rewrite Hurl, Htok.
      destruct server_url; [congruence|]. destruct bot_token; [congruence|]. reflexivity.
  - assert (Hsub : (get_all_tenants_with_bots c).*1.*1
                   `sublist_of` (map_to_list (_bot_tokens c)).*1).
    { unfold get_all_tenants_with_bots. apply omap_fst_sublist. intros [t tok] y. cbn [fst].
      destruct (truthy_opt _ && truthy_opt _); [|discriminate]. intros [= <-]. reflexivity. }
    exact (sublist_NoDup _ _ (NoDup_fst_map_to_list _) Hsub).
Qed.

(** [remove_team] unroutes that team and nothing else: other teams keep
    their tenant, the tenant's credentials stay cached (so it is still
    listed by [get_all_tenants_with_bots]), and removing a team that is not
    cached changes nothing. *)
Theorem remove_team_spec (c : MattermostCacheManager) (team_id : string) :
  get_tenant (remove_team c team_id) team_id = None /\
  (forall other, other <> team_id ->
                 get_tenant (remove_team c team_id) other = get_tenant c other) /\
  (forall other, other ∈ get_all_team_ids (remove_team c team_id) <->
                 other ∈ get_all_team_ids c /\ other <> team_id) /\
  (forall tenant_id,
      get_api_key (remove_team c team_id) tenant_id = get_api_key c tenant_id) /\
  get_all_tenants_with_bots (remove_team c team_id) = get_all_tenants_with_bots c /\
  (get_tenant c team_id = None -> remove_team c team_id = c).
Proof.
  unfold get_tenant, get_api_key, get_all_team_ids, remove_team.
  cbn [_team_tenants _api_keys].
  split; [apply lookup_delete_eq|].
  split; [intros other Hne; apply lookup_delete_ne; congruence|].
  split.
  { intros other. rewrite !list_elem_of_fmap. split.
    - intros ([t v] & -> & Hin). apply elem_of_map_to_list in Hin. cbn [fst].
      destruct (decide (t = team_id)) as [->|Hne].
      + rewrite lookup_delete_eq in Hin. discriminate.
      + rewrite lookup_delete_ne in Hin by congruence.
        split; [|exact Hne]. exists (t, v). split; [reflexivity|].
        apply elem_of_map_to_list, Hin.
    - intros [([t v] & -> & Hin) Hne]. cbn [fst] in Hne. exists (t, v).
      split; [reflexivity|]. apply elem_of_map_to_list.
      rewrite lookup_delete_ne by congruence. apply elem_of_map_to_list, Hin. }
  split; [reflexivity|]. split; [reflexivity|].
  intros Hnone. destruct c as [teams keys urls tokens init]. cbn in *.
  rewrite delete_id by exact Hnone. reflexivity.
Qed.

(** ** The [!sync-channels] command *)

(** The lookup of the team's row id, in its own session, reads only. *)
Lemma team_config_id_run (team_id tenant_id : string) (s : State) :
  get_session_with_tenant tenant_id
    (config <- get_team_config_by_mattermost_id team_id ;;
     ret (MattermostTeamConfig.id <$> (snd <$> config))) s
  = match dbs (world s) !! tenant_id with
    | Some db =>
        (Returned (MattermostTeamConfig.id
                     <$> (snd <$> list_find (fun config => MattermostTeamConfig.team_id config
                                                           = Some team_id)
                                            (team_configs db))), s)
    | None => (Raised (ExternalError "database session unavailable"), s)
    end.
Proof.
  destruct s as [[dbs0 session0 gated0 ids0 entropy0 clock0 current0 posts0 faults0] c].
  unfold get_session_with_tenant, get_team_config_by_mattermost_id, db_read.
  unfold bind, ret. cbn -[lookup list_find].
  destruct (dbs0 !! tenant_id); reflexivity.
Qed.

Lemma create_post_unchanged (channel_id message : string) (root_id : option string)
    (s : State) :
  dbs (world (create_post channel_id message root_id s).2) = dbs (world s) /\
  cache (create_post channel_id message root_id s).2 = cache s.
Proof.
  unfold create_post, driver_call. destruct (driver_faults (world s)) as [|[|] rest];
    split; reflexivity.
Qed.

Lemma create_post_posted (channel_id message : string) (root_id : option string) (s : State) :
  driver_healthy s ->
  (create_post channel_id message root_id s).1 = Returned tt /\
  posts (world (create_post channel_id message root_id s).2)
  = posts (world s)
    ++ [mkPost channel_id message (if truthy_opt root_id then root_id else None)].
Proof.
  intros Hs.
  destruct (create_post_cases channel_id message root_id s)
    as [(e & s1 & Hpost & _ & Hbad)|(s1 & Hpost & Hposted & _)]; [contradiction|].
  rewrite Hpost. auto.
Qed.

(** The driver is the only source of errors in [create_post]. *)
Lemma create_post_raises (channel_id message : string) (root_id : option string)
    (s s1 : State) (e : exn) :
  create_post channel_id message root_id s = (Raised e, s1) ->
  exists msg, e = ExternalError msg.
Proof.
  unfold create_post, driver_call. destruct (driver_faults (world s)) as [|[|] rest];
    try discriminate. intros [= <- _]. eauto.
Qed.

(** The cases of [handle_sync_channels_command]. *)
Lemma sync_channels_command_run (message : MattermostMessage.t)
    (tenant_id : option string) (s : State) :
  let reply text :=
    create_post (MattermostMessage.channel_id message) text (command_reply_root message) in
  handle_sync_channels_command message tenant_id s
  = match tenant_id with
    | Some (String a t) =>
        match dbs (world s) !! String a t with
        | None => reply (sync_failed_prefix +:+ unexpected_error_message) s
        | Some db =>
            match list_find (fun config => MattermostTeamConfig.team_id config
                                           = Some (MattermostMessage.team_id message))
                            (team_configs db) with
            | Some (_, config) =>
                if (MattermostTeamConfig.id config =? 0)%Z
                then reply (sync_failed_prefix +:+ config_not_found_message) s
                else try_except (reply sync_info_message)
                                (fun _ => reply (sync_failed_prefix +:+ unexpected_error_message))
                                s
            | None => reply (sync_failed_prefix +:+ config_not_found_message) s
            end
        end
    | _ => reply (sync_failed_prefix +:+ not_registered_message) s
    end.
Proof.
  cbv zeta. unfold handle_sync_channels_command, try_except.
  destruct tenant_id as [[|a tenant]|]; cbn [truthy_opt truthy negb default];
    [reflexivity| |reflexivity].
  unfold bind at 1, id. rewrite team_config_id_run.
  destruct (dbs (world s) !! String a tenant) as [db|]; [|reflexivity].
  destruct (list_find _ (team_configs db)) as [[i config]|];
    cbn [fmap option_fmap option_map snd]; [|reflexivity].
  destruct (MattermostTeamConfig.id config) as [|p|p]; cbn [Z.eqb]; [reflexivity| |].
  all: destruct (create_post _ sync_info_message _ s) as [[[]|e] s1] eqn:E; [reflexivity|];
    apply create_post_raises in E as [msg ->]; reflexivity.
Qed.

(** [handle_sync_channels_command] synchronises nothing: it reads the team's
    row and answers; no database and no cache entry is written.  With a
    healthy driver it returns after exactly one reply: the not-registered text
    when the team has no tenant, the generic failure text when the tenant's
    database cannot be reached, the config-not-found text when the tenant has
    no row for the team (or the row's id is 0), and otherwise the text that
    points to the admin panel. *)
Theorem sync_channels_command_reply (message : MattermostMessage.t)
    (tenant_id : option string) (s : State) :
  exists text,
    dbs (world (handle_sync_channels_command message tenant_id s).2) = dbs (world s) /\
    cache (handle_sync_channels_command message tenant_id s).2 = cache s /\
    (driver_healthy s ->
     (handle_sync_channels_command message tenant_id s).1 = Returned tt /\
     posts (world (handle_sync_channels_command message tenant_id s).2)
     = posts (world s)
       ++ [mkPost (MattermostMessage.channel_id message) text
                  (if truthy_opt (command_reply_root message)
                   then command_reply_root message else None)]) /\
    (truthy_opt tenant_id = false -> text = sync_failed_prefix +:+ not_registered_message) /\
    (forall tenant,
        tenant_id = Some tenant -> tenant <> EmptyString ->
        (dbs (world s) !! tenant = None ->
         text = sync_failed_prefix +:+ unexpected_error_message) /\
        (forall db,
            dbs (world s) !! tenant = Some db ->
            match list_find (fun config => MattermostTeamConfig.team_id config
                                           = Some (MattermostMessage.team_id message))
                            (team_configs db) with
            | Some (_, config) =>
                if (MattermostTeamConfig.id config =? 0)%Z
                then text = sync_failed_prefix +:+ config_not_found_message
                else text = sync_info_message
            | None => text = sync_failed_prefix +:+ config_not_found_message
            end)).
Proof.
  set (reply := create_post (MattermostMessage.channel_id message)).
  assert (Hreply : forall text,
             dbs (world (reply text (command_reply_root message) s).2) = dbs (world s) /\
             cache (reply text (command_reply_root message) s).2 = cache s /\
             (driver_healthy s ->
              (reply text (command_reply_root message) s).1 = Returned tt /\
              posts (world (reply text (command_reply_root message) s).2)
              = posts (world s)
                ++ [mkPost (MattermostMessage.channel_id message) text
                           (if truthy_opt (command_reply_root message)
                            then command_reply_root message else None)])).
  { intros text. split; [apply create_post_unchanged|].
    split; [apply create_post_unchanged|]. apply create_post_posted. }
  assert (Hinfo : forall text',
             let run := try_except (reply sync_info_message (command_reply_root message))
                                   (fun _ => reply text' (command_reply_root message)) s in
             dbs (world run.2) = dbs (world s) /\
             cache run.2 = cache s /\
             (driver_healthy s ->
              run.1 = Returned tt /\
              posts (world run.2)
              = posts (world s)
                ++ [mkPost (MattermostMessage.channel_id message) sync_info_message
                           (if truthy_opt (command_reply_root message)
                            then command_reply_root message else None)])).
  { intros text'. cbv zeta. unfold try_except.
    destruct (Hreply sync_info_message) as (Hdbs & Hcache & Hposted).
    destruct (reply sync_info_message _ s) as [[[]|e] s1]; cbn [fst snd] in *.
    - auto.
    - pose proof (create_post_unchanged (MattermostMessage.channel_id message)
                    text' (command_reply_root message) s1) as [Hdbs1 Hcache1].
      fold reply in Hdbs1, Hcache1.
      split; [congruence|]. split; [congruence|].
      intros Hs. destruct (Hposted Hs) as [Hno _]. discriminate Hno. }
  rewrite sync_channels_command_run. cbv zeta. fold reply.
  destruct tenant_id as [[|a tenant]|].
  1,3: exists (sync_failed_prefix +:+ not_registered_message);
    split; [apply Hreply|]; split; [apply Hreply|]; split; [apply Hreply|];
    split; [reflexivity|]; intros tenant' Ht Hne; congruence.
  destruct (dbs (world s) !! String a tenant) as [db|] eqn:Hdb.
  - destruct (list_find (fun config => MattermostTeamConfig.team_id config
                                       = Some (MattermostMessage.team_id message))
                        (team_configs db)) as [[i config]|] eqn:Hfind.
    + destruct (MattermostTeamConfig.id config =? 0)%Z eqn:Hid.
      * exists (sync_failed_prefix +:+ config_not_found_message).
        split; [apply Hreply|]. split; [apply Hreply|]. split; [apply Hreply|].
        split; [discriminate|].
        intros tenant' [= <-] _. split; [congruence|].
        intros db' Hdb'. rewrite Hdb in Hdb'. injection Hdb' as <-.
        rewrite Hfind, Hid. reflexivity.
      * exists sync_info_message.
        split; [apply Hinfo|]. split; [apply Hinfo|]. split; [apply Hinfo|].
        split; [discriminate|].
        intros tenant' [= <-] _. split; [congruence|].
        intros db' Hdb'. rewrite Hdb in Hdb'. injection Hdb' as <-.
        rewrite Hfind, Hid. reflexivity.
    + exists (sync_failed_prefix +:+ config_not_found_message).
      split; [apply Hreply|]. split; [apply Hreply|]. split; [apply Hreply|].
      split; [discriminate|].
      intros tenant' [= <-] _. split; [congruence|].
      intros db' Hdb'. rewrite Hdb in Hdb'. injection Hdb' as <-.
      rewrite Hfind. reflexivity.
  - exists (sync_failed_prefix +:+ unexpected_error_message).
    split; [apply Hreply|]. split; [apply Hreply|]. split; [apply Hreply|].
    split; [discriminate|].
    intros tenant' [= <-] _. split; [reflexivity|]. congruence.
Qed.

(** ** What [send_response] delivers *)

Lemma join_chunks_app (front back : list string) :
  join_chunks (front ++ back) = join_chunks front +:+ join_chunks back.
Proof.
  induction front as [|chunk front IH]; cbn [app].
  - reflexivity.
  - rewrite !join_chunks_cons, IH, str_app_assoc. reflexivity.
Qed.

Lemma post_message_fmap (channel_id : string) (root_id : option string) (l : list string) :
  post_message <$> ((fun chunk => mkPost channel_id chunk root_id) <$> l) = l.
Proof. induction l as [|x l IH]; [reflexivity|]. cbn. f_equal. exact IH. Qed.

(** Whatever the driver does, the posts [send_response] has created carry,
    in order, a prefix of the content, each post within the platform's limit
    and none empty; when the call returns, they carry the whole content, and
    an empty content creates no post at all.  Posts created before a driver
    failure are not taken back. *)
Theorem send_response_delivers (message : MattermostMessage.t) (content : string)
    (thread_only_mode : bool) (s : State) :
  exists created : list Post,
    posts (world (send_response message content thread_only_mode s).2)
    = posts (world s) ++ created /\
    startswith content (join_chunks (post_message <$> created)) = true /\
    ((send_response message content thread_only_mode s).1 = Returned tt ->
     join_chunks (post_message <$> created) = content) /\
    Forall (fun p => (0 < len (post_message p) <= MAX_MESSAGE_LENGTH)%Z) created /\
    (content = EmptyString -> created = []).
Proof.
  unfold send_response.
  destruct (for_each_create_post (MattermostMessage.channel_id message)
              (response_root message thread_only_mode) (_split_message content) s)
    as (n & Hn & Hposts & Hret & _).
  unfold response_root in *.
  destruct (join_chunks_split_message content) as [Hjoin Hsizes].
  set (chunks := _split_message content) in *.
  eexists. split; [exact Hposts|].
  rewrite post_message_fmap.
  split; [|split; [|split]].
  - rewrite <- Hjoin at 1. rewrite <- (take_drop n chunks) at 1.
    rewrite join_chunks_app. apply startswith_app.
  - intros Hreturned. rewrite (Hret Hreturned), firstn_all. exact Hjoin.
  - apply Forall_fmap. apply Forall_take. eapply Forall_impl; [exact Hsizes|].
    intros chunk Hchunk. exact Hchunk.
  - intros ->. subst chunks. rewrite split_message_empty, take_nil. reflexivity.
Qed.

(** ** Error replies *)

(** A reaction request, handled by [except Exception: pass], returns; it can
    only use up a scheduled driver outcome. *)
Lemma swallowed_reaction (s : State) :
  exists s1,
    try_except (driver_call (fun s => s)) (fun _ => ret tt) s = (Returned tt, s1) /\
    dbs (world s1) = dbs (world s) /\ cache s1 = cache s /\
    posts (world s1) = posts (world s) /\
    (driver_healthy s -> driver_healthy s1).
Proof.
  unfold try_except, driver_call, driver_healthy.
  destruct (driver_faults (world s)) as [|[|] rest] eqn:E;
    (eexists; split; [reflexivity|]); repeat split; cbn; try rewrite E; intros Hs;
    inversion Hs; assumption.
Qed.

(** One run of [send_error_response]. *)
Lemma send_error_response_run (message : MattermostMessage.t) (bot_user_id : string)
    (s : State) :
  (send_error_response message bot_user_id s).1 = Returned tt /\
  dbs (world (send_error_response message bot_user_id s).2) = dbs (world s) /\
  cache (send_error_response message bot_user_id s).2 = cache s /\
  (posts (world (send_error_response message bot_user_id s).2) = posts (world s) \/
   posts (world (send_error_response message bot_user_id s).2)
   = posts (world s) ++ [error_reply message]) /\
  (driver_healthy s ->
   posts (world (send_error_response message bot_user_id s).2)
   = posts (world s) ++ [error_reply message]) /\
  (MattermostMessage.post_id message <> EmptyString ->
   post_root_id (error_reply message)
   = Some (if MattermostMessage.is_thread message then MattermostMessage.root_id message
           else MattermostMessage.post_id message)).
Proof.
  unfold send_error_response, remove_reaction. unfold bind.
  destruct (swallowed_reaction s) as (s1 & -> & Hdbs & Hcache & Hposts & Hhealthy).
  set (root_id := if MattermostMessage.is_thread message
                  then MattermostMessage.root_id message
                  else MattermostMessage.post_id message).
  assert (Hreply : mkPost (MattermostMessage.channel_id message) error_msg
                          (if truthy_opt (Some root_id) then Some root_id else None)
                   = error_reply message) by reflexivity.
  unfold try_except.
  destruct (create_post_unchanged (MattermostMessage.channel_id message) error_msg
              (Some root_id) s1) as [Hdbs1 Hcache1].
  destruct (create_post_cases (MattermostMessage.channel_id message) error_msg
              (Some root_id) s1)
    as [(e & s2 & Hpost & Hsame & Hbad)|(s2 & Hpost & Hposted & _)];
    rewrite Hpost in *; cbn [fst snd ret] in *.
  - split; [reflexivity|]. split; [congruence|]. split; [congruence|].
    split; [left; congruence|]. split; [intros Hs; elim Hbad; auto|].
    intros Hid. unfold error_reply. fold root_id. cbn [post_root_id].
    subst root_id. unfold MattermostMessage.is_thread.
    destruct (MattermostMessage.root_id message); cbn [truthy];
      [destruct (MattermostMessage.post_id message); [congruence|reflexivity]|reflexivity].
  - rewrite Hreply in Hposted.
    split; [reflexivity|]. split; [congruence|]. split; [congruence|].
    split; [right; congruence|]. split; [intros _; congruence|].
    intros Hid. unfold error_reply. fold root_id. cbn [post_root_id].
    subst root_id. unfold MattermostMessage.is_thread.
    destruct (MattermostMessage.root_id message); cbn [truthy];
      [destruct (MattermostMessage.post_id message); [congruence|reflexivity]|reflexivity].
Qed.

(** [send_error_response] never raises, whatever the driver does, and
    writes to no database and not to the cache.  It creates at most one post,
    the apology, and with a healthy driver exactly that post.  For a message
    with a post id the apology is a reply: under the thread's root for a
    message in a thread, under the message itself otherwise (where
    [send_response] may post in the channel). *)
Theorem send_error_response_safe (message : MattermostMessage.t) (bot_user_id : string)
    (s : State) :
  (send_error_response message bot_user_id s).1 = Returned tt /\
  dbs (world (send_error_response message bot_user_id s).2) = dbs (world s) /\
  cache (send_error_response message bot_user_id s).2 = cache s /\
  (posts (world (send_error_response message bot_user_id s).2) = posts (world s) \/
   posts (world (send_error_response message bot_user_id s).2)
   = posts (world s) ++ [error_reply message]) /\
  (driver_healthy s ->
   posts (world (send_error_response message bot_user_id s).2)
   = posts (world s) ++ [error_reply message]) /\
  (MattermostMessage.post_id message <> EmptyString ->
   post_root_id (error_reply message)
   = Some (if MattermostMessage.is_thread message then MattermostMessage.root_id message
           else MattermostMessage.post_id message)).
Proof. apply send_error_response_run. Qed.

(** ** Whether to respond *)

(** The configuration lookup of [should_respond], in its own session, reads
    only. *)
Lemma should_respond_run (channel_rows : string -> list MattermostChannelConfig.t)
    (message : MattermostMessage.t) (tenant_id bot_user_id : string) (s : State) :
  should_respond channel_rows message tenant_id bot_user_id s
  = match dbs (world s) !! tenant_id with
    | None => (Raised (ExternalError "database session unavailable"), s)
    | Some db =>
        (Returned
           match list_find (fun config => MattermostTeamConfig.team_id config
                                          = Some (MattermostMessage.team_id message))
                           (team_configs db) with
           | Some (_, team) =>
               if MattermostTeamConfig.enabled team then
                 match List.find
                         (fun c =>
                            existsb
                              (fun team =>
                                 bool_decide (MattermostTeamConfig.id team
                                              = MattermostChannelConfig.team_config_id c)
                                 && bool_decide (MattermostTeamConfig.team_id team
                                                 = Some (MattermostMessage.team_id message)))
                              (team_configs db)
                            && String.eqb (MattermostChannelConfig.channel_id c)
                                          (MattermostMessage.channel_id message))
                         (channel_rows tenant_id) with
                 | Some channel =>
                     if MattermostChannelConfig.enabled channel
                        && negb (MattermostChannelConfig.require_bot_invocation channel
                                 && negb (bool_decide
                                            (bot_user_id ∈ MattermostMessage.mentions message))
                                 && negb (check_implicit_invocation message bot_user_id))
                     then ShouldRespondContext.mk
                            true
                            (or_else (MattermostChannelConfig.persona_override_id channel)
                                     (MattermostTeamConfig.default_persona_id team))
                            (MattermostChannelConfig.thread_only_mode channel)
                     else ShouldRespondContext.mk false None false
                 | None => ShouldRespondContext.mk false None false
                 end
               else ShouldRespondContext.mk false None false
           | None => ShouldRespondContext.mk false None false
           end, s)
    end.
Proof.
  destruct s as [[dbs0 session0 gated0 ids0 entropy0 clock0 current0 posts0 faults0] c].
  unfold should_respond, get_session_with_tenant, get_team_config_by_mattermost_id,
    get_channel_config_by_mattermost_ids, db_read.
  unfold bind, ret. cbn -[lookup list_find List.find existsb].
  destruct (dbs0 !! tenant_id) as [db|]; [|reflexivity].
  cbn -[lookup list_find List.find existsb].
  destruct (list_find _ (team_configs db)) as [[i team]|]; [|reflexivity].
  destruct (MattermostTeamConfig.enabled team); cbn -[lookup list_find List.find existsb];
    [|reflexivity].
  destruct (List.find _ (channel_rows tenant_id)) as [channel|]; [|reflexivity].
  destruct (MattermostChannelConfig.enabled channel); cbn [negb andb]; [|reflexivity].
  destruct (MattermostChannelConfig.require_bot_invocation channel && _ && _); reflexivity.
Qed.

(** [should_respond] reads and never writes.  It raises when the tenant's
    database cannot be reached.  Otherwise it returns a decision: a refusal
    carries no persona and no thread-only flag; an acceptance means that the
    team's row is enabled, that an enabled channel row of that team exists for
    the message's channel, and that the bot was mentioned, or the channel does
    not require it, or the message is in a thread; it carries the channel's
    persona override, or the team's default when the override is missing or
    0, and the channel's thread-only flag.  A channel without a row is never
    answered. *)
Theorem should_respond_spec (channel_rows : string -> list MattermostChannelConfig.t)
    (message : MattermostMessage.t) (tenant_id bot_user_id : string) (s : State) :
  (dbs (world s) !! tenant_id = None ->
   should_respond channel_rows message tenant_id bot_user_id s
   = (Raised (ExternalError "database session unavailable"), s)) /\
  (forall db,
      dbs (world s) !! tenant_id = Some db ->
      exists ctx,
        should_respond channel_rows message tenant_id bot_user_id s = (Returned ctx, s) /\
        (ShouldRespondContext.should_respond ctx = false ->
         ShouldRespondContext.persona_id ctx = None /\
         ShouldRespondContext.thread_only_mode ctx = false) /\
        (ShouldRespondContext.should_respond ctx = true ->
         exists i team channel,
           list_find (fun config => MattermostTeamConfig.team_id config
                                    = Some (MattermostMessage.team_id message))
                     (team_configs db) = Some (i, team) /\
           MattermostTeamConfig.enabled team = true /\
           channel ∈ channel_rows tenant_id /\
           MattermostChannelConfig.channel_id channel = MattermostMessage.channel_id message /\
           (exists joined,
               joined ∈ team_configs db /\
               MattermostTeamConfig.id joined = MattermostChannelConfig.team_config_id channel /\
               MattermostTeamConfig.team_id joined = Some (MattermostMessage.team_id message)) /\
           MattermostChannelConfig.enabled channel = true /\
           (MattermostChannelConfig.require_bot_invocation channel = true ->
            bot_user_id ∉ MattermostMessage.mentions message ->
            MattermostMessage.is_thread message = true) /\
           ShouldRespondContext.persona_id ctx
           = or_else (MattermostChannelConfig.persona_override_id channel)
                     (MattermostTeamConfig.default_persona_id team) /\
           ShouldRespondContext.thread_only_mode ctx
           = MattermostChannelConfig.thread_only_mode channel) /\
        ((forall channel,
             channel ∈ channel_rows tenant_id ->
             MattermostChannelConfig.channel_id channel
             <> MattermostMessage.channel_id message) ->
         ShouldRespondContext.should_respond ctx = false)).
Proof.
  rewrite should_respond_run. split; [intros ->; reflexivity|].
  intros db ->. eexists. split; [reflexivity|].
  destruct (list_find _ (team_configs db)) as [[i team]|] eqn:Hteam;
    [|repeat split; try discriminate; reflexivity].
  destruct (MattermostTeamConfig.enabled team) eqn:Henabled;
    [|repeat split; try discriminate; reflexivity].
  destruct (List.find _ (channel_rows tenant_id)) as [channel|] eqn:Hchannel;
    [|repeat split; try discriminate; reflexivity].
  apply find_some in Hchannel as [Hin Hmatch].
  apply andb_prop in Hmatch as [Hjoin Hid].
  apply String.eqb_eq in Hid.
  destruct (MattermostChannelConfig.enabled channel
            && negb (MattermostChannelConfig.require_bot_invocation channel
                     && negb (bool_decide (bot_user_id ∈ MattermostMessage.mentions message))
                     && negb (check_implicit_invocation message bot_user_id))) eqn:Hgo.
  - split; [discriminate|]. split.
    + intros _. exists i, team, channel.
      apply andb_prop in Hgo as [Hon Hcalled].
      split; [reflexivity|]. split; [exact Henabled|].
      split; [apply list_elem_of_In, Hin|]. split; [exact Hid|]. split.
      { apply existsb_exists in Hjoin as (joined & Hjoined & Hboth).
        apply andb_prop in Hboth as [Hfk Hteam_id].
        apply bool_decide_eq_true in Hfk, Hteam_id.
        exists joined. split; [apply list_elem_of_In, Hjoined|]. auto. }
      split; [exact Hon|]. split; [|split; reflexivity].
      intros Hrequire Hquiet. rewrite Hrequire in Hcalled.
      rewrite bool_decide_eq_false_2 in Hcalled by exact Hquiet.
      cbn [negb andb] in Hcalled. unfold check_implicit_invocation in Hcalled.
      destruct (MattermostMessage.is_thread message); [reflexivity|discriminate].
    + intros Hnone. elim (Hnone channel); [apply list_elem_of_In, Hin|exact Hid].
  - split; [intros _; split; reflexivity|]. split; [discriminate|]. reflexivity.
Qed.

(** ** The reconnecting listener *)



Lemma websocket_loop_gave_up (observed : list (bool * connection_end)) :
  forall (attempts : Z) (slept : list Z),
    (0 <= attempts < 10)%Z ->
    gave_up (websocket_loop observed attempts slept) = true ->
    exists before after n,
      observed = before ++ replicate n (true, Failed) ++ after /\
      (n = 10 \/ (before = [] /\ Z.of_nat n = (10 - attempts)%Z)).
Proof.
  induction observed as [|[running connection] observed IH]; intros attempts slept Ha;
    cbn [websocket_loop]; unfold MAX_RECONNECT_ATTEMPTS.
  - unfold gave_up. cbn [exited reconnect_attempts].
    destruct (Z.ltb_spec attempts 10); [discriminate|lia].
  - destruct running; cbn [andb].
    2:{ unfold gave_up, MAX_RECONNECT_ATTEMPTS. cbn [exited reconnect_attempts andb].
        destruct (Z.leb_spec 10 attempts); [lia|discriminate]. }
    destruct (Z.ltb_spec attempts 10) as [_|Hge]; [|lia].
    destruct connection.
    + intros Hgave.
      destruct (IH 0%Z slept) as (before & after & n & -> & Hn); [lia|exact Hgave|].
      exists ((true, Disconnected) :: before), after, 10. split; [|left; reflexivity].
      assert (n = 10) as -> by (destruct Hn as [?|[_ ?]]; lia). reflexivity.
    + destruct (Z.ltb_spec (attempts + 1) 10) as [Hnext|Hlast].
      * intros Hgave.
        destruct (IH (attempts + 1)%Z (slept ++ [(RECONNECT_DELAY * (attempts + 1))%Z]))
          as (before & after & n & -> & Hn); [lia|exact Hgave|].
        destruct Hn as [->|[-> Hn]].
        -- exists ((true, Failed) :: before), after, 10. split; [reflexivity|left; reflexivity].
        -- exists [], after, (S n). split; [reflexivity|]. right. split; [reflexivity|lia].
      * intros _. exists [], observed, 1. split; [reflexivity|].
        right. split; [reflexivity|lia].
Qed.

Lemma websocket_loop_failures (n : nat) :
  forall (attempts : Z) (slept : list Z) (after : list (bool * connection_end)),
    (0 <= attempts <= 10)%Z -> (10 <= attempts + Z.of_nat n)%Z ->
    gave_up (websocket_loop (replicate n (true, Failed) ++ after) attempts slept) = true.
Proof.
  induction n as [|n IH]; intros attempts slept after Ha Hn.
  - assert (attempts = 10%Z) as -> by lia. destruct after as [|[running connection] after];
      cbn [replicate app websocket_loop]; [reflexivity|].
    destruct running; reflexivity.
  - cbn [replicate app websocket_loop]. cbn [andb]. unfold MAX_RECONNECT_ATTEMPTS.
    destruct (Z.ltb_spec attempts 10) as [Hlt|Hge].
    + destruct (Z.ltb_spec (attempts + 1) 10); apply IH; lia.
    + assert (attempts = 10%Z) as -> by lia. reflexivity.
Qed.

Lemma websocket_loop_running (before : list (bool * connection_end)) :
  forall (attempts : Z) (slept : list Z) (after : list (bool * connection_end)),
    Forall (fun o => o.1 = true) before ->
    (0 <= attempts <= 10)%Z ->
    (forall attempts' slept',
        (0 <= attempts' <= 10)%Z ->
        gave_up (websocket_loop after attempts' slept') = true) ->
    gave_up (websocket_loop (before ++ after) attempts slept) = true.
Proof.
  induction before as [|[running connection] before IH];
    intros attempts slept after Hrunning Ha Hafter; cbn [app].
  - apply Hafter, Ha.
  - inversion Hrunning as [|? ? Hhead Htail]. cbn [fst] in Hhead. subst.
    cbn [websocket_loop andb]. unfold MAX_RECONNECT_ATTEMPTS.
    destruct (Z.ltb_spec attempts 10) as [Hlt|Hge].
    + destruct connection; [apply IH; auto; lia|].
      destruct (Z.ltb_spec (attempts + 1) 10); apply IH; auto; lia.
    + unfold gave_up. cbn [exited reconnect_attempts andb]. unfold MAX_RECONNECT_ATTEMPTS.
      destruct (Z.leb_spec 10 attempts); [reflexivity|lia].
Qed.

(** [_websocket_listener] gives up exactly on ten failed connections in a
    row: if it has given up, ten consecutive iterations found the bot running
    and their connection failed; and as long as the bot is running, ten
    consecutive failures make it give up, whatever happened before.  Fewer
    failures in a row, or a clean disconnect in between, never do. *)
Theorem websocket_listener_gives_up (observed : list (bool * connection_end)) :
  (gave_up (_websocket_listener observed) = true ->
   exists before after,
     observed = before ++ replicate 10 (true, Failed) ++ after) /\
  (forall before after,
      observed = before ++ replicate 10 (true, Failed) ++ after ->
      Forall (fun o => o.1 = true) before ->
      gave_up (_websocket_listener observed) = true).
Proof.
  unfold _websocket_listener. split.
  - intros Hgave.
    destruct (websocket_loop_gave_up observed 0%Z [])
      as (before & after & n & -> & Hn); [lia|exact Hgave|].
    assert (n = 10) as -> by (destruct Hn as [?|[_ ?]]; lia).
    exists before, after. reflexivity.
  - intros before after -> Hrunning.
    apply websocket_loop_running; [exact Hrunning|lia|].
    intros attempts' slept' Ha. apply websocket_loop_failures; lia.
Qed.
#[export] Instance posts_are_world_frame (p : list Post) : WorldFrame (posts_are p).
Proof. split; intros v s Hs; exact Hs. Qed.

#[export] Instance posts_are_cache_frame (p : list Post) : CacheFrame (posts_are p).
Proof. split; intros v s Hs; exact Hs. Qed.

Section CacheMore.
Context `{ApiKeyBackend}.

(** ** Loading a tenant, continued *)

(** What one call of [_load_tenant_data] does, case by case. *)
Lemma load_tenant_data_run (tenant_id : string) (s : State) :
  _load_tenant_data tenant_id s =
  match dbs (world s) !! tenant_id with
  | None => (Raised (ExternalError "database session unavailable"), s)
  | Some db =>
      let server_url := MattermostBotConfig.server_url <$> bot_config db in
      let bot_token := MattermostBotConfig.bot_token <$> bot_config db in
      let cached_key := _api_keys (cache s) !! tenant_id in
      let n := entropy (world s) in
      match enabled_team_ids (team_configs db) with
      | [] => (Returned ([], None, server_url, bot_token), s)
      | team_id :: team_ids =>
          if truthy_opt cached_key
          then (Returned (team_id :: team_ids, cached_key, server_url, bot_token), s)
          else
            let created api_key :=
              (Returned (team_id :: team_ids, Some api_key, server_url, bot_token),
               set_dbs (<[tenant_id := set_service_api_key (stored_key api_key) db]>
                          (dbs (world s)))
                       (set_entropy (S n) s)) in
            match service_api_key db with
            | Some _ => created (generate_api_key tenant_id n)
            | None =>
                match insert_api_key n with
                | Some (String c k) => created (String c k)
                | _ =>
                    (Raised (RuntimeError
                               ("Failed to create Mattermost service API key for tenant "
                                +:+ tenant_id)),
                     set_entropy (S n) s)
                end
            end
      end
  end.
Proof.
  destruct s as [[dbs0 session0 gated0 ids0 entropy0 clock0 current0 posts0 faults0] c].
  unfold _load_tenant_data, get_session_with_tenant, get_mattermost_bot_config,
    get_team_configs, get_or_create_mattermost_service_api_key, db_commit, db_write, db_read.
  unfold bind, gets, modify, ret, raise. cbn -[lookup insert].
  destruct (dbs0 !! tenant_id) as [db|]; [|reflexivity]. cbn -[lookup insert].
  destruct (enabled_team_ids (team_configs db)) as [|team_id team_ids]; [reflexivity|].
  destruct (truthy_opt (_api_keys c !! tenant_id)); cbn -[lookup insert]; [reflexivity|].
  destruct (service_api_key db); cbn -[lookup insert]; [reflexivity|].
  destruct (insert_api_key entropy0) as [[|ch k]|]; reflexivity.
Qed.

(** One iteration of the loop of [refresh_all]: a gated tenant is skipped; a
    failed load is swallowed; the context variable is put back either way. *)
Lemma refresh_all_tenant_run (gated : gset string) (new : NewMaps) (tenant_id : string)
    (s : State) :
  refresh_all_tenant gated new tenant_id s =
  if bool_decide (tenant_id ∈ gated) then (Returned new, s)
  else
    let loaded := _load_tenant_data tenant_id (set_current_tenant (Some tenant_id) s) in
    (Returned
       match loaded.1 with
       | Returned (team_id :: team_ids, api_key, server_url, bot_token) =>
           if truthy_opt api_key then
             mkNewMaps
               (foldl (fun d team_id => <[team_id := tenant_id]> d)
                      (new_team_tenants new) (team_id :: team_ids))
               (<[tenant_id := default EmptyString api_key]> (new_api_keys new))
               (set_if_truthy tenant_id server_url (new_server_urls new))
               (set_if_truthy tenant_id bot_token (new_bot_tokens new))
           else new
       | _ => new
       end,
     set_current_tenant (current_tenant (world s)) loaded.2).
Proof.
  unfold refresh_all_tenant.
  destruct (bool_decide (tenant_id ∈ gated)); [reflexivity|].
  unfold bind at 1. cbn -[try_finally try_except _load_tenant_data].
  unfold try_finally, try_except, contextvar_reset, modify, bind.
  destruct (_load_tenant_data tenant_id _) as [[data|e] s1]; [|reflexivity].
  destruct data as [[[[|team_id team_ids] api_key] server_url] bot_token]; [reflexivity|].
  cbn. destruct (truthy_opt api_key); reflexivity.
Qed.

Lemma same_but_keys_refl (s : State) : same_but_keys s s.
Proof. repeat split. Qed.

Lemma same_but_keys_trans (s1 s2 s3 : State) :
  same_but_keys s1 s2 -> same_but_keys s2 s3 -> same_but_keys s1 s3.
Proof.
  intros (Ht & Hc & Hs & Hg & Hi & Hk & Hv & Hp & Hf) (Ht' & Hc' & Hs' & Hg' & Hi' & Hk' & Hv' & Hp' & Hf').
  split; [intros t; rewrite Ht', Ht; reflexivity|].
  repeat split; congruence.
Qed.

(** [_load_tenant_data] leaves everything but service keys alone, whether it
    returns or raises. *)
Lemma load_tenant_data_same_but_keys (tenant_id : string) (s : State) :
  same_but_keys s (_load_tenant_data tenant_id s).2.
Proof.
  rewrite load_tenant_data_run.
  destruct (dbs (world s) !! tenant_id) as [db|] eqn:Hdb; [|apply same_but_keys_refl].
  cbv zeta.
  destruct (enabled_team_ids (team_configs db)); [apply same_but_keys_refl|].
  destruct (truthy_opt _); [apply same_but_keys_refl|].
  assert (Hcreated : forall key,
             same_but_keys s
               (set_dbs (<[tenant_id := set_service_api_key key db]> (dbs (world s)))
                        (set_entropy (S (entropy (world s))) s))).
  { intros key. split; [|repeat split].
    intros t. cbn -[lookup insert]. destruct (decide (t = tenant_id)) as [->|Hne].
    - rewrite lookup_insert_eq, Hdb. reflexivity.
    - rewrite lookup_insert_ne by congruence. reflexivity. }
  destruct (service_api_key db); [apply Hcreated|].
  destruct (insert_api_key _) as [[|c k]|]; try apply Hcreated; repeat split.
Qed.

(** What a successful load returns. *)
Lemma load_tenant_data_returned (tenant_id : string) (s : State)
    (team_ids : list string) (api_key server_url bot_token : option string) :
  (_load_tenant_data tenant_id s).1 = Returned (team_ids, api_key, server_url, bot_token) ->
  exists db,
    dbs (world s) !! tenant_id = Some db /\
    team_ids = enabled_team_ids (team_configs db) /\
    server_url = MattermostBotConfig.server_url <$> bot_config db /\
    bot_token = MattermostBotConfig.bot_token <$> bot_config db /\
    (forall cached, _api_keys (cache s) !! tenant_id = Some cached ->
                    cached <> EmptyString -> team_ids <> [] -> api_key = Some cached).
Proof.
  rewrite load_tenant_data_run.
  destruct (dbs (world s) !! tenant_id) as [db|] eqn:Hdb; [|discriminate].
  cbv zeta. intros Hrun. exists db. split; [reflexivity|].
  destruct (enabled_team_ids (team_configs db)) as [|team_id rest].
  { injection Hrun as <- <- <- <-. repeat split. congruence. }
  destruct (_api_keys (cache s) !! tenant_id) as [[|c k]|] eqn:Hcached; cbn in Hrun.
  2:{ injection Hrun as <- <- <- <-. repeat split. intros cached [= <-]. reflexivity. }
  all: destruct (service_api_key db);
    [|destruct (insert_api_key _) as [[|c k]|]; try discriminate Hrun];
    injection Hrun as <- <- <- <-; repeat split; intros cached [= <-]; congruence.
Qed.

Lemma foldl_insert_lookup (tenant_id : string) (team_ids : list string) :
  forall (d : gmap string string) (team_id : string),
    foldl (fun d team_id => <[team_id := tenant_id]> d) d team_ids !! team_id
    = if bool_decide (team_id ∈ team_ids) then Some tenant_id else d !! team_id.
Proof.
  induction team_ids as [|t team_ids IH]; intros d team_id; cbn [foldl].
  - reflexivity.
  - rewrite IH. destruct (bool_decide_reflect (team_id ∈ team_ids)) as [Hin|Hnot].
    + rewrite bool_decide_eq_true_2 by (right; exact Hin). reflexivity.
    + destruct (decide (team_id = t)) as [->|Hne].
      * rewrite lookup_insert_eq, bool_decide_eq_true_2 by left. reflexivity.
      * rewrite lookup_insert_ne by congruence.
        rewrite bool_decide_eq_false_2; [reflexivity|].
        intros Hin. apply elem_of_cons in Hin as [?|?]; congruence.
Qed.

Lemma truthy_opt_true (value : option string) :
  truthy_opt value = true -> exists v, value = Some v /\ v <> EmptyString.
Proof. destruct value as [[|c v]|]; try discriminate. intros _. eexists. split; [reflexivity|discriminate]. Qed.

Lemma set_if_truthy_lookup (key : string) (value : option string) (d : gmap string string)
    (k v : string) :
  set_if_truthy key value d !! k = Some v ->
  (k = key /\ value = Some v /\ v <> EmptyString) \/ d !! k = Some v.
Proof.
  unfold set_if_truthy. destruct (truthy_opt value) eqn:Hv; [|auto].
  apply truthy_opt_true in Hv as (v0 & -> & Hne). cbn [default].
  destruct (decide (k = key)) as [->|Hk].
  - rewrite lookup_insert_eq. intros [= <-]. auto.
  - rewrite lookup_insert_ne by congruence. auto.
Qed.

Lemma same_but_keys_contextvar (s s1 : State) (v : option string) :
  same_but_keys (set_current_tenant v s) s1 ->
  same_but_keys s (set_current_tenant (current_tenant (world s)) s1).
Proof.
  intros (Ht & Hc & Hs & Hg & Hi & Hk & Hv & Hp & Hf).
  split; [exact Ht|]. repeat split; assumption.
Qed.

(** One iteration keeps the invariant of the maps and changes nothing but
    service keys. *)
Lemma refresh_all_tenant_inv (s0 : State) (gated : gset string) (tenant_ids : list string)
    (new : NewMaps) (tenant_id : string) (s : State) :
  same_but_keys s0 s -> tenant_id ∈ tenant_ids -> refresh_inv s0 gated tenant_ids new ->
  exists new' s',
    refresh_all_tenant gated new tenant_id s = (Returned new', s') /\
    same_but_keys s0 s' /\ refresh_inv s0 gated tenant_ids new'.
Proof.
  intros Hsame Hin Hinv. rewrite refresh_all_tenant_run.
  destruct (bool_decide_reflect (tenant_id ∈ gated)) as [Hgated|Hfree]; [eauto|].
  cbv zeta. eexists _, _. split; [reflexivity|].
  set (s_in := set_current_tenant (Some tenant_id) s).
  pose proof (load_tenant_data_same_but_keys tenant_id s_in) as Hload.
  apply same_but_keys_contextvar in Hload.
  split; [eapply same_but_keys_trans; eassumption|].
  destruct (_load_tenant_data tenant_id s_in).1
    as [[[[[|team_id team_ids] api_key] server_url] bot_token]|e] eqn:Hdata;
    try exact Hinv.
  destruct (truthy_opt api_key) eqn:Hkey; [|exact Hinv].
  apply load_tenant_data_returned in Hdata as (db & Hdb & Hteams & Hurl & Htoken & Hcached).
  apply truthy_opt_true in Hkey as (key & -> & Hkey).
  destruct Hsame as (Htables & Hcache & _).
  assert (Hdb0 : exists db0, dbs (world s0) !! tenant_id = Some db0 /\
                             bot_config db0 = bot_config db /\
                             team_configs db0 = team_configs db).
  { specialize (Htables tenant_id). change (dbs (world s_in)) with (dbs (world s)) in Hdb.
    rewrite Hdb in Htables. destruct (dbs (world s0) !! tenant_id) as [db0|]; [|discriminate].
    injection Htables as Hb Ht. eauto. }
  destruct Hdb0 as (db0 & Hdb0 & Hbot & Hrows).
  destruct Hinv as (Hroutes & Hkeys & Hurls & Htokens).
  assert (Hsome : forall t, is_Some (new_api_keys new !! t) ->
                            is_Some (<[tenant_id := key]> (new_api_keys new) !! t)).
  { intros t Ht. destruct (decide (t = tenant_id)) as [->|Hne].
    - rewrite lookup_insert_eq. eauto.
    - rewrite lookup_insert_ne by congruence. exact Ht. }
  assert (Hself : is_Some (<[tenant_id := key]> (new_api_keys new) !! tenant_id))
    by (rewrite lookup_insert_eq; eauto).
  cbn [default]. split; [|split; [|split]];
    cbn [new_team_tenants new_api_keys new_server_urls new_bot_tokens].
  - intros team tenant. rewrite foldl_insert_lookup.
    destruct (bool_decide_reflect (team ∈ team_id :: team_ids)) as [Hteam|Hother].
    + intros [= <-]. split; [|exact Hself]. exists db0. split; [exact Hdb0|].
      rewrite Hrows, <- Hteams. exact Hteam.
    + intros Hold. destruct (Hroutes _ _ Hold) as [Hdb' Hk']. split; [exact Hdb'|].
      apply Hsome, Hk'.
  - intros tenant key'. destruct (decide (tenant = tenant_id)) as [->|Hne].
    + rewrite lookup_insert_eq. intros [= <-]. repeat split; try assumption.
      intros cached Hc Hne. change (cache s_in) with (cache s) in Hcached.
      rewrite Hcache in Hcached. specialize (Hcached cached Hc Hne).
      injection Hcached; [auto|discriminate].
    + rewrite lookup_insert_ne by congruence. apply Hkeys.
  - intros tenant url Hlook. apply set_if_truthy_lookup in Hlook as [(-> & -> & Hne)|Hold].
    + split; [exact Hne|]. split; [exact Hself|]. exists db0. split; [exact Hdb0|].
      rewrite Hbot. symmetry. exact Hurl.
    + destruct (Hurls _ _ Hold) as (Hne & Hk' & Hdb'). auto.
  - intros tenant token Hlook. apply set_if_truthy_lookup in Hlook as [(-> & -> & Hne)|Hold].
    + split; [exact Hne|]. split; [exact Hself|]. exists db0. split; [exact Hdb0|].
      rewrite Hbot. symmetry. exact Htoken.
    + destruct (Htokens _ _ Hold) as (Hne & Hk' & Hdb'). auto.
Qed.

Lemma refresh_loop_inv (s0 : State) (gated : gset string) (tenant_ids : list string)
    (todo : list string) :
  forall (new : NewMaps) (s : State),
    todo ⊆ tenant_ids -> same_but_keys s0 s -> refresh_inv s0 gated tenant_ids new ->
    exists new' s',
      for_fold todo new (refresh_all_tenant gated) s = (Returned new', s') /\
      same_but_keys s0 s' /\ refresh_inv s0 gated tenant_ids new'.
Proof.
  induction todo as [|tenant_id todo IH]; intros new s Hsub Hsame Hinv; cbn [for_fold].
  - eauto.
  - destruct (refresh_all_tenant_inv s0 gated tenant_ids new tenant_id s Hsame)
      as (new1 & s1 & Hstep & Hsame1 & Hinv1); [apply Hsub; left|exact Hinv|].
    unfold bind. rewrite Hstep. apply IH; [|assumption..].
    intros t Ht. apply Hsub. right. exact Ht.
Qed.

Lemma refresh_inv_empty (s0 : State) (gated : gset string) (tenant_ids : list string) :
  refresh_inv s0 gated tenant_ids (mkNewMaps ∅ ∅ ∅ ∅).
Proof.
  split; [|split; [|split]]; intros k v Hk; cbn in Hk; rewrite lookup_empty in Hk;
    discriminate.
Qed.

(** The two ways [refresh_all] ends: it raises at once, or it publishes maps
    that satisfy the invariant of the loop. *)
Lemma refresh_all_result (s : State) :
  (exists e, refresh_all s = (Raised e, s)) \/
  (exists gated tenant_ids new s1,
      gated_tenants (world s) = Some gated /\
      all_tenant_ids (world s) = Some tenant_ids /\
      refresh_all s
      = (Returned tt,
         set_cache (mkCache (new_team_tenants new) (new_api_keys new)
                            (new_server_urls new) (new_bot_tokens new) true) s1) /\
      same_but_keys s s1 /\ refresh_inv s gated tenant_ids new).
Proof.
  destruct (gated_tenants (world s)) as [gated|] eqn:Hgated.
  2:{ left. eexists. unfold refresh_all, try_except, bind at 1, get_gated_tenants.
      rewrite Hgated. reflexivity. }
  destruct (all_tenant_ids (world s)) as [tenant_ids|] eqn:Hids.
  2:{ left. eexists. unfold refresh_all, try_except, bind at 1, get_gated_tenants.
      rewrite Hgated. unfold bind at 1, get_all_tenant_ids. rewrite Hids. reflexivity. }
  right.
  destruct (refresh_loop_inv s gated tenant_ids tenant_ids (mkNewMaps ∅ ∅ ∅ ∅) s)
    as (new & s1 & Hloop & Hsame & Hinv);
    [reflexivity|apply same_but_keys_refl|apply refresh_inv_empty|].
  destruct (refresh_all_returns s gated tenant_ids Hgated Hids) as (new' & s1' & Hloop' & Hrun).
  rewrite Hloop in Hloop'. injection Hloop' as <- <-.
  exists gated, tenant_ids, new, s1. auto.
Qed.

(** After a successful [refresh_all] the cache is initialized and every
    route it holds is backed by the database: the team is an enabled,
    registered team of the tenant it is routed to, that tenant is listed and
    not gated, and a non-empty API key is cached for it. *)
Theorem refresh_all_routes_sound (s s' : State) :
  refresh_all s = (Returned tt, s') ->
  is_initialized (cache s') = true /\
  forall team_id tenant_id,
    get_tenant (cache s') team_id = Some tenant_id ->
    (exists db, dbs (world s) !! tenant_id = Some db /\
                team_id ∈ enabled_team_ids (team_configs db)) /\
    (exists tenant_ids, all_tenant_ids (world s) = Some tenant_ids /\ tenant_id ∈ tenant_ids) /\
    (exists gated, gated_tenants (world s) = Some gated /\ tenant_id ∉ gated) /\
    (exists key, get_api_key (cache s') tenant_id = Some key /\ key <> EmptyString).
Proof.
  intros Hrun.
  destruct (refresh_all_result s)
    as [[e He]|(gated & tenant_ids & new & s1 & Hgated & Hids & Hok & _ & Hinv)];
    [congruence|].
  rewrite Hok in Hrun. injection Hrun as <-.
  split; [reflexivity|]. intros team_id tenant_id Hroute.
  destruct Hinv as (Hroutes & Hkeys & _).
  destruct (Hroutes _ _ Hroute) as [Hdb [key Hkey]].
  destruct (Hkeys _ _ Hkey) as (Hne & Hin & Hfree & _).
  split; [exact Hdb|]. split; [eauto|]. split; [eauto|]. exists key. auto.
Qed.

(** The credentials a successful [refresh_all] publishes: API keys are
    non-empty, and a tenant whose non-empty key was cached before keeps that
    key (no key is rotated); server URLs and bot tokens are non-empty, are the
    ones of the tenant's bot configuration, and are cached only for tenants
    that also have an API key. *)
Theorem refresh_all_credentials (s s' : State) :
  refresh_all s = (Returned tt, s') ->
  (forall tenant_id key,
      get_api_key (cache s') tenant_id = Some key ->
      key <> EmptyString /\
      (forall cached, get_api_key (cache s) tenant_id = Some cached ->
                      cached <> EmptyString -> key = cached)) /\
  (forall tenant_id server_url,
      get_server_url (cache s') tenant_id = Some server_url ->
      server_url <> EmptyString /\ is_Some (get_api_key (cache s') tenant_id) /\
      exists db, dbs (world s) !! tenant_id = Some db /\
                 MattermostBotConfig.server_url <$> bot_config db = Some server_url) /\
  (forall tenant_id bot_token,
      get_bot_token (cache s') tenant_id = Some bot_token ->
      bot_token <> EmptyString /\ is_Some (get_api_key (cache s') tenant_id) /\
      exists db, dbs (world s) !! tenant_id = Some db /\
                 MattermostBotConfig.bot_token <$> bot_config db = Some bot_token).
Proof.
  intros Hrun.
  destruct (refresh_all_result s)
    as [[e He]|(gated & tenant_ids & new & s1 & Hgated & Hids & Hok & _ & Hinv)];
    [congruence|].
  rewrite Hok in Hrun. injection Hrun as <-.
  destruct Hinv as (_ & Hkeys & Hurls & Htokens).
  split; [|split; [exact Hurls|exact Htokens]].
  intros tenant_id key Hkey. destruct (Hkeys _ _ Hkey) as (Hne & _ & _ & Hcached). auto.
Qed.

(** Whether it returns or raises, [refresh_all] never touches the bot
    configuration or the team rows of any tenant, posts nothing, and leaves
    the session and the tenant context variable as it found them: in the
    databases it can only create or replace service keys. *)
Theorem refresh_all_frame (s : State) :
  (forall tenant_id,
      bot_config <$> dbs (world (refresh_all s).2) !! tenant_id
      = bot_config <$> dbs (world s) !! tenant_id) /\
  (forall tenant_id,
      team_configs <$> dbs (world (refresh_all s).2) !! tenant_id
      = team_configs <$> dbs (world s) !! tenant_id) /\
  posts (world (refresh_all s).2) = posts (world s) /\
  session (world (refresh_all s).2) = session (world s) /\
  current_tenant (world (refresh_all s).2) = current_tenant (world s).
Proof.
  destruct (refresh_all_result s)
    as [[e ->]|(gated & tenant_ids & new & s1 & _ & _ & -> & Hsame & _)];
    [repeat split|].
  destruct Hsame as (Htables & _ & Hsession & _ & _ & _ & Hcurrent & Hposts & _).
  cbn [snd set_cache world].
  split; [|split; [|auto]]; intros tenant_id; specialize (Htables tenant_id);
    destruct (dbs (world s1) !! tenant_id), (dbs (world s) !! tenant_id);
    cbn in *; congruence.
Qed.

(** ** Reading [_load_tenant_data] off its cases *)

(** A load with a cached key. *)
Lemma load_tenant_data_reuses_cached_key_run (tenant_id cached : string) (db : TenantDb)
    (s : State) :
  _api_keys (cache s) !! tenant_id = Some cached -> cached <> EmptyString ->
  dbs (world s) !! tenant_id = Some db ->
  _load_tenant_data tenant_id s
  = (Returned (enabled_team_ids (team_configs db),
               match enabled_team_ids (team_configs db) with
               | [] => None
               | _ :: _ => Some cached
               end,
               MattermostBotConfig.server_url <$> bot_config db,
               MattermostBotConfig.bot_token <$> bot_config db),
     s).
Proof.
  intros Hcached Hne Hdb. rewrite load_tenant_data_run, Hdb, Hcached. cbv zeta.
  destruct (enabled_team_ids (team_configs db)); [reflexivity|].
  destruct cached; [congruence|reflexivity].
Qed.

(** With a non-empty key cached for the tenant, [_load_tenant_data] only
    reads: it returns the tenant's enabled team ids, the cached key (no key
    at all when there is no such team) and the bot's server URL and token,
    and leaves the state, databases included, exactly as it was. *)
Theorem load_tenant_data_reuses_cached_key (tenant_id cached : string) (db : TenantDb)
    (s : State) :
  _api_keys (cache s) !! tenant_id = Some cached -> cached <> EmptyString ->
  dbs (world s) !! tenant_id = Some db ->
  _load_tenant_data tenant_id s
  = (Returned (enabled_team_ids (team_configs db),
               match enabled_team_ids (team_configs db) with
               | [] => None
               | _ :: _ => Some cached
               end,
               MattermostBotConfig.server_url <$> bot_config db,
               MattermostBotConfig.bot_token <$> bot_config db),
     s).
Proof. apply load_tenant_data_reuses_cached_key_run. Qed.

(** Without a usable cached key, a load that finds enabled teams and returns
    hands out a key that it has committed: the tenant's database now stores
    the hash and the display form of exactly that key, in place of whatever
    service key it held, and every other row is as before.  A load that
    raises has committed nothing. *)
Theorem load_tenant_data_commits_key (tenant_id : string) (db : TenantDb) (s : State) :
  truthy_opt (_api_keys (cache s) !! tenant_id) = false ->
  dbs (world s) !! tenant_id = Some db ->
  enabled_team_ids (team_configs db) <> [] ->
  (exists api_key,
      (_load_tenant_data tenant_id s).1
      = Returned (enabled_team_ids (team_configs db), Some api_key,
                  MattermostBotConfig.server_url <$> bot_config db,
                  MattermostBotConfig.bot_token <$> bot_config db) /\
      dbs (world (_load_tenant_data tenant_id s).2)
      = <[tenant_id := mkTenantDb (bot_config db) (team_configs db)
                         (Some (ApiKey.mk (hash_api_key api_key)
                                          (build_displayable_api_key api_key)))]>
          (dbs (world s)) /\
      (service_api_key db <> None ->
       api_key = generate_api_key tenant_id (entropy (world s)))) \/
  (exists msg,
      (_load_tenant_data tenant_id s).1 = Raised (RuntimeError msg) /\
      dbs (world (_load_tenant_data tenant_id s).2) = dbs (world s) /\
      service_api_key db = None).
Proof.
  intros Hcached Hdb Hteams. rewrite load_tenant_data_run, Hdb. cbv zeta. rewrite Hcached.
  destruct (enabled_team_ids (team_configs db)) as [|team_id team_ids]; [congruence|].
  destruct (service_api_key db) as [old|].
  - left. eexists. split; [reflexivity|]. split; [reflexivity|]. reflexivity.
  - destruct (insert_api_key (entropy (world s))) as [[|c k]|].
    + right. eexists. repeat split.
    + left. eexists. split; [reflexivity|]. split; [reflexivity|]. congruence.
    + right. eexists. repeat split.
Qed.

(** ** A refresh to which no tenant contributes *)

Lemma set_current_tenant_back (s : State) (v : option string) :
  set_current_tenant (current_tenant (world s)) (set_current_tenant v s) = s.
Proof. destruct s as [[] c]. reflexivity. Qed.

Lemma refresh_all_tenant_skips (gated : gset string) (new : NewMaps) (tenant_id : string)
    (s : State) :
  tenant_id ∈ gated \/ dbs (world s) !! tenant_id = None \/
  (exists db, dbs (world s) !! tenant_id = Some db /\
              enabled_team_ids (team_configs db) = []) ->
  refresh_all_tenant gated new tenant_id s = (Returned new, s).
Proof.
  intros Hskip. rewrite refresh_all_tenant_run.
  destruct (bool_decide_reflect (tenant_id ∈ gated)) as [Hgated|Hfree]; [reflexivity|].
  destruct Hskip as [Hgated|Hskip]; [contradiction|].
  cbv zeta. rewrite load_tenant_data_run.
  change (dbs (world (set_current_tenant (Some tenant_id) s))) with (dbs (world s)).
  destruct Hskip as [->|(db & -> & Hnone)].
  - cbn [fst snd]. rewrite set_current_tenant_back. reflexivity.
  - cbv zeta. rewrite Hnone. cbn [fst snd]. rewrite set_current_tenant_back. reflexivity.
Qed.

(** When every listed tenant is gated, unreachable or without an enabled
    registered team, [refresh_all] still succeeds: it publishes four empty
    maps, so every route and credential cached before is dropped, marks the
    cache initialized, and changes nothing else. *)
Theorem refresh_all_without_teams (s : State) (gated : gset string)
    (tenant_ids : list string) :
  gated_tenants (world s) = Some gated ->
  all_tenant_ids (world s) = Some tenant_ids ->
  (forall tenant_id,
      tenant_id ∈ tenant_ids ->
      tenant_id ∈ gated \/ dbs (world s) !! tenant_id = None \/
      (exists db, dbs (world s) !! tenant_id = Some db /\
                  enabled_team_ids (team_configs db) = [])) ->
  refresh_all s = (Returned tt, set_cache (mkCache ∅ ∅ ∅ ∅ true) s).
Proof.
  intros Hgated Hids Hskip.
  destruct (refresh_all_returns s gated tenant_ids Hgated Hids) as (new & s1 & Hloop & ->).
  assert (Hfold : forall new0,
             for_fold tenant_ids new0 (refresh_all_tenant gated) s = (Returned new0, s)).
  { clear Hloop Hids. induction tenant_ids as [|tenant_id tenant_ids IH]; intros new0;
      cbn [for_fold]; [reflexivity|].
    unfold bind. rewrite refresh_all_tenant_skips by (apply Hskip; left).
    apply IH. intros t Ht. apply Hskip. right. exact Ht. }
  rewrite Hfold in Hloop. injection Hloop as <- <-. reflexivity.
Qed.

(** ** Rejected registrations *)

(** The reply a rejected [!register] gets. *)
Lemma registration_rejected (message : MattermostMessage.t) (body : M unit) (text : string)
    (s : State) :
  body s = (Raised (RegistrationError text), s) ->
  try_except body
    (fun e =>
       match e with
       | RegistrationError msg =>
           create_post (MattermostMessage.channel_id message)
                       (registration_failed_prefix +:+ msg) (command_reply_root message)
       | _ =>
           create_post (MattermostMessage.channel_id message)
                       (registration_failed_prefix +:+ unexpected_error_message)
                       (command_reply_root message)
       end) s
  = create_post (MattermostMessage.channel_id message)
                (registration_failed_prefix +:+ text) (command_reply_root message) s.
Proof. intros Hbody. unfold try_except. rewrite Hbody. reflexivity. Qed.

(** A [!register] command is rejected before any database is opened when
    it carries no key, when the team is already routed in the cache, or when
    the key is malformed, in that order of precedence; each rejection is one
    reply, [:x: **Registration failed.**] followed by the reason, posted from
    an otherwise unchanged state. *)
Theorem registration_rejected_early (message : MattermostMessage.t) (s : State) :
  (length (split_maxsplit1 (strip (MattermostMessage.message message))) < 2 ->
   handle_registration_command message s
   = create_post (MattermostMessage.channel_id message)
                 (registration_failed_prefix +:+ usage_message)
                 (command_reply_root message) s) /\
  (forall word rest,
      split_maxsplit1 (strip (MattermostMessage.message message)) = [word; rest] ->
      (get_tenant (cache s) (MattermostMessage.team_id message) <> None ->
       handle_registration_command message s
       = create_post (MattermostMessage.channel_id message)
                     (registration_failed_prefix +:+ already_registered_message)
                     (command_reply_root message) s) /\
      (get_tenant (cache s) (MattermostMessage.team_id message) = None ->
       parse_mattermost_registration_key (strip rest) = None ->
       handle_registration_command message s
       = create_post (MattermostMessage.channel_id message)
                     (registration_failed_prefix +:+ invalid_key_message)
                     (command_reply_root message) s)).
Proof.
  unfold handle_registration_command. split.
  - intros Hparts. apply registration_rejected.
    destruct (split_maxsplit1 _) as [|word [|rest parts]]; try reflexivity.
    cbn in Hparts. lia.
  - intros word rest ->. split.
    + intros Hrouted. apply registration_rejected. unfold bind, gets.
      destruct (get_tenant (cache s) _); [reflexivity|congruence].
    + intros Hfree Hparse. apply registration_rejected. unfold bind, gets.
      rewrite Hfree, Hparse. reflexivity.
Qed.

Lemma contextvar_roundtrip (s : State) (v : option string) :
  set_current_tenant (current_tenant (world s))
    (set_session (session (world s)) (set_session None (set_current_tenant v s))) = s.
Proof. destruct s as [[] c]. reflexivity. Qed.

(** What [_register_team] does when the key cannot be used. *)
Lemma register_team_rejects (message : MattermostMessage.t)
    (registration_key tenant_id : string) (s : State) :
  (dbs (world s) !! tenant_id = None ->
   _register_team message registration_key tenant_id s
   = (Raised (ExternalError "database session unavailable"), s)) /\
  (forall db,
      dbs (world s) !! tenant_id = Some db ->
      list_find (fun c => MattermostTeamConfig.registration_key c = registration_key)
                (team_configs db) = None ->
      _register_team message registration_key tenant_id s
      = (Raised (RegistrationError key_not_found_message), s)).
Proof.
  destruct s as [[dbs0 session0 gated0 ids0 entropy0 clock0 current0 posts0 faults0] c].
  cbn [world dbs].
  unfold _register_team, contextvar_set, contextvar_reset, try_finally,
    get_session_with_tenant, _sync_register, get_team_config_by_registration_key, db_read.
  unfold bind, gets, modify, ret, raise.
  cbn [world dbs session set_current_tenant set_session]. split.
  - intros ->. reflexivity.
  - intros db -> Hfind. cbn [world dbs session set_current_tenant set_session].
    rewrite Hfind. reflexivity.
Qed.

(** A well-formed [!register <key>] from an unrouted team is rejected by the
    database step, with one reply and no change to any row or to the cache,
    when the key's row does not exist or is already bound to a team; when the
    tenant named in the key has no reachable database the user gets the
    generic failure text, not a reason. *)
Theorem registration_rejected_by_database (message : MattermostMessage.t)
    (word rest tenant_id : string) (s : State) :
  split_maxsplit1 (strip (MattermostMessage.message message)) = [word; rest] ->
  get_tenant (cache s) (MattermostMessage.team_id message) = None ->
  parse_mattermost_registration_key (strip rest) = Some tenant_id ->
  (dbs (world s) !! tenant_id = None ->
   handle_registration_command message s
   = create_post (MattermostMessage.channel_id message)
                 (registration_failed_prefix +:+ unexpected_error_message)
                 (command_reply_root message) s) /\
  (forall db,
      dbs (world s) !! tenant_id = Some db ->
      (list_find (fun c => MattermostTeamConfig.registration_key c = strip rest)
                 (team_configs db) = None ->
       handle_registration_command message s
       = create_post (MattermostMessage.channel_id message)
                     (registration_failed_prefix +:+ key_not_found_message)
                     (command_reply_root message) s) /\
      (forall i config bound_team,
          list_find (fun c => MattermostTeamConfig.registration_key c = strip rest)
                    (team_configs db) = Some (i, config) ->
          MattermostTeamConfig.team_id config = Some bound_team ->
          handle_registration_command message s
          = create_post (MattermostMessage.channel_id message)
                        (registration_failed_prefix +:+ key_already_used_message)
                        (command_reply_root message) s)).
Proof.
  intros Hparts Hfree Hparse.
  assert (Hkey : tenant_id <> EmptyString).
  { intros ->. unfold parse_mattermost_registration_key in Hparse.
    destruct (negb _); [discriminate|]. destruct (negb _); [discriminate|].
    destruct (nth 0 _ _); discriminate. }
  assert (Hrun : forall r,
             _register_team message (strip rest) tenant_id s = (Raised r, s) ->
             handle_registration_command message s
             = match r with
               | RegistrationError msg =>
                   create_post (MattermostMessage.channel_id message)
                               (registration_failed_prefix +:+ msg)
                               (command_reply_root message) s
               | _ =>
                   create_post (MattermostMessage.channel_id message)
                               (registration_failed_prefix +:+ unexpected_error_message)
                               (command_reply_root message) s
               end).
  { intros r Hr. unfold handle_registration_command. rewrite Hparts.
    unfold try_except, bind at 1, gets. rewrite Hfree, Hparse.
    destruct tenant_id; [congruence|]. cbn [truthy_opt truthy negb default].
    unfold bind, id. rewrite Hr. destruct r; reflexivity. }
  destruct (register_team_rejects message (strip rest) tenant_id s) as [Hnone Hsome].
  split.
  - intros Hdb. rewrite (Hrun _ (Hnone Hdb)). reflexivity.
  - intros db Hdb. split.
    + intros Hfind. rewrite (Hrun _ (Hsome db Hdb Hfind)). reflexivity.
    + intros i config bound_team Hfind Hbound.
      rewrite (Hrun _ (register_team_used_key message (strip rest) tenant_id s db i config
                         bound_team Hdb Hfind Hbound)).
      reflexivity.
Qed.

(** ** A registration that finds its row unbound *)

(** [_register_team] on an unbound row: the binding is committed, then the
    cache is refreshed for the team, then the context variable is put back;
    the outcome is the one of the refresh. *)
Lemma register_team_free_run (message : MattermostMessage.t)
    (registration_key tenant_id : string) (s : State) (db : TenantDb)
    (i : nat) (config : MattermostTeamConfig.t) :
  dbs (world s) !! tenant_id = Some db ->
  list_find (fun c => MattermostTeamConfig.registration_key c = registration_key)
            (team_configs db) = Some (i, config) ->
  MattermostTeamConfig.team_id config = None ->
  _register_team message registration_key tenant_id s
  = let team_id := MattermostMessage.team_id message in
    let db' := set_team_configs
                 (<[i := bind_team config team_id (clock (world s))]> (team_configs db)) db in
    let refreshed :=
      refresh_team team_id tenant_id
        (set_dbs (<[tenant_id := db']> (dbs (world s)))
                 (set_current_tenant (Some tenant_id) s)) in
    (refreshed.1, set_current_tenant (current_tenant (world s)) refreshed.2).
Proof.
  intros Hdb Hfind Hfree.
  destruct s as [[dbs0 session0 gated0 ids0 entropy0 clock0 current0 posts0 faults0] c].
  cbn [world dbs clock current_tenant] in *.
  unfold _register_team, contextvar_set, contextvar_reset, try_finally,
    get_session_with_tenant, _sync_register, get_team_config_by_registration_key,
    db_commit, db_write, db_read.
  unfold bind at 1 2 3 4 5 6 7 8 9 10, gets, modify, ret, raise.
  cbn [world dbs session clock set_current_tenant set_session set_dbs]. rewrite Hdb.
  cbn [world dbs session clock set_current_tenant set_session set_dbs].
  rewrite Hfind, Hfree.
  cbn [world dbs session clock set_current_tenant set_session set_dbs cache
       current_tenant gated_tenants all_tenant_ids entropy posts driver_faults].
  cbv zeta.
  destruct (refresh_team _ _ _) as [[[]|e] s3]; reflexivity.
Qed.

(** [refresh_team] for a tenant whose database is reachable: it can only
    fail with the [RuntimeError] of the key creation; when it returns, an
    enabled team of the tenant is routed to it. *)
Lemma refresh_team_result (team_id tenant_id : string) (s : State) (db : TenantDb) :
  dbs (world s) !! tenant_id = Some db ->
  (exists msg, (refresh_team team_id tenant_id s).1 = Raised (RuntimeError msg)) \/
  ((refresh_team team_id tenant_id s).1 = Returned tt /\
   (team_id ∈ enabled_team_ids (team_configs db) ->
    get_tenant (cache (refresh_team team_id tenant_id s).2) team_id = Some tenant_id)).
Proof.
  intros Hdb. unfold refresh_team, bind. rewrite load_tenant_data_run, Hdb. cbv zeta.
  assert (Hroute : forall (data_key url token : option string) (s1 : State) teams,
             teams = enabled_team_ids (team_configs db) ->
             let r := (if bool_decide (team_id ∈ teams)
                       then modify (fun s =>
                              let c := cache s in
                              set_cache (mkCache (<[team_id := tenant_id]> (_team_tenants c))
                                           (set_if_truthy tenant_id data_key (_api_keys c))
                                           (set_if_truthy tenant_id url (_server_urls c))
                                           (set_if_truthy tenant_id token (_bot_tokens c))
                                           (_initialized c)) s)
                       else ret tt) s1 in
             r.1 = Returned tt /\
             (team_id ∈ enabled_team_ids (team_configs db) ->
              get_tenant (cache r.2) team_id = Some tenant_id)).
  { intros data_key url token s1 teams -> r. subst r.
    destruct (bool_decide_reflect (team_id ∈ enabled_team_ids (team_configs db)))
      as [Hin|Hnot].
    - split; [reflexivity|]. intros _. unfold get_tenant. cbn. apply lookup_insert_eq.
    - split; [reflexivity|]. intros Hin. contradiction. }
  destruct (enabled_team_ids (team_configs db)) as [|t ts] eqn:Hteams.
  { right. apply (Hroute None _ _ s []). reflexivity. }
  destruct (truthy_opt _).
  { right. apply (Hroute _ _ _ s). reflexivity. }
  destruct (service_api_key db).
  { right. apply (Hroute _ _ _ _ (t :: ts)). reflexivity. }
  destruct (insert_api_key _) as [[|c k]|].
  - left. eexists. reflexivity.
  - right. apply (Hroute _ _ _ _ (t :: ts)). reflexivity.
  - left. eexists. reflexivity.
Qed.


Lemma bound_team_enabled (configs : list MattermostTeamConfig.t) (i : nat)
    (config : MattermostTeamConfig.t) (team_id : string) (now : Z) :
  configs !! i = Some config ->
  MattermostTeamConfig.enabled config = true ->
  team_id ∈ enabled_team_ids (<[i := bind_team config team_id now]> configs).
Proof.
  intros Hi Henabled. unfold enabled_team_ids. apply list_elem_of_omap.
  exists (bind_team config team_id now). split.
  - apply list_elem_of_lookup. exists i. apply list_lookup_insert_eq.
    apply lookup_lt_Some in Hi. exact Hi.
  - cbn. rewrite Henabled. reflexivity.
Qed.

(** A well-formed [!register <key>] from an unrouted team whose key names an
    unbound row binds that row to the team and commits the binding before
    anything else can fail.  With a healthy driver the command then returns
    after exactly one reply, which is the success text or, when the cache
    refresh that follows the commit fails, the generic failure text: in that
    case the key is consumed although a failure is reported.  After the
    success text the team is routed to the tenant if the row is enabled. *)
Theorem registration_binds_key (message : MattermostMessage.t)
    (word rest tenant_id : string) (s : State) (db : TenantDb)
    (i : nat) (config : MattermostTeamConfig.t) :
  split_maxsplit1 (strip (MattermostMessage.message message)) = [word; rest] ->
  get_tenant (cache s) (MattermostMessage.team_id message) = None ->
  parse_mattermost_registration_key (strip rest) = Some tenant_id ->
  dbs (world s) !! tenant_id = Some db ->
  list_find (fun c => MattermostTeamConfig.registration_key c = strip rest)
            (team_configs db) = Some (i, config) ->
  MattermostTeamConfig.team_id config = None ->
  driver_healthy s ->
  exists text db1,
    (handle_registration_command message s).1 = Returned tt /\
    posts (world (handle_registration_command message s).2)
    = posts (world s)
      ++ [mkPost (MattermostMessage.channel_id message) text
                 (if truthy_opt (command_reply_root message)
                  then command_reply_root message else None)] /\
    (text = registration_success_message \/
     text = registration_failed_prefix +:+ unexpected_error_message) /\
    dbs (world (handle_registration_command message s).2) !! tenant_id = Some db1 /\
    list_find (fun c => MattermostTeamConfig.registration_key c = strip rest)
              (team_configs db1)
    = Some (i, bind_team config (MattermostMessage.team_id message) (clock (world s))) /\
    (text = registration_success_message ->
     MattermostTeamConfig.enabled config = true ->
     get_tenant (cache (handle_registration_command message s).2)
                (MattermostMessage.team_id message) = Some tenant_id).
Proof.
  intros Hparts Hunrouted Hparse Hdb Hfind Hfree Hhealthy.
  assert (Hkey : tenant_id <> EmptyString).
  { intros ->. unfold parse_mattermost_registration_key in Hparse.
    destruct (negb _); [discriminate|]. destruct (negb _); [discriminate|].
    destruct (nth 0 _ _); discriminate. }
  set (team_id := MattermostMessage.team_id message) in *.
  pose proof (register_team_binds message (strip rest) tenant_id s db i config
                Hdb Hfind Hfree) as (db1 & Hdb1 & Hfind1).
  pose proof (preserves_register_team (posts_are (posts (world s))) message (strip rest)
                tenant_id s eq_refl) as Hposts.
  pose proof (preserves_register_team driver_healthy message (strip rest)
                tenant_id s Hhealthy) as Hhealthy1.
  pose proof (register_team_free_run message (strip rest) tenant_id s db i config
                Hdb Hfind Hfree) as Hrun.
  cbv zeta in Hrun. fold team_id in Hrun.
  set (db' := set_team_configs _ db) in Hrun.
  set (s2 := set_dbs _ _) in Hrun.
  assert (Hdb2 : dbs (world s2) !! tenant_id = Some db')
    by (subst s2; cbn -[lookup insert]; apply lookup_insert_eq).
  pose proof (refresh_team_result team_id tenant_id s2 db' Hdb2) as Hrefresh.
  destruct (list_find_Some (fun c => MattermostTeamConfig.registration_key c = strip rest)
              (team_configs db) i config) as [Hlookup _].
  destruct (Hlookup Hfind) as (Hi & _ & _). clear Hlookup.
  set (handler := fun e : exn =>
         match e with
         | RegistrationError msg =>
             create_post (MattermostMessage.channel_id message)
                         (registration_failed_prefix +:+ msg) (command_reply_root message)
         | _ =>
             create_post (MattermostMessage.channel_id message)
                         (registration_failed_prefix +:+ unexpected_error_message)
                         (command_reply_root message)
         end).
  assert (Hbody : handle_registration_command message s
                  = match _register_team message (strip rest) tenant_id s with
                    | (Returned _, s1) =>
                        match create_post (MattermostMessage.channel_id message)
                                registration_success_message (command_reply_root message) s1
                        with
                        | (Returned a, s3) => (Returned a, s3)
                        | (Raised e, s3) => handler e s3
                        end
                    | (Raised e, s1) => handler e s1
                    end).
  { unfold handle_registration_command. rewrite Hparts.
    unfold try_except, bind at 1, gets. fold team_id. rewrite Hunrouted, Hparse.
    destruct tenant_id as [|a tenant]; [congruence|]. cbn [truthy_opt truthy negb default].
    unfold bind, id.
    destruct (_register_team message (strip rest) _ s) as [[[]|e] s1]; reflexivity. }
  rewrite Hbody. clear Hbody.
  unfold posts_are in Hposts.
  destruct (_register_team message (strip rest) tenant_id s) as [[[]|e] s1] eqn:Hreg;
    cbn [fst snd] in *; injection Hrun as Hout Hstate.
  - destruct (create_post_cases (MattermostMessage.channel_id message)
                registration_success_message (command_reply_root message) s1)
      as [(e & s3 & Hpost & _ & Hbad)|(s3 & Hpost & Hposted & _)]; [contradiction|].
    destruct (create_post_unchanged (MattermostMessage.channel_id message)
                registration_success_message (command_reply_root message) s1)
      as [Hdbs Hcache].
    rewrite Hpost in *. cbv beta iota in *. cbn [fst snd] in *.
    exists registration_success_message, db1.
    split; [reflexivity|]. split; [rewrite Hposted, Hposts; reflexivity|].
    split; [left; reflexivity|]. split; [rewrite Hdbs; exact Hdb1|].
    split; [exact Hfind1|]. intros _ Henabled.
    rewrite Hcache, Hstate. cbn [cache set_current_tenant].
    destruct Hrefresh as [[msg Hraised]|[_ Hroute]]; [congruence|].
    apply Hroute. subst db'. cbn [team_configs set_team_configs].
    apply bound_team_enabled; assumption.
  - assert (Hruntime : exists msg, e = RuntimeError msg).
    { destruct Hrefresh as [[msg Hraised]|[Hreturned _]]; [|congruence].
      exists msg. congruence. }
    destruct Hruntime as [msg ->]. cbv beta iota delta [handler].
    destruct (create_post_cases (MattermostMessage.channel_id message)
                (registration_failed_prefix +:+ unexpected_error_message)
                (command_reply_root message) s1)
      as [(e & s3 & Hpost & _ & Hbad)|(s3 & Hpost & Hposted & _)]; [contradiction|].
    destruct (create_post_unchanged (MattermostMessage.channel_id message)
                (registration_failed_prefix +:+ unexpected_error_message)
                (command_reply_root message) s1)
      as [Hdbs Hcache].
    rewrite Hpost in *. cbv beta iota in *. cbn [fst snd] in *.
    exists (registration_failed_prefix +:+ unexpected_error_message), db1.
    split; [reflexivity|]. split; [rewrite Hposted, Hposts; reflexivity|].
    split; [right; reflexivity|]. split; [rewrite Hdbs; exact Hdb1|].
    split; [exact Hfind1|]. intros Htext. vm_compute in Htext. discriminate Htext.
Qed.


(** ** Routes that survive a refresh *)

Lemma refresh_all_tenant_same (s0 : State) (gated : gset string) (new : NewMaps)
    (tenant_id : string) (s : State) :
  same_but_keys s0 s -> same_but_keys s0 (refresh_all_tenant gated new tenant_id s).2.
Proof.
  intros Hsame. rewrite refresh_all_tenant_run.
  destruct (bool_decide (tenant_id ∈ gated)); [exact Hsame|].
  cbv zeta. cbn [snd].
  pose proof (load_tenant_data_same_but_keys tenant_id
                (set_current_tenant (Some tenant_id) s)) as Hload.
  apply same_but_keys_contextvar in Hload.
  eapply same_but_keys_trans; eassumption.
Qed.

Lemma refresh_all_tenant_keeps (gated : gset string) (new : NewMaps)
    (tenant_id team_id tenant' : string) (s : State) :
  is_Some (new_team_tenants new !! team_id) ->
  is_Some (new_api_keys new !! tenant') ->
  exists new' s',
    refresh_all_tenant gated new tenant_id s = (Returned new', s') /\
    is_Some (new_team_tenants new' !! team_id) /\
    is_Some (new_api_keys new' !! tenant').
Proof.
  intros Hroute Hkey. rewrite refresh_all_tenant_run.
  destruct (bool_decide (tenant_id ∈ gated)); [eauto|].
  cbv zeta. eexists _, _. split; [reflexivity|].
  destruct (_load_tenant_data tenant_id _).1
    as [[[[[|t ts] api_key] server_url] bot_token]|e]; auto.
  destruct (truthy_opt api_key); [|auto].
  cbn [new_team_tenants new_api_keys]. split.
  - rewrite foldl_insert_lookup. destruct (bool_decide _); [eauto|exact Hroute].
  - destruct (decide (tenant' = tenant_id)) as [->|Hne].
    + rewrite lookup_insert_eq. eauto.
    + rewrite lookup_insert_ne by congruence. exact Hkey.
Qed.

Lemma refresh_all_tenant_routes (gated : gset string) (new : NewMaps)
    (tenant_id team_id cached : string) (s : State) (db : TenantDb) :
  tenant_id ∉ gated ->
  dbs (world s) !! tenant_id = Some db ->
  team_id ∈ enabled_team_ids (team_configs db) ->
  _api_keys (cache s) !! tenant_id = Some cached -> cached <> EmptyString ->
  exists new' s',
    refresh_all_tenant gated new tenant_id s = (Returned new', s') /\
    is_Some (new_team_tenants new' !! team_id) /\
    is_Some (new_api_keys new' !! tenant_id).
Proof.
  intros Hfree Hdb Hteam Hcached Hne. rewrite refresh_all_tenant_run.
  rewrite bool_decide_eq_false_2 by exact Hfree. cbv zeta.
  eexists _, _. split; [reflexivity|].
  rewrite (load_tenant_data_reuses_cached_key_run tenant_id cached db) by assumption.
  cbn [fst]. destruct (enabled_team_ids (team_configs db)) as [|t ts] eqn:Hteams;
    [inversion Hteam|].
  destruct cached; [congruence|]. cbn [truthy_opt truthy new_team_tenants new_api_keys].
  split.
  - rewrite foldl_insert_lookup, bool_decide_eq_true_2 by exact Hteam. eauto.
  - rewrite lookup_insert_eq. eauto.
Qed.

Lemma refresh_loop_routes (s0 : State) (gated : gset string)
    (tenant_id team_id cached : string) (db : TenantDb) (todo : list string) :
  tenant_id ∉ gated ->
  dbs (world s0) !! tenant_id = Some db ->
  team_id ∈ enabled_team_ids (team_configs db) ->
  _api_keys (cache s0) !! tenant_id = Some cached -> cached <> EmptyString ->
  forall (new : NewMaps) (s : State),
    same_but_keys s0 s ->
    tenant_id ∈ todo \/
    (is_Some (new_team_tenants new !! team_id) /\ is_Some (new_api_keys new !! tenant_id)) ->
    exists new' s',
      for_fold todo new (refresh_all_tenant gated) s = (Returned new', s') /\
      is_Some (new_team_tenants new' !! team_id) /\
      is_Some (new_api_keys new' !! tenant_id).
Proof.
  intros Hfree Hdb Hteam Hcached Hne.
  induction todo as [|next todo IH]; intros new s Hsame Hcase; cbn [for_fold].
  - destruct Hcase as [Hin|Hcovered]; [inversion Hin|]. exists new, s. auto.
  - assert (Hstep : exists new1 s1,
               refresh_all_tenant gated new next s = (Returned new1, s1) /\
               same_but_keys s0 s1 /\
               (tenant_id ∈ todo \/
                (is_Some (new_team_tenants new1 !! team_id) /\
                 is_Some (new_api_keys new1 !! tenant_id)))).
    { assert (Hstate : forall new1 s1,
                 refresh_all_tenant gated new next s = (Returned new1, s1) ->
                 same_but_keys s0 s1).
      { intros new1 s1 Hrun.
        pose proof (refresh_all_tenant_same s0 gated new next s Hsame) as Hsame1.
        rewrite Hrun in Hsame1. exact Hsame1. }
      destruct Hcase as [Hin|[Hroute Hkey]].
      - apply elem_of_cons in Hin as [<-|Hin].
        + destruct Hsame as (Htables & Hcache & _).
          assert (Hdb' : exists db', dbs (world s) !! tenant_id = Some db' /\
                                     team_configs db' = team_configs db).
          { specialize (Htables tenant_id). rewrite Hdb in Htables.
            destruct (dbs (world s) !! tenant_id) as [db'|]; [|discriminate].
            injection Htables as _ Hrows. eauto. }
          destruct Hdb' as (db' & Hdb' & Hrows).
          destruct (refresh_all_tenant_routes gated new tenant_id team_id cached s db')
            as (new1 & s1 & Hrun & Hcovered); try assumption; try congruence.
          exists new1, s1. split; [exact Hrun|]. split; [eapply Hstate, Hrun|]. right.
          exact Hcovered.
        + destruct (refresh_all_tenant_returns gated new next s) as [new1 Hrun].
          destruct (refresh_all_tenant gated new next s) as [r s1] eqn:Hpair.
          cbn [fst] in Hrun. subst r. exists new1, s1.
          split; [reflexivity|]. split; [eapply Hstate; reflexivity|]. left. exact Hin.
      - destruct (refresh_all_tenant_keeps gated new next team_id tenant_id s Hroute Hkey)
          as (new1 & s1 & Hrun & Hcovered).
        exists new1, s1. split; [exact Hrun|]. split; [eapply Hstate, Hrun|]. right.
        exact Hcovered. }
    destruct Hstep as (new1 & s1 & Hrun & Hsame1 & Hcase1).
    unfold bind. rewrite Hrun. apply IH; assumption.
Qed.

(** A successful [refresh_all] does not lose a team that is still served:
    if the team is an enabled, registered team of a tenant that is listed, not
    gated and reachable, and a non-empty API key is cached for that tenant,
    then after the refresh the team is routed (to that tenant, or to a tenant
    listed later that has the same team enabled) and the tenant still has its
    cached key. *)
Theorem refresh_all_routes_complete (s s' : State) (gated : gset string)
    (tenant_ids : list string) (tenant_id team_id cached : string) (db : TenantDb) :
  refresh_all s = (Returned tt, s') ->
  gated_tenants (world s) = Some gated ->
  all_tenant_ids (world s) = Some tenant_ids ->
  tenant_id ∈ tenant_ids -> tenant_id ∉ gated ->
  dbs (world s) !! tenant_id = Some db ->
  team_id ∈ enabled_team_ids (team_configs db) ->
  get_api_key (cache s) tenant_id = Some cached -> cached <> EmptyString ->
  is_Some (get_tenant (cache s') team_id) /\
  get_api_key (cache s') tenant_id = Some cached.
Proof.
  intros Hrun Hgated Hids Hin Hfree Hdb Hteam Hcached Hne.
  destruct (refresh_all_returns s gated tenant_ids Hgated Hids) as (new & s1 & Hloop & Hok).
  destruct (refresh_loop_routes s gated tenant_id team_id cached db tenant_ids
              Hfree Hdb Hteam Hcached Hne (mkNewMaps ∅ ∅ ∅ ∅) s (same_but_keys_refl s)
              (or_introl Hin)) as (new2 & s2 & Hloop2 & Hroute & Hkey).
  rewrite Hloop in Hloop2. injection Hloop2 as <- <-.
  destruct (refresh_loop_inv s gated tenant_ids tenant_ids (mkNewMaps ∅ ∅ ∅ ∅) s)
    as (new3 & s3 & Hloop3 & _ & Hinv);
    [reflexivity|apply same_but_keys_refl|apply refresh_inv_empty|].
  rewrite Hloop in Hloop3. injection Hloop3 as <- <-.
  rewrite Hok in Hrun. injection Hrun as <-.
  unfold get_tenant, get_api_key. cbn [cache set_cache _team_tenants _api_keys].
  split; [exact Hroute|].
  destruct Hkey as [key Hkey]. destruct Hinv as (_ & Hkeys & _).
  destruct (Hkeys tenant_id key Hkey) as (_ & _ & _ & Hstable).
  rewrite Hkey. f_equal. apply Hstable; assumption.
Qed.

End CacheMore.

(** * Processing a chat message *)

(** A request to the platform writes to no database and not to the cache,
    provided its effect does not. *)
Lemma preserves_driver_call (P : State -> Prop) (effect : State -> State) :
  (forall s, P s -> P (effect s)) ->
  (forall rest s, P s -> P (set_driver_faults rest s)) ->
  preserves P (driver_call effect).
Proof.
  intros Heffect Hfaults s Hs. unfold driver_call.
  destruct (driver_faults (world s)) as [|[|] rest]; cbn [snd]; auto.
Qed.

Lemma preserves_stores_create_post (d : gmap string TenantDb) (c : MattermostCacheManager)
    (channel_id message : string) (root_id : option string) :
  preserves (stores_are d c) (create_post channel_id message root_id).
Proof.
  intros s [Hd Hc]. destruct (create_post_unchanged channel_id message root_id s) as [Hd' Hc'].
  split; congruence.
Qed.

Lemma preserves_stores_send_response (d : gmap string TenantDb) (c : MattermostCacheManager)
    (message : MattermostMessage.t) (content : string) (thread_only_mode : bool) :
  preserves (stores_are d c) (send_response message content thread_only_mode).
Proof.
  unfold send_response. apply preserves_for_each. intros chunk.
  apply preserves_stores_create_post.
Qed.

Lemma preserves_stores_send_error_response (d : gmap string TenantDb)
    (c : MattermostCacheManager) (message : MattermostMessage.t) (bot_user_id : string) :
  preserves (stores_are d c) (send_error_response message bot_user_id).
Proof.
  intros s [Hd Hc].
  destruct (send_error_response_run message bot_user_id s) as (_ & Hd' & Hc' & _).
  split; congruence.
Qed.

(** With a healthy driver [send_response] posts every chunk and returns. *)
Lemma send_response_healthy (message : MattermostMessage.t) (content : string)
    (thread_only_mode : bool) (s : State) :
  driver_healthy s ->
  exists s1,
    send_response message content thread_only_mode s = (Returned tt, s1) /\
    posts (world s1)
    = posts (world s)
      ++ ((fun chunk =>
             mkPost (MattermostMessage.channel_id message) chunk
                    (response_root message thread_only_mode))
            <$> _split_message content).
Proof.
  intros Hs. unfold send_response.
  destruct (for_each_create_post (MattermostMessage.channel_id message)
              (response_root message thread_only_mode) (_split_message content) s)
    as (n & Hn & Hposts & Hret & Hhealthy).
  unfold response_root in *. rewrite truthy_opt_if_truthy in Hposts.
  specialize (Hhealthy Hs). specialize (Hret Hhealthy). subst n.
  rewrite firstn_all in Hposts.
  destruct (for_each _ _ s) as [r s1]. cbn [fst snd] in *. subst r.
  exists s1. auto.
Qed.

Lemma omap_length_le {A B : Type} (f : A -> option B) (l : list A) :
  length (omap f l) <= length l.
Proof.
  induction l as [|x l IH]; cbn [omap list_omap length]; [lia|].
  destruct (f x); cbn [length]; lia.
Qed.

Lemma omap_length_lt {A B : Type} (f : A -> option B) (l : list A) (x : A) :
  x ∈ l -> f x = None -> length (omap f l) < length l.
Proof.
  intros Hin Hnone. induction Hin as [x l|x y l Hin IH]; cbn [omap list_omap length].
  - rewrite Hnone. pose proof (omap_length_le f l). lia.
  - try specialize (IH Hnone). destruct (f y); cbn [length]; lia.
Qed.

(** The history [_build_thread_context] formats is taken from the last ten
    posts of the thread, the current post left out: it has at most ten lines,
    and at most nine when the current post is among those last ten, because
    the cap is applied before the current post is skipped.  A thread that
    holds no other post gives no history. *)
Theorem formatted_history_window (message : MattermostMessage.t) (bot_user_id : string)
    (thread_data : ThreadData.t) :
  length (formatted_history message bot_user_id thread_data) <= 10 /\
  (MattermostMessage.post_id message
   ∈ drop (length (default [] (ThreadData.order thread_data)) - 10)
          (default [] (ThreadData.order thread_data)) ->
   length (formatted_history message bot_user_id thread_data) <= 9) /\
  (Forall (fun post_id => post_id = MattermostMessage.post_id message)
          (default [] (ThreadData.order thread_data)) ->
   formatted_history message bot_user_id thread_data = []).
Proof.
  unfold formatted_history, MAX_CONTEXT_MESSAGES.
  set (order := default [] (ThreadData.order thread_data)).
  set (line := fun post_id : string => _).
  assert (Hwindow : length (drop (length order - 10) order) <= 10)
    by (rewrite length_drop; lia).
  split; [|split].
  - pose proof (omap_length_le line (drop (length order - 10) order)). lia.
  - intros Hin.
    pose proof (omap_length_lt line _ _ Hin) as Hlt.
    assert (Hnone : line (MattermostMessage.post_id message) = None).
    { subst line. cbn beta. rewrite String.eqb_refl. reflexivity. }
    specialize (Hlt Hnone). lia.
  - intros Hall. apply (Forall_drop _ (length order - 10)) in Hall. clear Hwindow.
    induction Hall as [|post_id rest Hpost _ IH]; [reflexivity|].
    cbn [omap list_omap]. subst line. cbn beta. rewrite Hpost, String.eqb_refl.
    exact IH.
Qed.

Section ChatMore.
Context `{ChatBackend}.

(** Building the context never raises and touches nothing but the driver's
    schedule; outside a thread the platform is not even asked. *)
Lemma build_conversation_context_returns (message : MattermostMessage.t)
    (bot_user_id : string) (s : State) :
  exists context s1,
    _build_conversation_context message bot_user_id s = (Returned context, s1) /\
    dbs (world s1) = dbs (world s) /\ cache s1 = cache s /\
    posts (world s1) = posts (world s) /\
    (driver_healthy s -> driver_healthy s1) /\
    (MattermostMessage.is_thread message = false -> context = None /\ s1 = s).
Proof.
  unfold _build_conversation_context, _build_thread_context, MattermostMessage.is_thread.
  destruct (truthy (MattermostMessage.root_id message)) eqn:Hthread; cbn [andb negb].
  2:{ exists None, s. repeat split; auto. }
  unfold try_except, get_thread, bind, driver_call, ret, driver_healthy.
  destruct (driver_faults (world s)) as [|[|] rest] eqn:E.
  - destruct (platform_thread _) as [thread_data|];
      [destruct (formatted_history _ _ thread_data)|];
      eexists _, _; (split; [reflexivity|]);
      (split; [reflexivity|]); (split; [reflexivity|]); (split; [reflexivity|]);
      (split; [intros _; rewrite E; constructor|congruence]).
  - eexists _, _. split; [reflexivity|].
    split; [reflexivity|]. split; [reflexivity|]. split; [reflexivity|].
    split; [intros Hs; inversion Hs; assumption|congruence].
  - destruct (platform_thread _) as [thread_data|];
      [destruct (formatted_history _ _ thread_data)|];
      eexists _, _; (split; [reflexivity|]);
      (split; [reflexivity|]); (split; [reflexivity|]); (split; [reflexivity|]);
      (split; [intros Hs; inversion Hs; assumption|congruence]).
Qed.

(** One run of [process_chat_message]. *)
Lemma process_chat_message_run (message : MattermostMessage.t)
    (api_key : string) (persona_id : option Z) (thread_only_mode : bool)
    (bot_user_id : string) (s : State) :
  exists s',
    process_chat_message message api_key persona_id thread_only_mode bot_user_id s
    = (Returned tt, s') /\
    dbs (world s') = dbs (world s) /\ cache s' = cache s /\
    (driver_healthy s ->
     exists context,
       (MattermostMessage.is_thread message = false -> context = None) /\
       posts (world s')
       = posts (world s)
         ++ match send_chat_message (chat_request message context) api_key persona_id with
            | Returned response =>
                (fun chunk =>
                   mkPost (MattermostMessage.channel_id message) chunk
                          (response_root message thread_only_mode))
                  <$> _split_message
                        (_append_citations
                           (if truthy (ChatFullResponse.answer response)
                            then ChatFullResponse.answer response
                            else "I couldn't generate a response.")
                           response)
            | Raised _ => [error_reply message]
            end).
Proof.
  unfold process_chat_message, add_reaction. unfold bind at 1.
  destruct (swallowed_reaction s) as (s1 & -> & Hdbs & Hcache & Hposts1 & Hhealthy1).
  set (body := bind (_build_conversation_context message bot_user_id) _).
  assert (Hbody : preserves (stores_are (dbs (world s)) (cache s)) body).
  { subst body. apply preserves_bind.
    - intros s0 [Hd Hc].
      destruct (build_conversation_context_returns message bot_user_id s0)
        as (context & s2 & -> & Hd2 & Hc2 & _).
      split; cbn [snd]; congruence.
    - intros context. apply preserves_bind; [intros s0 Hs0; exact Hs0|].
      intros response. apply preserves_bind; [apply preserves_stores_send_response|].
      intros _ s0 [Hd Hc]. unfold remove_reaction.
      destruct (swallowed_reaction s0) as (s2 & -> & Hd2 & Hc2 & _).
      split; cbn [snd]; congruence. }
  specialize (Hbody s1 (conj Hdbs Hcache)).
  assert (Hreply : driver_healthy s1 ->
            exists context,
              (MattermostMessage.is_thread message = false -> context = None) /\
              posts (world (try_except body
                              (fun _ => send_error_response message bot_user_id) s1).2)
              = posts (world s1)
                ++ match send_chat_message (chat_request message context) api_key
                                           persona_id with
                   | Returned response =>
                       (fun chunk =>
                          mkPost (MattermostMessage.channel_id message) chunk
                                 (response_root message thread_only_mode))
                         <$> _split_message
                               (_append_citations
                                  (if truthy (ChatFullResponse.answer response)
                                   then ChatFullResponse.answer response
                                   else "I couldn't generate a response.")
                                  response)
                   | Raised _ => [error_reply message]
                   end).
  { clear Hbody. intros Hs1. subst body. unfold try_except at 1. unfold bind at 1.
    destruct (build_conversation_context_returns message bot_user_id s1)
      as (context & s2 & -> & _ & _ & Hposts2 & Hhealthy2 & Hplain).
    specialize (Hhealthy2 Hs1).
    exists context. split; [intros Hthread; apply Hplain, Hthread|].
    unfold bind at 1.
    destruct (send_chat_message (chat_request message context) api_key persona_id)
      as [response|e].
    - unfold bind at 1.
      destruct (send_response_healthy message
                  (_append_citations
                     (if truthy (ChatFullResponse.answer response)
                      then ChatFullResponse.answer response
                      else "I couldn't generate a response.") response)
                  thread_only_mode s2 Hhealthy2) as (s3 & -> & Hposts3).
      unfold remove_reaction.
      destruct (swallowed_reaction s3) as (s4 & -> & _ & _ & Hposts4 & _).
      cbn [snd]. congruence.
    - destruct (send_error_response_run message bot_user_id s2)
        as (_ & _ & _ & _ & Hposted & _).
      rewrite (Hposted Hhealthy2). congruence. }
  unfold try_except in *.
  destruct (body s1) as [[[]|e] s2]; cbn [fst snd] in *.
  - exists s2. destruct Hbody as [Hd Hc]. split; [reflexivity|].
    split; [exact Hd|]. split; [exact Hc|]. intros Hs.
    destruct (Hreply (Hhealthy1 Hs)) as (context & Hplain & Hposted).
    exists context. split; [exact Hplain|]. congruence.
  - destruct Hbody as [Hd Hc].
    destruct (send_error_response_run message bot_user_id s2) as (Hret & Hd' & Hc' & _).
    destruct (send_error_response message bot_user_id s2) as [r s3]. cbn [fst snd] in *.
    subst r. exists s3. split; [reflexivity|].
    split; [congruence|]. split; [congruence|]. intros Hs.
    destruct (Hreply (Hhealthy1 Hs)) as (context & Hplain & Hposted).
    exists context. split; [exact Hplain|]. congruence.
Qed.

(** [process_chat_message] never raises: a failed reaction is ignored, a
    failed context fetch means no context, and any other failure (of the
    answer service, or of the driver while the answer is posted) ends in
    [send_error_response], which does not raise either.  It writes to no
    database and not to the cache. *)
Theorem process_chat_message_never_raises (message : MattermostMessage.t)
    (api_key : string) (persona_id : option Z) (thread_only_mode : bool)
    (bot_user_id : string) (s : State) :
  (process_chat_message message api_key persona_id thread_only_mode bot_user_id s).1
  = Returned tt /\
  dbs (world (process_chat_message message api_key persona_id thread_only_mode
                                   bot_user_id s).2) = dbs (world s) /\
  cache (process_chat_message message api_key persona_id thread_only_mode bot_user_id s).2
  = cache s.
Proof.
  destruct (process_chat_message_run message api_key persona_id thread_only_mode
              bot_user_id s) as (s' & -> & Hdbs & Hcache & _).
  auto.
Qed.

(** With a healthy driver, [process_chat_message] posts exactly the reply:
    when the answer service returns, the chunks of the answer (the fallback
    sentence for an empty answer) with its sources block, placed by
    [send_response]; when the service fails, the apology alone, as a reply to
    the message.  The request sent is the sender-labelled message, preceded by
    the thread context only inside a thread. *)
Theorem process_chat_message_reply (message : MattermostMessage.t)
    (api_key : string) (persona_id : option Z) (thread_only_mode : bool)
    (bot_user_id : string) (s : State) :
  driver_healthy s ->
  exists context,
    (MattermostMessage.is_thread message = false -> context = None) /\
    posts (world (process_chat_message message api_key persona_id thread_only_mode
                                       bot_user_id s).2)
    = posts (world s)
      ++ match send_chat_message (chat_request message context) api_key persona_id with
         | Returned response =>
             (fun chunk =>
                mkPost (MattermostMessage.channel_id message) chunk
                       (response_root message thread_only_mode))
               <$> _split_message
                     (_append_citations
                        (if truthy (ChatFullResponse.answer response)
                         then ChatFullResponse.answer response
                         else "I couldn't generate a response.")
                        response)
         | Raised _ => [error_reply message]
         end.
Proof.
  intros Hs.
  destruct (process_chat_message_run message api_key persona_id thread_only_mode
              bot_user_id s) as (s' & -> & _ & _ & Hreply).
  exact (Hreply Hs).
Qed.

(** [_build_thread_context] never raises and posts nothing: a message
    outside a thread, a failed or empty thread fetch, and a thread without any
    other post all give no context; a context, when there is one, is the fixed
    preamble followed by the formatted history of the thread the platform
    holds for the message's root, and a closing rule. *)
Theorem build_thread_context_spec (message : MattermostMessage.t) (bot_user_id : string)
    (s : State) :
  exists context s1,
    _build_thread_context message bot_user_id s = (Returned context, s1) /\
    posts (world s1) = posts (world s) /\
    (MattermostMessage.root_id message = EmptyString -> context = None /\ s1 = s) /\
    (forall text,
        context = Some text ->
        driver_faults (world s) = [] \/ exists rest, driver_faults (world s) = false :: rest) /\
    (forall text,
        context = Some text ->
        exists thread_data,
          platform_thread (MattermostMessage.root_id message) = Some thread_data /\
          formatted_history message bot_user_id thread_data <> [] /\
          text = context_header
                 +:+ str_join newline (formatted_history message bot_user_id thread_data)
                 +:+ newline +:+ "---").
Proof.
  unfold _build_thread_context.
  destruct (MattermostMessage.root_id message) as [|c root] eqn:Hroot; cbn [truthy negb].
  { exists None, s. repeat split; try discriminate. }
  unfold try_except, get_thread, bind, driver_call, ret.
  destruct (driver_faults (world s)) as [|[|] rest] eqn:E.
  - destruct (platform_thread (String c root)) as [thread_data|] eqn:Hthread.
    + destruct (formatted_history message bot_user_id thread_data) as [|l ls] eqn:Hlines.
      * exists None, s. repeat split; try discriminate.
      * eexists _, _. split; [reflexivity|]. split; [reflexivity|].
        split; [discriminate|]. split; [auto|].
        intros text [= <-]. exists thread_data. split; [reflexivity|].
        rewrite Hlines. split; [discriminate|reflexivity].
    + exists None, s. repeat split; try discriminate.
  - eexists _, _. split; [reflexivity|]. repeat split; try discriminate.
  - destruct (platform_thread (String c root)) as [thread_data|] eqn:Hthread.
    + destruct (formatted_history message bot_user_id thread_data) as [|l ls] eqn:Hlines.
      * eexists _, _. split; [reflexivity|]. repeat split; try discriminate.
      * eexists _, _. split; [reflexivity|]. split; [reflexivity|].
        split; [discriminate|]. split; [eauto|].
        intros text [= <-]. exists thread_data. split; [reflexivity|].
        rewrite Hlines. split; [discriminate|reflexivity].
    + eexists _, _. split; [reflexivity|]. repeat split; try discriminate.
Qed.

End ChatMore.

(** * Synchronising channel configurations *)

Section ChannelSync.
Context `{ChannelDefaults}.

(** The first loop of [sync_channel_configs]: one new row per channel to
    add. *)
Lemma sync_add_loop (m : gmap string MattermostChannelView.t) (team_config_id : Z)
    (channel_ids : list string) :
  forall (t : ChannelTable) (n : Z),
    foldl (fun '(t, added_count) channel_id =>
             match m !! channel_id with
             | Some channel_view =>
                 ((create_channel_config t team_config_id channel_view).1,
                  (added_count + 1)%Z)
             | None => (t, added_count)
             end)
          (t, n) channel_ids
    = (mkChannelTable
         (rows t ++ fresh_rows team_config_id (next_id t) (omap (m !!.) channel_ids))
         (next_id t + Z.of_nat (length (omap (m !!.) channel_ids))),
       (n + Z.of_nat (length (omap (m !!.) channel_ids)))%Z).
Proof.
  induction channel_ids as [|channel_id channel_ids IH]; intros t n; cbn [foldl omap list_omap].
  - cbn. rewrite app_nil_r, !Z.add_0_r. destruct t. reflexivity.
  - destruct (m !! channel_id) as [view|] eqn:Hview.
    + rewrite IH. cbn [create_channel_config fst rows next_id fresh_rows length].
      rewrite <- app_assoc. cbn [app]. f_equal; [f_equal|]; lia.
    + apply IH.
Qed.

(** The second loop: the rows whose primary key is the key of a snapshot row
    to remove are deleted. *)
Lemma sync_delete_loop (to_remove : gset string)
    (existing_configs : list MattermostChannelConfig.t) :
  forall (t : ChannelTable) (n : Z),
    foldl (fun '(t, removed_count) config =>
             if bool_decide (MattermostChannelConfig.channel_id config ∈ to_remove)
             then (delete_row config t, (removed_count + 1)%Z)
             else (t, removed_count))
          (t, n) existing_configs
    = (mkChannelTable
         (filter (fun r =>
                    MattermostChannelConfig.id r
                    ∉ MattermostChannelConfig.id
                        <$> filter (fun c => MattermostChannelConfig.channel_id c ∈ to_remove)
                                   existing_configs)
                 (rows t))
         (next_id t),
       (n + Z.of_nat (length (filter (fun c => MattermostChannelConfig.channel_id c
                                               ∈ to_remove) existing_configs)))%Z).
Proof.
  induction existing_configs as [|config configs IH]; intros t n; cbn [foldl].
  - rewrite filter_nil. cbn [fmap list_fmap length]. rewrite Z.add_0_r.
    destruct t as [rs next]. cbn [rows next_id]. f_equal. f_equal.
    induction rs as [|r rs IHrs]; [reflexivity|].
    rewrite filter_cons_True by apply not_elem_of_nil. f_equal. exact IHrs.
  - rewrite filter_cons.
    destruct (bool_decide_reflect (MattermostChannelConfig.channel_id config ∈ to_remove))
      as [Hin|Hnot].
    + rewrite decide_True by exact Hin. rewrite IH.
      cbn [delete_row rows next_id fmap list_fmap length].
      f_equal; [f_equal|lia].
      rewrite list_filter_filter. apply list_filter_iff. intros r.
      rewrite not_elem_of_cons. tauto.
    + rewrite decide_False by exact Hnot. apply IH.
Qed.

(** The third loop: every row is rewritten by the snapshot rows that carry
    its primary key and whose name or type differs from the view's. *)
Lemma sync_update_loop (m : gmap string MattermostChannelView.t)
    (existing_configs : list MattermostChannelConfig.t) :
  forall (t : ChannelTable) (n : Z),
    foldl (fun '(t, updated_count) config =>
             if bool_decide (MattermostChannelConfig.channel_id config ∈ dom m)
             then
               match m !! MattermostChannelConfig.channel_id config with
               | Some channel_view =>
                   let '(config, changed) := refresh_names config channel_view in
                   if changed then (write_row config t, (updated_count + 1)%Z)
                   else (t, updated_count)
               | None => (t, updated_count)
               end
             else (t, updated_count))
          (t, n) existing_configs
    = (mkChannelTable
         ((fun r => foldl (fun r config => renamed_by m config r) r existing_configs)
            <$> rows t)
         (next_id t),
       (n + Z.of_nat (length (filter (fun c => needs_rename m c = true)
                                     existing_configs)))%Z).
Proof.
  induction existing_configs as [|config configs IH]; intros t n; cbn [foldl].
  - rewrite filter_nil. cbn [length]. rewrite Z.add_0_r, list_fmap_id.
    destruct t; reflexivity.
  - rewrite filter_cons.
    destruct (m !! MattermostChannelConfig.channel_id config) as [view|] eqn:Hview.
    + rewrite bool_decide_eq_true_2 by (apply elem_of_dom; eauto).
      assert (Hid : MattermostChannelConfig.id (refresh_names config view).1
                    = MattermostChannelConfig.id config).
      { unfold refresh_names. destruct (negb _); destruct (negb _); reflexivity. }
      assert (Hneed : needs_rename m config = (refresh_names config view).2)
        by (unfold needs_rename; rewrite Hview; reflexivity).
      assert (Hby : forall r,
                 renamed_by m config r
                 = if (refresh_names config view).2
                      && bool_decide (MattermostChannelConfig.id r
                                      = MattermostChannelConfig.id config)
                   then (refresh_names config view).1 else r)
        by (intros r; unfold renamed_by; rewrite Hview; reflexivity).
      destruct (refresh_names config view) as [config' changed] eqn:Hnames.
      cbn [fst snd] in *. destruct changed.
      * rewrite decide_True by exact Hneed. rewrite IH.
        cbn [write_row rows next_id length]. f_equal; [f_equal|lia].
        rewrite <- list_fmap_compose. apply list_fmap_ext. intros i r _. cbn.
        rewrite Hby, Hid. reflexivity.
      * rewrite decide_False by (rewrite Hneed; discriminate). rewrite IH.
        f_equal. f_equal. apply list_fmap_ext. intros i r _. cbn.
        rewrite Hby. reflexivity.
    + rewrite bool_decide_eq_false_2 by (rewrite elem_of_dom, Hview; intros [? ?]; discriminate).
      assert (Hneed : needs_rename m config = false)
        by (unfold needs_rename; rewrite Hview; reflexivity).
      rewrite decide_False by (rewrite Hneed; discriminate). rewrite IH.
      assert (Hby : forall r, renamed_by m config r = r)
        by (intros r; unfold renamed_by; rewrite Hview; reflexivity).
      f_equal. f_equal. apply list_fmap_ext. intros i r _. cbn.
      rewrite Hby. reflexivity.
Qed.

Lemma refresh_names_id (config : MattermostChannelConfig.t)
    (view : MattermostChannelView.t) :
  MattermostChannelConfig.id (refresh_names config view).1 = MattermostChannelConfig.id config /\
  MattermostChannelConfig.team_config_id (refresh_names config view).1
  = MattermostChannelConfig.team_config_id config /\
  MattermostChannelConfig.channel_id (refresh_names config view).1
  = MattermostChannelConfig.channel_id config /\
  MattermostChannelConfig.enabled (refresh_names config view).1
  = MattermostChannelConfig.enabled config /\
  MattermostChannelConfig.require_bot_invocation (refresh_names config view).1
  = MattermostChannelConfig.require_bot_invocation config /\
  MattermostChannelConfig.thread_only_mode (refresh_names config view).1
  = MattermostChannelConfig.thread_only_mode config /\
  MattermostChannelConfig.persona_override_id (refresh_names config view).1
  = MattermostChannelConfig.persona_override_id config.
Proof. unfold refresh_names. destruct (negb _); destruct (negb _); repeat split. Qed.

(** After the two assignments the row carries the view's name and type;
    [changed] tells whether it differed. *)
Lemma refresh_names_synced (config : MattermostChannelConfig.t)
    (view : MattermostChannelView.t) :
  MattermostChannelConfig.channel_name (refresh_names config view).1
  = MattermostChannelView.channel_name view /\
  MattermostChannelConfig.channel_type (refresh_names config view).1
  = MattermostChannelView.channel_type view /\
  ((refresh_names config view).2 = false <-> (refresh_names config view).1 = config) /\
  ((refresh_names config view).2 = false <->
   MattermostChannelConfig.channel_name config = MattermostChannelView.channel_name view /\
   MattermostChannelConfig.channel_type config = MattermostChannelView.channel_type view).
Proof.
  unfold refresh_names. destruct config as [i t c name type e r o p]. cbn.
  destruct (String.eqb_spec name (MattermostChannelView.channel_name view)) as [->|Hname];
    cbn;
    destruct (String.eqb_spec type (MattermostChannelView.channel_type view)) as [->|Htype];
    cbn; repeat split; intros; try reflexivity; try discriminate; try congruence;
    try (match goal with Hboth : _ /\ _ |- _ => destruct Hboth end; congruence);
    unfold set_channel_name, set_channel_type in *; cbn in *; congruence.
Qed.

Lemma foldl_renamed_by_other (m : gmap string MattermostChannelView.t)
    (configs : list MattermostChannelConfig.t) (r : MattermostChannelConfig.t) :
  Forall (fun c => MattermostChannelConfig.id c <> MattermostChannelConfig.id r) configs ->
  foldl (fun r config => renamed_by m config r) r configs = r.
Proof.
  induction 1 as [|c configs Hc _ IH]; cbn [foldl]; [reflexivity|].
  assert (renamed_by m c r = r) as ->; [|exact IH].
  unfold renamed_by. destruct (m !! _); [|reflexivity].
  rewrite bool_decide_eq_false_2 by congruence. rewrite andb_false_r. reflexivity.
Qed.

Lemma foldl_renamed_by_self (m : gmap string MattermostChannelView.t)
    (configs : list MattermostChannelConfig.t) (r : MattermostChannelConfig.t)
    (view : MattermostChannelView.t) :
  NoDup (MattermostChannelConfig.id <$> configs) -> r ∈ configs ->
  m !! MattermostChannelConfig.channel_id r = Some view ->
  foldl (fun r config => renamed_by m config r) r configs = (refresh_names r view).1.
Proof.
  intros Hnodup Hin Hview.
  apply list_elem_of_split in Hin as (before & after & ->).
  rewrite fmap_app, fmap_cons in Hnodup.
  apply NoDup_app in Hnodup as (_ & Hbefore & Hafter).
  apply NoDup_cons in Hafter as [Hafter _].
  rewrite foldl_app. cbn [foldl].
  rewrite (foldl_renamed_by_other m before r).
  2:{ apply Forall_forall. intros c Hc Heq. apply (Hbefore (MattermostChannelConfig.id c)).
      - apply list_elem_of_fmap. exists c. split; [reflexivity|exact Hc].
      - rewrite Heq. left. }
  assert (renamed_by m r r = (refresh_names r view).1) as ->.
  { unfold renamed_by. rewrite Hview, bool_decide_eq_true_2 by reflexivity.
    rewrite andb_true_r. destruct (refresh_names r view).2 eqn:Hchanged; [reflexivity|].
    symmetry. apply refresh_names_synced, Hchanged. }
  apply foldl_renamed_by_other. apply Forall_forall. intros c Hc Heq. apply Hafter.
  apply list_elem_of_fmap. exists c. split; [|exact Hc].
  destruct (refresh_names_id r view) as [Hid _]. congruence.
Qed.

Lemma fmap_filter_omap {A B : Type} (P : A -> Prop) `{!forall x, Decision (P x)}
    (g : A -> B) (f : A -> option B) (l : list A) :
  Forall (fun x => (P x -> f x = Some (g x)) /\ (~ P x -> f x = None)) l ->
  g <$> filter P l = omap f l.
Proof.
  induction 1 as [|x l [Hyes Hno] _ IH]; [reflexivity|].
  rewrite filter_cons. cbn [omap list_omap]. destruct (decide (P x)) as [Hx|Hx].
  - rewrite (Hyes Hx). cbn [fmap list_fmap]. f_equal. exact IH.
  - rewrite (Hno Hx). exact IH.
Qed.

Lemma filter_ext_in {A : Type} (P Q : A -> Prop) `{!forall x, Decision (P x)}
    `{!forall x, Decision (Q x)} (l : list A) :
  (forall x, x ∈ l -> P x <-> Q x) -> filter P l = filter Q l.
Proof.
  induction l as [|x l IH]; intros Hext; [reflexivity|].
  rewrite !filter_cons. rewrite IH by (intros y Hy; apply Hext; right; exact Hy).
  destruct (decide (P x)) as [Hp|Hp], (decide (Q x)) as [Hq|Hq]; try reflexivity.
  - elim Hq. apply (Hext x); [left|exact Hp].
  - elim Hp. apply (Hext x); [left|exact Hq].
Qed.

Lemma filter_all {A : Type} (P : A -> Prop) `{!forall x, Decision (P x)} (l : list A) :
  Forall P l -> filter P l = l.
Proof.
  induction 1 as [|x l Hx _ IH]; [reflexivity|].
  rewrite filter_cons_True by exact Hx. f_equal. exact IH.
Qed.

Lemma unique_id (l : list MattermostChannelConfig.t) (x y : MattermostChannelConfig.t) :
  NoDup (MattermostChannelConfig.id <$> l) -> x ∈ l -> y ∈ l ->
  MattermostChannelConfig.id x = MattermostChannelConfig.id y -> x = y.
Proof.
  induction l as [|z l IH]; intros Hnodup Hx Hy Hid; [inversion Hx|].
  rewrite fmap_cons in Hnodup. apply NoDup_cons in Hnodup as [Hz Hnodup].
  apply elem_of_cons in Hx as [->|Hx]; apply elem_of_cons in Hy as [->|Hy].
  - reflexivity.
  - elim Hz. rewrite Hid. apply list_elem_of_fmap. eauto.
  - elim Hz. rewrite <- Hid. apply list_elem_of_fmap. eauto.
  - apply IH; assumption.
Qed.

Lemma fresh_rows_ids (team_config_id start : Z) (views : list MattermostChannelView.t) :
  Forall (fun f => (start <= MattermostChannelConfig.id f)%Z
                   /\ MattermostChannelConfig.team_config_id f = team_config_id)
         (fresh_rows team_config_id start views).
Proof.
  revert start. induction views as [|view views IH]; intros start; cbn [fresh_rows];
    [constructor|].
  constructor; [cbn; split; [lia|reflexivity]|].
  eapply Forall_impl; [apply IH|]. cbn. intros f [Hf Ht]. split; [lia|exact Ht].
Qed.

(** [sync_channel_configs] in one step: every row of the table is kept,
    renamed or deleted according to [synced_row], and the rows for the
    channels to add follow. *)
Lemma sync_channel_configs_run (t : ChannelTable) (team_config_id : Z)
    (current_channels : list MattermostChannelView.t) :
  table_ok t ->
  sync_channel_configs t team_config_id current_channels
  = let m := channel_map current_channels in
    let existing := get_channel_configs t team_config_id in
    let views :=
      omap (m !!.)
           (elements (dom m ∖ list_to_set (MattermostChannelConfig.channel_id <$> existing)
                      : gset string)) in
    (mkChannelTable
       (omap (synced_row m team_config_id) (rows t)
        ++ fresh_rows team_config_id (next_id t) views)
       (next_id t + Z.of_nat (length views)),
     (Z.of_nat (length views),
      Z.of_nat (length (filter (fun c => m !! MattermostChannelConfig.channel_id c = None)
                               existing)),
      Z.of_nat (length (filter (fun c => needs_rename m c = true) existing)))).
Proof.
  intros [Hnodup Hbelow]. unfold sync_channel_configs. cbv zeta.
  set (m := channel_map current_channels).
  set (existing := get_channel_configs t team_config_id).
  set (existing_ids := list_to_set (MattermostChannelConfig.channel_id <$> existing)
                       : gset string).
  rewrite sync_add_loop.
  set (views := omap (m !!.) (elements (dom m ∖ existing_ids))).
  rewrite sync_delete_loop. rewrite sync_update_loop.
  cbn [rows next_id].
  assert (Hexisting : forall c, c ∈ existing <->
                                c ∈ rows t /\
                                MattermostChannelConfig.team_config_id c = team_config_id).
  { intros c. unfold existing, get_channel_configs. rewrite list_elem_of_filter. tauto. }
  assert (Hremove : forall c, c ∈ existing ->
                              MattermostChannelConfig.channel_id c ∈ existing_ids ∖ dom m <->
                              m !! MattermostChannelConfig.channel_id c = None).
  { intros c Hc. rewrite elem_of_difference, not_elem_of_dom. unfold existing_ids.
    rewrite elem_of_list_to_set, list_elem_of_fmap. split; [tauto|].
    intros Hnone. split; [|exact Hnone]. eauto. }
  assert (Hexisting_nodup : NoDup (MattermostChannelConfig.id <$> existing)).
  { eapply sublist_NoDup; [exact Hnodup|]. apply fmap_sublist, sublist_filter. }
  set (D := MattermostChannelConfig.id
              <$> filter (fun c => MattermostChannelConfig.channel_id c ∈ existing_ids ∖ dom m)
                         existing).
  assert (HD : forall r, r ∈ rows t ->
                         MattermostChannelConfig.id r ∈ D <->
                         MattermostChannelConfig.team_config_id r = team_config_id /\
                         m !! MattermostChannelConfig.channel_id r = None).
  { intros r Hr. unfold D. rewrite list_elem_of_fmap. split.
    - intros (c & Hid & Hc). apply list_elem_of_filter in Hc as [Hgone Hc].
      pose proof (proj1 (Hexisting c) Hc) as [Hc_row Hteam].
      assert (c = r) as -> by (apply (unique_id (rows t)); auto).
      split; [exact Hteam|]. apply Hremove; assumption.
    - intros [Hteam Hnone]. exists r. split; [reflexivity|].
      assert (Hr_existing : r ∈ existing) by (apply Hexisting; auto).
      apply list_elem_of_filter. split; [|exact Hr_existing]. apply Hremove; assumption. }
  f_equal; [f_equal|].
  - rewrite filter_app, fmap_app. f_equal.
    + apply fmap_filter_omap. apply Forall_forall. intros r Hr.
      unfold synced_row.
      destruct (bool_decide_reflect
                  (MattermostChannelConfig.team_config_id r = team_config_id))
        as [Hteam|Hother].
      * destruct (m !! MattermostChannelConfig.channel_id r) as [view|] eqn:Hview.
        -- split; [|intros Hgone; elim Hgone; rewrite (HD r Hr); intros [_ ?]; congruence].
           intros _. f_equal. symmetry. apply foldl_renamed_by_self; [exact Hexisting_nodup| |exact Hview].
           apply Hexisting. auto.
        -- split; [|reflexivity]. intros Hkept. elim Hkept. apply (HD r Hr). auto.
      * split; [|intros Hgone; elim Hgone; rewrite (HD r Hr); tauto].
        intros _. f_equal. symmetry. apply foldl_renamed_by_other. apply Forall_forall.
        intros c Hc Hid. apply Hexisting in Hc as [Hc Hteam].
        assert (c = r) as -> by (apply (unique_id (rows t)); auto). contradiction.
    + assert (Hfresh : Forall (fun f => (next_id t <= MattermostChannelConfig.id f)%Z)
                              (fresh_rows team_config_id (next_id t) views)).
      { eapply Forall_impl; [apply fresh_rows_ids|]. cbn. tauto. }
      assert (Hold : forall c, c ∈ existing ->
                               (MattermostChannelConfig.id c < next_id t)%Z).
      { intros c Hc. apply Hexisting in Hc as [Hc _].
        rewrite Forall_forall in Hbelow. apply Hbelow, Hc. }
      rewrite filter_all.
      2:{ eapply Forall_impl; [exact Hfresh|]. cbn. intros f Hf Hin.
          unfold D in Hin. apply list_elem_of_fmap in Hin as (c & Hid & Hc).
          apply list_elem_of_filter in Hc as [_ Hc]. specialize (Hold c Hc). lia. }
      rewrite <- (list_fmap_id (fresh_rows team_config_id (next_id t) views)) at 2.
      apply Forall_fmap_ext. eapply Forall_impl; [exact Hfresh|]. cbn. intros f Hf.
      apply foldl_renamed_by_other. apply Forall_forall. intros c Hc Hid.
      specialize (Hold c Hc). lia.
  - rewrite !Z.add_0_l. do 4 f_equal. apply filter_ext_in. exact Hremove.
Qed.

(** ** What the dictionary of views holds *)

Lemma channel_map_lookup (current_channels : list MattermostChannelView.t)
    (channel_id : string) :
  channel_map current_channels !! channel_id = latest_view current_channels channel_id.
Proof.
  unfold channel_map, latest_view.
  assert (Hgen : forall (m0 : gmap string MattermostChannelView.t),
             foldl (fun m view => <[MattermostChannelView.channel_id view := view]> m) m0
                   current_channels !! channel_id
             = match last (filter (fun view => MattermostChannelView.channel_id view
                                               = channel_id) current_channels) with
               | Some view => Some view
               | None => m0 !! channel_id
               end).
  { induction current_channels as [|view views IH]; intros m0; cbn [foldl]; [reflexivity|].
    rewrite IH, filter_cons.
    destruct (decide (MattermostChannelView.channel_id view = channel_id)) as [Heq|Hne].
    - rewrite last_cons. destruct (last (filter _ views)); [reflexivity|].
      rewrite <- Heq. apply lookup_insert_eq.
    - destruct (last (filter _ views)); [reflexivity|].
      apply lookup_insert_ne. exact Hne. }
  rewrite Hgen. destruct (last _); [reflexivity|apply lookup_empty].
Qed.

Lemma latest_view_some (current_channels : list MattermostChannelView.t)
    (channel_id : string) (view : MattermostChannelView.t) :
  latest_view current_channels channel_id = Some view ->
  view ∈ current_channels /\ MattermostChannelView.channel_id view = channel_id.
Proof.
  unfold latest_view. intros Hlast. apply last_Some_elem_of in Hlast.
  apply list_elem_of_filter in Hlast. tauto.
Qed.

Lemma latest_view_is_some (current_channels : list MattermostChannelView.t)
    (view : MattermostChannelView.t) :
  view ∈ current_channels ->
  is_Some (latest_view current_channels (MattermostChannelView.channel_id view)).
Proof.
  intros Hin. unfold latest_view. apply last_is_Some. intros Hnil.
  assert (Hview : view ∈ filter (fun v => MattermostChannelView.channel_id v
                                          = MattermostChannelView.channel_id view)
                                current_channels)
    by (apply list_elem_of_filter; auto).
  rewrite Hnil in Hview. inversion Hview.
Qed.

(** ** The rows after a synchronisation *)

Lemma fresh_rows_spec (team_config_id start : Z) (views : list MattermostChannelView.t) :
  Forall (fun f =>
            (start <= MattermostChannelConfig.id f < start + Z.of_nat (length views))%Z /\
            MattermostChannelConfig.team_config_id f = team_config_id /\
            MattermostChannelConfig.enabled f = default_enabled /\
            MattermostChannelConfig.require_bot_invocation f = default_require_bot_invocation /\
            MattermostChannelConfig.thread_only_mode f = default_thread_only_mode /\
            MattermostChannelConfig.persona_override_id f = default_persona_override_id /\
            exists view,
              view ∈ views /\
              MattermostChannelConfig.channel_id f = MattermostChannelView.channel_id view /\
              MattermostChannelConfig.channel_name f = MattermostChannelView.channel_name view /\
              MattermostChannelConfig.channel_type f = MattermostChannelView.channel_type view)
         (fresh_rows team_config_id start views) /\
  NoDup (MattermostChannelConfig.id <$> fresh_rows team_config_id start views) /\
  MattermostChannelConfig.channel_id <$> fresh_rows team_config_id start views
  = MattermostChannelView.channel_id <$> views.
Proof.
  revert start. induction views as [|view views IH]; intros start; cbn [fresh_rows].
  - split; [constructor|]. split; [constructor|reflexivity].
  - destruct (IH (start + 1)%Z) as (Hall & Hnodup & Hids). split; [|split].
    + constructor.
      * cbn. repeat split; try lia. exists view. split; [left|]. auto.
      * eapply Forall_impl; [exact Hall|]. cbn [length].
        intros f (Hid & Hteam & He & Hr & Ht & Hp & v & Hv & Hrest).
        split; [lia|]. do 5 (split; [assumption|]). exists v. split; [right; exact Hv|].
        exact Hrest.
    + rewrite fmap_cons. apply NoDup_cons. split; [|exact Hnodup].
      cbn. intros Hin. apply list_elem_of_fmap in Hin as (f & Hf & Hin).
      rewrite Forall_forall in Hall. destruct (Hall f Hin) as [Hid _]. lia.
    + rewrite !fmap_cons, Hids. reflexivity.
Qed.

Lemma synced_row_some (m : gmap string MattermostChannelView.t) (team_config_id : Z)
    (r r' : MattermostChannelConfig.t) :
  synced_row m team_config_id r = Some r' ->
  MattermostChannelConfig.id r' = MattermostChannelConfig.id r /\
  MattermostChannelConfig.team_config_id r' = MattermostChannelConfig.team_config_id r /\
  MattermostChannelConfig.channel_id r' = MattermostChannelConfig.channel_id r /\
  MattermostChannelConfig.enabled r' = MattermostChannelConfig.enabled r /\
  MattermostChannelConfig.require_bot_invocation r'
  = MattermostChannelConfig.require_bot_invocation r /\
  MattermostChannelConfig.thread_only_mode r' = MattermostChannelConfig.thread_only_mode r /\
  MattermostChannelConfig.persona_override_id r'
  = MattermostChannelConfig.persona_override_id r /\
  (MattermostChannelConfig.team_config_id r <> team_config_id -> r' = r) /\
  (MattermostChannelConfig.team_config_id r = team_config_id ->
   exists view,
     m !! MattermostChannelConfig.channel_id r = Some view /\
     r' = (refresh_names r view).1).
Proof.
  unfold synced_row.
  destruct (bool_decide_reflect (MattermostChannelConfig.team_config_id r = team_config_id))
    as [Hteam|Hother].
  - destruct (m !! MattermostChannelConfig.channel_id r) as [view|]; [|discriminate].
    intros [= <-]. destruct (refresh_names_id r view) as (? & ? & ? & ? & ? & ? & ?).
    do 7 (split; [assumption|]). split; [contradiction|]. intros _. eauto.
  - intros [= <-]. do 7 (split; [reflexivity|]). split; [reflexivity|contradiction].
Qed.

Lemma synced_rows_ids (m : gmap string MattermostChannelView.t) (team_config_id : Z)
    (l : list MattermostChannelConfig.t) :
  MattermostChannelConfig.id <$> omap (synced_row m team_config_id) l
  `sublist_of` MattermostChannelConfig.id <$> l.
Proof.
  induction l as [|r l IH]; cbn [omap list_omap]; [constructor|].
  destruct (synced_row m team_config_id r) as [r'|] eqn:Hr; rewrite !fmap_cons.
  - apply synced_row_some in Hr as [-> _]. constructor. exact IH.
  - constructor. exact IH.
Qed.

(** Membership in the synchronised table. *)
Lemma sync_rows_elem (t : ChannelTable) (team_config_id : Z)
    (current_channels : list MattermostChannelView.t) (r' : MattermostChannelConfig.t) :
  table_ok t ->
  r' ∈ rows (sync_channel_configs t team_config_id current_channels).1 <->
  (exists r, r ∈ rows t /\
             synced_row (channel_map current_channels) team_config_id r = Some r') \/
  r' ∈ fresh_rows team_config_id (next_id t)
         (omap (channel_map current_channels !!.)
               (elements (dom (channel_map current_channels)
                          ∖ list_to_set (MattermostChannelConfig.channel_id
                                           <$> get_channel_configs t team_config_id)
                          : gset string))).
Proof.
  intros Hok. rewrite (sync_channel_configs_run t team_config_id current_channels Hok).
  cbv zeta. cbn [fst rows]. rewrite elem_of_app, list_elem_of_omap. reflexivity.
Qed.

Lemma sync_table_ok (t : ChannelTable) (team_config_id : Z)
    (current_channels : list MattermostChannelView.t) :
  table_ok t -> table_ok (sync_channel_configs t team_config_id current_channels).1.
Proof.
  intros Hok. rewrite (sync_channel_configs_run t team_config_id current_channels Hok).
  cbv zeta. cbn [fst]. destruct Hok as [Hnodup Hbelow].
  set (m := channel_map current_channels).
  set (views := omap (m !!.) _).
  destruct (fresh_rows_spec team_config_id (next_id t) views) as (Hfresh & Hfresh_nodup & _).
  pose proof (synced_rows_ids m team_config_id (rows t)) as Hsub.
  assert (Hkept : forall i, i ∈ MattermostChannelConfig.id
                                  <$> omap (synced_row m team_config_id) (rows t) ->
                            (i < next_id t)%Z).
  { intros i Hi. apply (elem_of_sublist _ _ _ Hi) in Hsub. rename Hsub into Hi'. clear Hi.
    rename Hi' into Hi.
    apply list_elem_of_fmap in Hi as (r & -> & Hr).
    rewrite Forall_forall in Hbelow. apply Hbelow, Hr. }
  split; cbn [rows next_id].
  - rewrite fmap_app. apply NoDup_app. split; [exact (sublist_NoDup _ _ Hnodup Hsub)|].
    split; [|exact Hfresh_nodup].
    intros i Hi Hnew. specialize (Hkept i Hi).
    apply list_elem_of_fmap in Hnew as (f & -> & Hf).
    rewrite Forall_forall in Hfresh. destruct (Hfresh f Hf) as [Hid _]. lia.
  - apply Forall_app. split.
    + apply Forall_forall. intros r' Hr'.
      assert (MattermostChannelConfig.id r' < next_id t)%Z; [|lia].
      apply Hkept. apply list_elem_of_fmap. eauto.
    + eapply Forall_impl; [exact Hfresh|]. cbn. intros f [Hid _]. lia.
Qed.

(** The team's rows after a synchronisation, against the current channels. *)
Lemma sync_rows_current (t : ChannelTable) (team_config_id : Z)
    (current_channels : list MattermostChannelView.t) :
  table_ok t ->
  table_ok (sync_channel_configs t team_config_id current_channels).1 /\
  (forall r',
      r' ∈ rows (sync_channel_configs t team_config_id current_channels).1 ->
      MattermostChannelConfig.team_config_id r' = team_config_id ->
      exists view,
        latest_view current_channels (MattermostChannelConfig.channel_id r') = Some view /\
        MattermostChannelConfig.channel_name r' = MattermostChannelView.channel_name view /\
        MattermostChannelConfig.channel_type r' = MattermostChannelView.channel_type view) /\
  (forall view,
      view ∈ current_channels ->
      exists r',
        r' ∈ rows (sync_channel_configs t team_config_id current_channels).1 /\
        MattermostChannelConfig.team_config_id r' = team_config_id /\
        MattermostChannelConfig.channel_id r' = MattermostChannelView.channel_id view).
Proof.
  intros Hok. split; [apply sync_table_ok, Hok|].
  set (m := channel_map current_channels).
  set (existing := get_channel_configs t team_config_id).
  set (views := omap (m !!.)
                     (elements (dom m ∖ list_to_set (MattermostChannelConfig.channel_id
                                                       <$> existing) : gset string))).
  destruct (fresh_rows_spec team_config_id (next_id t) views) as (Hfresh & _ & Hfresh_ids).
  assert (Hviews : forall view,
             view ∈ views <->
             exists channel_id,
               m !! channel_id = Some view /\
               channel_id ∉ MattermostChannelConfig.channel_id <$> existing).
  { intros view. unfold views. rewrite list_elem_of_omap. split.
    - intros (channel_id & Hin & Hview). exists channel_id. split; [exact Hview|].
      apply elem_of_elements, elem_of_difference in Hin as [_ Hnew].
      rewrite elem_of_list_to_set in Hnew. exact Hnew.
    - intros (channel_id & Hview & Hnew). exists channel_id. split; [|exact Hview].
      apply elem_of_elements, elem_of_difference. split; [apply elem_of_dom; eauto|].
      rewrite elem_of_list_to_set. exact Hnew. }
  split.
  - intros r' Hr' Hteam. apply (sync_rows_elem t team_config_id current_channels r' Hok) in Hr'.
    fold m existing views in Hr'. destruct Hr' as [(r & Hr & Hsynced)|Hnew].
    + apply synced_row_some in Hsynced as (_ & Hteam' & Hchannel & _ & _ & _ & _ & _ & Hview).
      destruct Hview as (view & Hview & ->); [congruence|].
      exists view. destruct (refresh_names_id r view) as (_ & _ & -> & _).
      split; [rewrite <- channel_map_lookup; exact Hview|].
      destruct (refresh_names_synced r view) as (Hname & Htype & _). auto.
    + rewrite Forall_forall in Hfresh.
      destruct (Hfresh r' Hnew) as (_ & _ & _ & _ & _ & _ & view & Hview & Hid & Hname & Htype).
      apply Hviews in Hview as (channel_id & Hview & _).
      exists view. split; [|auto]. rewrite Hid.
      fold m in Hview. unfold m in Hview. rewrite channel_map_lookup in Hview.
      destruct (latest_view_some _ _ _ Hview) as [_ ->]. exact Hview.
  - intros view Hview.
    destruct (latest_view_is_some current_channels view Hview) as [latest Hlatest].
    destruct (latest_view_some _ _ _ Hlatest) as [_ Hlatest_id].
    rewrite <- channel_map_lookup in Hlatest. fold m in Hlatest.
    destruct (decide (MattermostChannelView.channel_id view
                      ∈ MattermostChannelConfig.channel_id <$> existing)) as [Hold|Hnew].
    + apply list_elem_of_fmap in Hold as (r & Hchannel & Hr).
      pose proof Hr as Hr_row. unfold existing, get_channel_configs in Hr_row.
      apply list_elem_of_filter in Hr_row as [Hteam Hr_row].
      exists (refresh_names r latest).1.
      destruct (refresh_names_id r latest) as (_ & Hteam' & Hchannel' & _).
      split; [|split; congruence].
      apply (sync_rows_elem t team_config_id current_channels _ Hok). left.
      exists r. split; [exact Hr_row|]. unfold synced_row.
      rewrite bool_decide_eq_true_2 by exact Hteam. fold m. rewrite <- Hchannel, Hlatest.
      reflexivity.
    + assert (Hfresh_view : latest ∈ views) by (apply Hviews; eauto).
      assert (Hid : MattermostChannelView.channel_id latest
                    ∈ MattermostChannelConfig.channel_id
                        <$> fresh_rows team_config_id (next_id t) views).
      { rewrite Hfresh_ids. apply list_elem_of_fmap. eauto. }
      apply list_elem_of_fmap in Hid as (f & Hf_id & Hf).
      exists f. rewrite Forall_forall in Hfresh.
      destruct (Hfresh f Hf) as (_ & Hteam & _).
      split; [|split; [exact Hteam|congruence]].
      apply (sync_rows_elem t team_config_id current_channels _ Hok). right. exact Hf.
Qed.

(** After [sync_channel_configs] the team's rows are exactly its current
    channels: every row of the team belongs to a channel of the list and
    carries the name and the type of that channel's last view, and every
    channel of the list has a row.  Primary keys stay unique. *)
Theorem sync_channel_configs_result (t : ChannelTable) (team_config_id : Z)
    (current_channels : list MattermostChannelView.t) :
  table_ok t ->
  table_ok (sync_channel_configs t team_config_id current_channels).1 /\
  (forall r',
      r' ∈ rows (sync_channel_configs t team_config_id current_channels).1 ->
      MattermostChannelConfig.team_config_id r' = team_config_id ->
      exists view,
        latest_view current_channels (MattermostChannelConfig.channel_id r') = Some view /\
        MattermostChannelConfig.channel_name r' = MattermostChannelView.channel_name view /\
        MattermostChannelConfig.channel_type r' = MattermostChannelView.channel_type view) /\
  (forall view,
      view ∈ current_channels ->
      exists r',
        r' ∈ rows (sync_channel_configs t team_config_id current_channels).1 /\
        MattermostChannelConfig.team_config_id r' = team_config_id /\
        MattermostChannelConfig.channel_id r' = MattermostChannelView.channel_id view).
Proof. apply sync_rows_current. Qed.

Lemma filter_none {A : Type} (P : A -> Prop) `{!forall x, Decision (P x)} (l : list A) :
  Forall (fun x => ~ P x) l -> filter P l = [].
Proof.
  induction 1 as [|x l Hx _ IH]; [reflexivity|].
  rewrite filter_cons, decide_False by exact Hx. exact IH.
Qed.

(** [sync_channel_configs] touches the team's rows only, and of those only
    the name and the type: the rows of every other team are as before; a row
    that was there before keeps its primary key, its team, its channel and its
    settings (enabled, mention requirement, thread-only mode, persona
    override), and a row of the team whose channel is still current is not
    deleted; the rows created are rows of the team with the default
    settings. *)
Theorem sync_channel_configs_frame (t : ChannelTable) (team_config_id : Z)
    (current_channels : list MattermostChannelView.t) :
  table_ok t ->
  filter (fun r => MattermostChannelConfig.team_config_id r <> team_config_id)
         (rows (sync_channel_configs t team_config_id current_channels).1)
  = filter (fun r => MattermostChannelConfig.team_config_id r <> team_config_id) (rows t) /\
  (forall r',
      r' ∈ rows (sync_channel_configs t team_config_id current_channels).1 ->
      (MattermostChannelConfig.id r' < next_id t)%Z ->
      exists r,
        r ∈ rows t /\
        MattermostChannelConfig.id r = MattermostChannelConfig.id r' /\
        MattermostChannelConfig.team_config_id r = MattermostChannelConfig.team_config_id r' /\
        MattermostChannelConfig.channel_id r = MattermostChannelConfig.channel_id r' /\
        MattermostChannelConfig.enabled r = MattermostChannelConfig.enabled r' /\
        MattermostChannelConfig.require_bot_invocation r
        = MattermostChannelConfig.require_bot_invocation r' /\
        MattermostChannelConfig.thread_only_mode r
        = MattermostChannelConfig.thread_only_mode r' /\
        MattermostChannelConfig.persona_override_id r
        = MattermostChannelConfig.persona_override_id r') /\
  (forall r,
      r ∈ rows t ->
      MattermostChannelConfig.team_config_id r = team_config_id ->
      MattermostChannelConfig.channel_id r
      ∈ MattermostChannelView.channel_id <$> current_channels ->
      exists r',
        r' ∈ rows (sync_channel_configs t team_config_id current_channels).1 /\
        MattermostChannelConfig.id r' = MattermostChannelConfig.id r) /\
  (forall r',
      r' ∈ rows (sync_channel_configs t team_config_id current_channels).1 ->
      (next_id t <= MattermostChannelConfig.id r')%Z ->
      MattermostChannelConfig.team_config_id r' = team_config_id /\
      MattermostChannelConfig.enabled r' = default_enabled /\
      MattermostChannelConfig.require_bot_invocation r' = default_require_bot_invocation /\
      MattermostChannelConfig.thread_only_mode r' = default_thread_only_mode /\
      MattermostChannelConfig.persona_override_id r' = default_persona_override_id).
Proof.
  intros Hok.
  set (m := channel_map current_channels).
  set (views := omap (m !!.)
                     (elements (dom m ∖ list_to_set
                                           (MattermostChannelConfig.channel_id
                                              <$> get_channel_configs t team_config_id)
                                : gset string))).
  destruct (fresh_rows_spec team_config_id (next_id t) views) as (Hfresh & _ & _).
  rewrite Forall_forall in Hfresh.
  assert (Hbelow : forall r, r ∈ rows t -> (MattermostChannelConfig.id r < next_id t)%Z).
  { destruct Hok as [_ Hbelow]. rewrite Forall_forall in Hbelow. exact Hbelow. }
  split; [|split; [|split]].
  - rewrite (sync_channel_configs_run t team_config_id current_channels Hok).
    cbv zeta. cbn [fst rows]. fold m views. rewrite filter_app.
    rewrite (filter_none _ (fresh_rows team_config_id (next_id t) views)).
    2:{ apply Forall_forall. intros f Hf Hother. destruct (Hfresh f Hf) as (_ & Hteam & _).
        contradiction. }
    rewrite app_nil_r. clear Hbelow Hok.
    induction (rows t) as [|r l IH]; [reflexivity|].
    cbn [omap list_omap]. rewrite (filter_cons _ r).
    destruct (synced_row m team_config_id r) as [r'|] eqn:Hr.
    + apply synced_row_some in Hr as (_ & Hteam & _ & _ & _ & _ & _ & Hsame & _).
      rewrite filter_cons.
      destruct (decide (MattermostChannelConfig.team_config_id r <> team_config_id))
        as [Hother|Hteam'].
      * rewrite (Hsame Hother). rewrite decide_True by exact Hother. f_equal. exact IH.
      * rewrite decide_False by (rewrite Hteam; exact Hteam'). exact IH.
    + unfold synced_row in Hr.
      destruct (bool_decide_reflect
                  (MattermostChannelConfig.team_config_id r = team_config_id))
        as [Hteam|Hother]; [|discriminate].
      rewrite decide_False by (intros Hne; contradiction). exact IH.
  - intros r' Hr' Hold.
    apply (sync_rows_elem t team_config_id current_channels r' Hok) in Hr'.
    fold m views in Hr'. destruct Hr' as [(r & Hr & Hsynced)|Hnew].
    + apply synced_row_some in Hsynced as (? & ? & ? & ? & ? & ? & ? & _).
      exists r. do 7 (split; [auto|]). auto.
    + destruct (Hfresh r' Hnew) as [Hid _]. lia.
  - intros r Hr Hteam Hcurrent.
    apply list_elem_of_fmap in Hcurrent as (view & Hchannel & Hview).
    destruct (latest_view_is_some current_channels view Hview) as [latest Hlatest].
    rewrite <- channel_map_lookup in Hlatest. fold m in Hlatest.
    exists (refresh_names r latest).1. split; [|apply refresh_names_id].
    apply (sync_rows_elem t team_config_id current_channels _ Hok). left.
    exists r. split; [exact Hr|]. unfold synced_row.
    rewrite bool_decide_eq_true_2 by exact Hteam. fold m. rewrite Hchannel, Hlatest.
    reflexivity.
  - intros r' Hr' Hnew.
    apply (sync_rows_elem t team_config_id current_channels r' Hok) in Hr'.
    fold m views in Hr'. destruct Hr' as [(r & Hr & Hsynced)|Hfresh_row].
    + apply synced_row_some in Hsynced as (Hid & _). specialize (Hbelow r Hr). lia.
    + destruct (Hfresh r' Hfresh_row) as (_ & ? & ? & ? & ? & ? & _). auto.
Qed.

Lemma omap_all_some {A : Type} (f : A -> option A) (l : list A) :
  Forall (fun x => f x = Some x) l -> omap f l = l.
Proof.
  induction 1 as [|x l Hx _ IH]; [reflexivity|].
  cbn [omap list_omap]. rewrite Hx, IH. reflexivity.
Qed.

(** [sync_channel_configs] is idempotent: run again with the same channels
    on the table it produced, it adds, removes and updates nothing, reports
    [(0, 0, 0)] and leaves the table as it is. *)
Theorem sync_channel_configs_idempotent (t : ChannelTable) (team_config_id : Z)
    (current_channels : list MattermostChannelView.t) :
  table_ok t ->
  sync_channel_configs (sync_channel_configs t team_config_id current_channels).1
                       team_config_id current_channels
  = ((sync_channel_configs t team_config_id current_channels).1, (0, 0, 0)%Z).
Proof.
  intros Hok.
  destruct (sync_rows_current t team_config_id current_channels Hok)
    as (Hok' & Hrows & Hchannels).
  set (t' := (sync_channel_configs t team_config_id current_channels).1) in *.
  rewrite (sync_channel_configs_run t' team_config_id current_channels Hok'). cbv zeta.
  set (m := channel_map current_channels).
  set (existing := get_channel_configs t' team_config_id).
  assert (Hsynced : forall r', r' ∈ rows t' ->
                               MattermostChannelConfig.team_config_id r' = team_config_id ->
                               exists view,
                                 m !! MattermostChannelConfig.channel_id r' = Some view /\
                                 refresh_names r' view = (r', false)).
  { intros r' Hr' Hteam. destruct (Hrows r' Hr' Hteam) as (view & Hview & Hname & Htype).
    exists view. split; [unfold m; rewrite channel_map_lookup; exact Hview|].
    destruct (refresh_names_synced r' view) as (_ & _ & Hsame & Hnames).
    assert (Hunchanged : (refresh_names r' view).2 = false) by (apply Hnames; auto).
    apply Hsame in Hunchanged as Hrow.
    destruct (refresh_names r' view) as [row changed]. cbn [fst snd] in *. congruence. }
  assert (Hexisting : forall c, c ∈ existing ->
                                c ∈ rows t' /\
                                MattermostChannelConfig.team_config_id c = team_config_id).
  { intros c Hc. unfold existing, get_channel_configs in Hc.
    apply list_elem_of_filter in Hc. tauto. }
  assert (Hviews : elements (dom m ∖ list_to_set (MattermostChannelConfig.channel_id
                                                    <$> existing) : gset string) = []).
  { apply elements_empty_iff, elem_of_equiv_empty. intros channel_id Hin.
    apply elem_of_difference in Hin as [Hcurrent Hnew]. apply Hnew.
    apply elem_of_dom in Hcurrent as [view Hview].
    unfold m in Hview. rewrite channel_map_lookup in Hview.
    destruct (latest_view_some _ _ _ Hview) as [Hin_list Hid].
    destruct (Hchannels view Hin_list) as (r' & Hr' & Hteam & Hchannel).
    apply elem_of_list_to_set, list_elem_of_fmap. exists r'. split; [congruence|].
    unfold existing, get_channel_configs. apply list_elem_of_filter. auto. }
  rewrite Hviews. cbn [omap list_omap fresh_rows length].
  rewrite app_nil_r, Z.add_0_r.
  rewrite omap_all_some.
  2:{ apply Forall_forall. intros r' Hr'. unfold synced_row.
      destruct (bool_decide_reflect
                  (MattermostChannelConfig.team_config_id r' = team_config_id))
        as [Hteam|Hother]; [|reflexivity].
      destruct (Hsynced r' Hr' Hteam) as (view & -> & ->). reflexivity. }
  rewrite (filter_none (fun c => m !! MattermostChannelConfig.channel_id c = None)).
  2:{ apply Forall_forall. intros c Hc Hnone. apply Hexisting in Hc as [Hc Hteam].
      destruct (Hsynced c Hc Hteam) as (view & Hview & _). congruence. }
  rewrite (filter_none (fun c => needs_rename m c = true)).
  2:{ apply Forall_forall. intros c Hc Hneed. apply Hexisting in Hc as [Hc Hteam].
      destruct (Hsynced c Hc Hteam) as (view & Hview & Hnames).
      unfold needs_rename in Hneed. rewrite Hview, Hnames in Hneed. discriminate Hneed. }
  destruct t'. reflexivity.
Qed.

(** ** The counts *)

Lemma dom_channel_map (current_channels : list MattermostChannelView.t) (channel_id : string) :
  channel_id ∈ dom (channel_map current_channels) <->
  channel_id ∈ MattermostChannelView.channel_id <$> current_channels.
Proof.
  rewrite elem_of_dom, channel_map_lookup, list_elem_of_fmap. split.
  - intros [view Hview]. apply latest_view_some in Hview as [Hin Hid]. eauto.
  - intros (view & -> & Hin). apply latest_view_is_some, Hin.
Qed.

Lemma length_fresh_rows (team_config_id start : Z) (views : list MattermostChannelView.t) :
  length (fresh_rows team_config_id start views) = length views.
Proof.
  revert start. induction views as [|view views IH]; intros start; cbn [fresh_rows length];
    [reflexivity|]. rewrite IH. reflexivity.
Qed.

Lemma omap_length_all {A B : Type} (f : A -> option B) (l : list A) :
  Forall (fun x => is_Some (f x)) l -> length (omap f l) = length l.
Proof.
  induction 1 as [|x l [y Hx] _ IH]; [reflexivity|].
  cbn [omap list_omap]. rewrite Hx. cbn [length]. rewrite IH. reflexivity.
Qed.

Lemma needs_rename_out_of_date (current_channels : list MattermostChannelView.t)
    (c : MattermostChannelConfig.t) :
  needs_rename (channel_map current_channels) c = out_of_date current_channels c.
Proof.
  unfold needs_rename, out_of_date. rewrite channel_map_lookup.
  destruct (latest_view _ _) as [view|]; [|reflexivity].
  unfold refresh_names.
  destruct (String.eqb (MattermostChannelConfig.channel_name c) _); cbn;
    destruct (String.eqb (MattermostChannelConfig.channel_type c) _); reflexivity.
Qed.

Lemma synced_rows_balance (m : gmap string MattermostChannelView.t) (team_config_id : Z)
    (l : list MattermostChannelConfig.t) :
  length (filter (fun c => MattermostChannelConfig.team_config_id c = team_config_id)
                 (omap (synced_row m team_config_id) l))
  + length (filter (fun c => m !! MattermostChannelConfig.channel_id c = None)
                   (filter (fun c => MattermostChannelConfig.team_config_id c
                                     = team_config_id) l))
  = length (filter (fun c => MattermostChannelConfig.team_config_id c = team_config_id) l).
Proof.
  induction l as [|r l IH]; [reflexivity|].
  cbn [omap list_omap]. rewrite (filter_cons _ r l).
  destruct (synced_row m team_config_id r) as [r'|] eqn:Hr.
  - pose proof (synced_row_some _ _ _ _ Hr) as (_ & Hteam & _ & _ & _ & _ & _ & _ & Hview).
    rewrite filter_cons.
    destruct (decide (MattermostChannelConfig.team_config_id r = team_config_id))
      as [Hmine|Hother].
    + rewrite decide_True by congruence. destruct (Hview Hmine) as (view & Hlookup & _).
      rewrite filter_cons, decide_False by congruence. cbn [length]. lia.
    + rewrite decide_False by congruence. exact IH.
  - unfold synced_row in Hr.
    destruct (bool_decide_reflect (MattermostChannelConfig.team_config_id r = team_config_id))
      as [Hmine|Hother]; [|discriminate].
    destruct (m !! MattermostChannelConfig.channel_id r) eqn:Hlookup; [discriminate|].
    rewrite decide_True by exact Hmine.
    rewrite filter_cons, decide_True by exact Hlookup. cbn [length]. lia.
Qed.

(** The three counts [sync_channel_configs] returns: the number of distinct
    current channels the team had no row for, the number of the team's rows
    whose channel is not current any more, and the number of the team's
    remaining rows whose name or type differed from the last view of their
    channel.  The team ends with as many rows as it had, plus the added,
    minus the removed. *)
Theorem sync_channel_configs_counts (t : ChannelTable) (team_config_id : Z)
    (current_channels : list MattermostChannelView.t) :
  table_ok t ->
  (sync_channel_configs t team_config_id current_channels).2
  = (Z.of_nat (size (list_to_set (MattermostChannelView.channel_id <$> current_channels)
                     ∖ list_to_set (MattermostChannelConfig.channel_id
                                      <$> get_channel_configs t team_config_id)
                     : gset string)),
     Z.of_nat (length (filter (fun c => MattermostChannelConfig.channel_id c
                                        ∉ MattermostChannelView.channel_id
                                            <$> current_channels)
                              (get_channel_configs t team_config_id))),
     Z.of_nat (length (filter (fun c => out_of_date current_channels c = true)
                              (get_channel_configs t team_config_id)))) /\
  Z.of_nat (length (get_channel_configs
                      (sync_channel_configs t team_config_id current_channels).1
                      team_config_id))
  = (Z.of_nat (length (get_channel_configs t team_config_id))
     + (sync_channel_configs t team_config_id current_channels).2.1.1
     - (sync_channel_configs t team_config_id current_channels).2.1.2)%Z.
Proof.
  intros Hok. rewrite (sync_channel_configs_run t team_config_id current_channels Hok).
  cbv zeta. cbn [fst snd rows].
  set (m := channel_map current_channels).
  set (existing := get_channel_configs t team_config_id).
  assert (Hdom : dom m = list_to_set (MattermostChannelView.channel_id <$> current_channels)).
  { apply set_eq. intros channel_id. unfold m.
    rewrite dom_channel_map, elem_of_list_to_set. reflexivity. }
  rewrite <- Hdom.
  set (to_add := dom m ∖ list_to_set (MattermostChannelConfig.channel_id <$> existing)
                 : gset string).
  assert (Hadded : length (omap (m !!.) (elements to_add)) = size to_add).
  { rewrite omap_length_all; [reflexivity|]. apply Forall_forall. intros channel_id Hin.
    apply elem_of_elements, elem_of_difference in Hin as [Hcurrent _].
    apply elem_of_dom in Hcurrent. exact Hcurrent. }
  assert (Hremoved : filter (fun c => m !! MattermostChannelConfig.channel_id c = None)
                            existing
                     = filter (fun c => MattermostChannelConfig.channel_id c
                                        ∉ MattermostChannelView.channel_id
                                            <$> current_channels) existing).
  { apply list_filter_iff. intros c. unfold m.
    rewrite <- dom_channel_map, not_elem_of_dom. reflexivity. }
  assert (Hupdated : filter (fun c => needs_rename m c = true) existing
                     = filter (fun c => out_of_date current_channels c = true) existing).
  { apply list_filter_iff. intros c. unfold m. rewrite needs_rename_out_of_date.
    reflexivity. }
  rewrite Hadded, Hremoved, Hupdated. split; [reflexivity|].
  unfold get_channel_configs at 1. cbn [rows]. rewrite filter_app, length_app.
  rewrite (filter_all _ (fresh_rows _ _ _)).
  2:{ eapply Forall_impl; [apply fresh_rows_ids|]. cbn. tauto. }
  rewrite length_fresh_rows, Hadded.
  pose proof (synced_rows_balance m team_config_id (rows t)) as Hbalance.
  fold (get_channel_configs t team_config_id) in Hbalance. fold existing in Hbalance.
  rewrite Hremoved in Hbalance. lia.
Qed.

End ChannelSync.

(** ** Further worked scenarios *)

Lemma refresh_all_routes_sound_witness :
  is_initialized (cache (@refresh_all sample_backend sample_state).2) = true /\
  forall team_id tenant_id,
    get_tenant (cache (@refresh_all sample_backend sample_state).2) team_id = Some tenant_id ->
    (exists db, dbs (world sample_state) !! tenant_id = Some db /\
                team_id ∈ enabled_team_ids (team_configs db)) /\
    (exists tenant_ids,
        all_tenant_ids (world sample_state) = Some tenant_ids /\ tenant_id ∈ tenant_ids) /\
    (exists gated, gated_tenants (world sample_state) = Some gated /\ tenant_id ∉ gated) /\
    (exists key, get_api_key (cache (@refresh_all sample_backend sample_state).2) tenant_id = Some key /\ key <> EmptyString).
Proof.
  apply (@refresh_all_routes_sound sample_backend sample_state).
  vm_compute. reflexivity.
Defined.

Lemma refresh_all_credentials_witness :
  (forall tenant_id key,
      get_api_key (cache (@refresh_all sample_backend warm_state).2) tenant_id = Some key ->
      key <> EmptyString /\
      (forall cached, get_api_key (cache warm_state) tenant_id = Some cached ->
                      cached <> EmptyString -> key = cached)) /\
  (forall tenant_id server_url,
      get_server_url (cache (@refresh_all sample_backend warm_state).2) tenant_id = Some server_url ->
      server_url <> EmptyString /\ is_Some (get_api_key (cache (@refresh_all sample_backend warm_state).2) tenant_id) /\
      exists db, dbs (world warm_state) !! tenant_id = Some db /\
                 MattermostBotConfig.server_url <$> bot_config db = Some server_url) /\
  (forall tenant_id bot_token,
      get_bot_token (cache (@refresh_all sample_backend warm_state).2) tenant_id = Some bot_token ->
      bot_token <> EmptyString /\ is_Some (get_api_key (cache (@refresh_all sample_backend warm_state).2) tenant_id) /\
      exists db, dbs (world warm_state) !! tenant_id = Some db /\
                 MattermostBotConfig.bot_token <$> bot_config db = Some bot_token).
Proof.
  apply (@refresh_all_credentials sample_backend warm_state).
  vm_compute. reflexivity.
Defined.

Lemma load_tenant_data_reuses_cached_key_witness :
  @_load_tenant_data sample_backend "tenant1" warm_state
  = (Returned (enabled_team_ids (team_configs tenant1_db),
               match enabled_team_ids (team_configs tenant1_db) with
               | [] => None
               | _ :: _ => Some "fresh_key"
               end,
               MattermostBotConfig.server_url <$> bot_config tenant1_db,
               MattermostBotConfig.bot_token <$> bot_config tenant1_db),
     warm_state).
Proof.
  apply (@load_tenant_data_reuses_cached_key sample_backend "tenant1" "fresh_key" tenant1_db
           warm_state); [reflexivity|discriminate|reflexivity].
Defined.

Lemma load_tenant_data_commits_key_witness :
  (exists api_key,
      (@_load_tenant_data sample_backend "tenant1" sample_state).1
      = Returned (enabled_team_ids (team_configs tenant1_db), Some api_key,
                  MattermostBotConfig.server_url <$> bot_config tenant1_db,
                  MattermostBotConfig.bot_token <$> bot_config tenant1_db) /\
      dbs (world (@_load_tenant_data sample_backend "tenant1" sample_state).2)
      = <["tenant1" := mkTenantDb (bot_config tenant1_db) (team_configs tenant1_db)
                         (Some (ApiKey.mk (@hash_api_key sample_backend api_key)
                                          (@build_displayable_api_key sample_backend api_key)))]>
          (dbs (world sample_state)) /\
      (service_api_key tenant1_db <> None ->
       api_key = @generate_api_key sample_backend "tenant1" (entropy (world sample_state)))) \/
  (exists msg,
      (@_load_tenant_data sample_backend "tenant1" sample_state).1 = Raised (RuntimeError msg) /\
      dbs (world (@_load_tenant_data sample_backend "tenant1" sample_state).2)
      = dbs (world sample_state) /\
      service_api_key tenant1_db = None).
Proof.
  apply (@load_tenant_data_commits_key sample_backend "tenant1" tenant1_db sample_state);
    [reflexivity|reflexivity|discriminate].
Defined.

Lemma refresh_all_without_teams_witness :
  @refresh_all sample_backend gated_state
  = (Returned tt, set_cache (mkCache ∅ ∅ ∅ ∅ true) gated_state).
Proof.
  apply (@refresh_all_without_teams sample_backend gated_state {["tenant1"]}
           ["tenant1"; "tenant2"]); [reflexivity|reflexivity|].
  intros tenant_id Hin. apply elem_of_cons in Hin as [->|Hin].
  - left. apply elem_of_singleton. reflexivity.
  - apply elem_of_cons in Hin as [->|Hin]; [|inversion Hin]. right. left. reflexivity.
Defined.

Lemma registration_rejected_by_database_witness :
  (dbs (world sample_state) !! "tenant1" = None ->
   @handle_registration_command sample_backend register_used_message sample_state
   = create_post (MattermostMessage.channel_id register_used_message)
                 (registration_failed_prefix +:+ unexpected_error_message)
                 (command_reply_root register_used_message) sample_state) /\
  (forall db,
      dbs (world sample_state) !! "tenant1" = Some db ->
      (list_find (fun c => MattermostTeamConfig.registration_key c
                           = strip "mattermost_tenant1.old")
                 (team_configs db) = None ->
       @handle_registration_command sample_backend register_used_message sample_state
       = create_post (MattermostMessage.channel_id register_used_message)
                     (registration_failed_prefix +:+ key_not_found_message)
                     (command_reply_root register_used_message) sample_state) /\
      (forall i config bound_team,
          list_find (fun c => MattermostTeamConfig.registration_key c
                              = strip "mattermost_tenant1.old")
                    (team_configs db) = Some (i, config) ->
          MattermostTeamConfig.team_id config = Some bound_team ->
          @handle_registration_command sample_backend register_used_message sample_state
          = create_post (MattermostMessage.channel_id register_used_message)
                        (registration_failed_prefix +:+ key_already_used_message)
                        (command_reply_root register_used_message) sample_state)).
Proof.
  apply (@registration_rejected_by_database sample_backend register_used_message
           "!register" "mattermost_tenant1.old" "tenant1" sample_state);
    reflexivity.
Defined.

Lemma registration_binds_key_witness :
  exists text db1,
    (@handle_registration_command sample_backend register_free_message sample_state).1
    = Returned tt /\
    posts (world (@handle_registration_command sample_backend register_free_message
                    sample_state).2)
    = posts (world sample_state)
      ++ [mkPost (MattermostMessage.channel_id register_free_message) text
                 (if truthy_opt (command_reply_root register_free_message)
                  then command_reply_root register_free_message else None)] /\
    (text = registration_success_message \/
     text = registration_failed_prefix +:+ unexpected_error_message) /\
    dbs (world (@handle_registration_command sample_backend register_free_message
                  sample_state).2) !! "tenant1" = Some db1 /\
    list_find (fun c => MattermostTeamConfig.registration_key c
                        = strip "mattermost_tenant1.secret")
              (team_configs db1)
    = Some (1, bind_team free_row (MattermostMessage.team_id register_free_message)
                         (clock (world sample_state))) /\
    (text = registration_success_message ->
     MattermostTeamConfig.enabled free_row = true ->
     get_tenant (cache (@handle_registration_command sample_backend register_free_message
                          sample_state).2)
                (MattermostMessage.team_id register_free_message) = Some "tenant1").
Proof.
  apply (@registration_binds_key sample_backend register_free_message
           "!register" "mattermost_tenant1.secret" "tenant1" sample_state tenant1_db
           1 free_row); try reflexivity.
  constructor.
Defined.

Lemma process_chat_message_reply_witness :
  exists context,
    (MattermostMessage.is_thread (sample_message "teamA" "What is six times seven?") = false ->
     context = None) /\
    posts (world (@process_chat_message sample_chat_backend
                    (sample_message "teamA" "What is six times seven?")
                    "fresh_key" None true "bot" sample_state).2)
    = posts (world sample_state)
      ++ match @send_chat_message sample_chat_backend
                 (chat_request (sample_message "teamA" "What is six times seven?") context)
                 "fresh_key" None with
         | Returned response =>
             (fun chunk =>
                mkPost (MattermostMessage.channel_id
                          (sample_message "teamA" "What is six times seven?")) chunk
                       (response_root (sample_message "teamA" "What is six times seven?") true))
               <$> _split_message
                     (_append_citations
                        (if truthy (ChatFullResponse.answer response)
                         then ChatFullResponse.answer response
                         else "I couldn't generate a response.")
                        response)
         | Raised _ => [error_reply (sample_message "teamA" "What is six times seven?")]
         end.
Proof.
  apply (@process_chat_message_reply sample_chat_backend
           (sample_message "teamA" "What is six times seven?") "fresh_key" None true "bot"
           sample_state).
  constructor.
Defined.


Lemma sync_channel_configs_result_witness :
  table_ok (@sync_channel_configs sample_channel_defaults sample_channel_table 3
              sample_channel_views).1 /\
  (forall r',
      r' ∈ rows (@sync_channel_configs sample_channel_defaults sample_channel_table 3
                   sample_channel_views).1 ->
      MattermostChannelConfig.team_config_id r' = 3%Z ->
      exists view,
        latest_view sample_channel_views (MattermostChannelConfig.channel_id r') = Some view /\
        MattermostChannelConfig.channel_name r' = MattermostChannelView.channel_name view /\
        MattermostChannelConfig.channel_type r' = MattermostChannelView.channel_type view) /\
  (forall view,
      view ∈ sample_channel_views ->
      exists r',
        r' ∈ rows (@sync_channel_configs sample_channel_defaults sample_channel_table 3
                     sample_channel_views).1 /\
        MattermostChannelConfig.team_config_id r' = 3%Z /\
        MattermostChannelConfig.channel_id r' = MattermostChannelView.channel_id view).
Proof.
  apply (@sync_channel_configs_result sample_channel_defaults sample_channel_table 3
           sample_channel_views).
  split; refine (bool_decide_unpack _ _); vm_compute; exact I.
Defined.

Lemma sync_channel_configs_frame_witness :
  filter (fun r => MattermostChannelConfig.team_config_id r <> 3%Z)
         (rows (@sync_channel_configs sample_channel_defaults sample_channel_table 3
                  sample_channel_views).1)
  = filter (fun r => MattermostChannelConfig.team_config_id r <> 3%Z)
           (rows sample_channel_table) /\
  (forall r',
      r' ∈ rows (@sync_channel_configs sample_channel_defaults sample_channel_table 3
                   sample_channel_views).1 ->
      (MattermostChannelConfig.id r' < next_id sample_channel_table)%Z ->
      exists r,
        r ∈ rows sample_channel_table /\
        MattermostChannelConfig.id r = MattermostChannelConfig.id r' /\
        MattermostChannelConfig.team_config_id r = MattermostChannelConfig.team_config_id r' /\
        MattermostChannelConfig.channel_id r = MattermostChannelConfig.channel_id r' /\
        MattermostChannelConfig.enabled r = MattermostChannelConfig.enabled r' /\
        MattermostChannelConfig.require_bot_invocation r
        = MattermostChannelConfig.require_bot_invocation r' /\
        MattermostChannelConfig.thread_only_mode r
        = MattermostChannelConfig.thread_only_mode r' /\
        MattermostChannelConfig.persona_override_id r
        = MattermostChannelConfig.persona_override_id r') /\
  (forall r,
      r ∈ rows sample_channel_table ->
      MattermostChannelConfig.team_config_id r = 3%Z ->
      MattermostChannelConfig.channel_id r
      ∈ MattermostChannelView.channel_id <$> sample_channel_views ->
      exists r',
        r' ∈ rows (@sync_channel_configs sample_channel_defaults sample_channel_table 3
                     sample_channel_views).1 /\
        MattermostChannelConfig.id r' = MattermostChannelConfig.id r) /\
  (forall r',
      r' ∈ rows (@sync_channel_configs sample_channel_defaults sample_channel_table 3
                   sample_channel_views).1 ->
      (next_id sample_channel_table <= MattermostChannelConfig.id r')%Z ->
      MattermostChannelConfig.team_config_id r' = 3%Z /\
      MattermostChannelConfig.enabled r' = @default_enabled sample_channel_defaults /\
      MattermostChannelConfig.require_bot_invocation r'
      = @default_require_bot_invocation sample_channel_defaults /\
      MattermostChannelConfig.thread_only_mode r'
      = @default_thread_only_mode sample_channel_defaults /\
      MattermostChannelConfig.persona_override_id r'
      = @default_persona_override_id sample_channel_defaults).
Proof.
  apply (@sync_channel_configs_frame sample_channel_defaults sample_channel_table 3
           sample_channel_views).
  split; refine (bool_decide_unpack _ _); vm_compute; exact I.
Defined.

Lemma sync_channel_configs_idempotent_witness :
  @sync_channel_configs sample_channel_defaults
     (@sync_channel_configs sample_channel_defaults sample_channel_table 3
        sample_channel_views).1 3 sample_channel_views
  = ((@sync_channel_configs sample_channel_defaults sample_channel_table 3
        sample_channel_views).1, (0, 0, 0)%Z).
Proof.
  apply (@sync_channel_configs_idempotent sample_channel_defaults sample_channel_table 3
           sample_channel_views).
  split; refine (bool_decide_unpack _ _); vm_compute; exact I.
Defined.

Lemma sync_channel_configs_counts_witness :
  (@sync_channel_configs sample_channel_defaults sample_channel_table 3
     sample_channel_views).2
  = (Z.of_nat (size (list_to_set (MattermostChannelView.channel_id <$> sample_channel_views)
                     ∖ list_to_set (MattermostChannelConfig.channel_id
                                      <$> get_channel_configs sample_channel_table 3)
                     : gset string)),
     Z.of_nat (length (filter (fun c => MattermostChannelConfig.channel_id c
                                        ∉ MattermostChannelView.channel_id
                                            <$> sample_channel_views)
                              (get_channel_configs sample_channel_table 3))),
     Z.of_nat (length (filter (fun c => out_of_date sample_channel_views c = true)
                              (get_channel_configs sample_channel_table 3)))) /\
  Z.of_nat (length (get_channel_configs
                      (@sync_channel_configs sample_channel_defaults sample_channel_table 3
                         sample_channel_views).1 3))
  = (Z.of_nat (length (get_channel_configs sample_channel_table 3))
     + (@sync_channel_configs sample_channel_defaults sample_channel_table 3
          sample_channel_views).2.1.1
     - (@sync_channel_configs sample_channel_defaults sample_channel_table 3
          sample_channel_views).2.1.2)%Z.
Proof.
  apply (@sync_channel_configs_counts sample_channel_defaults sample_channel_table 3
           sample_channel_views).
  split; refine (bool_decide_unpack _ _); vm_compute; exact I.
Defined.

(** The sample table after a synchronisation of team 3: the renamed channel
    keeps its row and its settings, the vanished channel loses its row, the
    new channel gets a disabled row, and team 4 is untouched. *)
Example sync_channel_configs_example :
  @sync_channel_configs sample_channel_defaults sample_channel_table 3 sample_channel_views
  = (mkChannelTable
       [MattermostChannelConfig.mk 1 3 "chanA" "town-square" "O" true false true (Some 7%Z);
        MattermostChannelConfig.mk 3 4 "chanC" "other-team" "P" true true false None;
        MattermostChannelConfig.mk 4 3 "chanD" "support" "P" false true false None]
       5,
     (1, 1, 1)%Z).
Proof. vm_compute. reflexivity. Qed.

Lemma refresh_all_routes_complete_witness :
  is_Some (get_tenant (cache (@refresh_all sample_backend warm_state).2) "teamA") /\
  get_api_key (cache (@refresh_all sample_backend warm_state).2) "tenant1" = Some "fresh_key".
Proof.
  apply (@refresh_all_routes_complete sample_backend warm_state
           (@refresh_all sample_backend warm_state).2 ∅ ["tenant1"; "tenant2"]
           "tenant1" "teamA" "fresh_key" tenant1_db);
    [reflexivity|reflexivity|reflexivity|left|apply not_elem_of_empty|reflexivity
    |vm_compute; left|reflexivity|discriminate].
Defined.
